(** * Trading Assistant Streamlit front end: a shallow embedding

    The page script [streamlit_app.py] is modelled as a program in a small
    monad of state, exceptions and output: one run of the script reads the
    widget inputs of that run, reads and updates the session state, calls
    the backend at most once and draws a tree of display widgets.

    - Python values the script handles (the backend's response
      dictionaries) are the inductive type [pyval]; dictionaries keep
      insertion order and are association lists.
    - Python's binary64 floats are [spec_float] values with the IEEE-754
      operations of [SpecFloat] at precision 53.
    - Text shown to the user is kept as the pieces of the f-string that
      builds it: literal segments and interpolated values; the conversion
      of an interpolated value to text is not modelled.  CPython's limit
      on the digits of an [int] is modelled where the script calls
      [json.dumps].
    - The backend ([TradingAssistantSystem], imported from [main]) is not
      part of this file; its constructor and its [process_query_sync] are
      parameters of the section that models the code calling them.
    - Input widgets (buttons, check boxes, text inputs, the form) are not
      drawn: what they return in a run is read from the [inputs] of the
      run.  [st.spinner] is transparent, [st.set_page_config] draws
      nothing, and the columns made by [st.columns] appear where their
      [with] blocks are. *)

From Stdlib Require Import ZArith List String Ascii Bool Lia.
From Stdlib Require Import Floats.SpecFloat DecimalString.
From Stdlib Require DecimalFacts DecimalPos DecimalN.
Import ListNotations.
Open Scope string_scope.
Open Scope Z_scope.

Set Implicit Arguments.
Set Warnings "-register-all".

(* ================================================================= *)
(** * Python values *)

(** The values a response dictionary can hold.  A [str] is held as the
    UTF-8 bytes of its characters; a [dict] with string keys is kept in
    insertion order. *)
Inductive pyval : Type :=
| PyNone
| PyBool (b : bool)
| PyInt (z : Z)
| PyFloat (f : spec_float)
| PyStr (s : string)
| PyList (l : list pyval)
| PyDict (d : list (string * pyval)).

Definition pydict := list (string * pyval).

(** [type(v).__name__] *)
Definition type_name (v : pyval) : string :=
  match v with
  | PyNone => "NoneType"
  | PyBool _ => "bool"
  | PyInt _ => "int"
  | PyFloat _ => "float"
  | PyStr _ => "str"
  | PyList _ => "list"
  | PyDict _ => "dict"
  end.

(** The double quote. *)
Definition dq : string := String (ascii_of_nat 34) EmptyString.

(** [bool(v)]: Python's truth value testing. *)
Definition truthy (v : pyval) : bool :=
  match v with
  | PyNone => false
  | PyBool b => b
  | PyInt z => negb (z =? 0)
  | PyFloat (S754_zero _) => false
  | PyFloat _ => true
  | PyStr s => negb (s =? "")%string
  | PyList l => match l with [] => false | _ => true end
  | PyDict d => match d with [] => false | _ => true end
  end.

(** ** Exceptions *)

Inductive exn_class :=
| KeyError
| TypeError
| ValueError
| AttributeError
| OverflowError
| ZeroDivisionError
| OtherException (name : string).

(** An instance of (a subclass of) [Exception], what an
    [except Exception] clause catches; [exn_str] is [str(e)].
    [KeyboardInterrupt], [SystemExit] and the like are not modelled. *)
Record exn := mkExn { exn_cls : exn_class; exn_str : string }.

Inductive result (A : Type) :=
| Returns (a : A)
| Raises (e : exn).
Arguments Returns {A} a.
Arguments Raises {A} e.

Definition rbind {A B} (r : result A) (k : A -> result B) : result B :=
  match r with
  | Returns a => k a
  | Raises e => Raises e
  end.

(** ** Dictionaries *)

Fixpoint dict_lookup (k : string) (d : pydict) : option pyval :=
  match d with
  | [] => None
  | (k', v) :: d' => if (k =? k')%string then Some v else dict_lookup k d'
  end.

(** [d.get(k, default)] *)
Definition dict_get (d : pydict) (k : string) (default : pyval) : pyval :=
  match dict_lookup k d with
  | Some v => v
  | None => default
  end.

(** [d[k]]: [KeyError(k)] when the key is missing; [str] of a [KeyError]
    is the [repr] of the key. *)
Definition dict_getitem (d : pydict) (k : string) : result pyval :=
  match dict_lookup k d with
  | Some v => Returns v
  | None => Raises (mkExn KeyError ("'" ++ k ++ "'"))
  end.

(** [d[k] = v]: replaces the value in place, or appends a new key. *)
Fixpoint dict_set (d : pydict) (k : string) (v : pyval) : pydict :=
  match d with
  | [] => [(k, v)]
  | (k', v') :: d' =>
      if (k =? k')%string then (k', v) :: d' else (k', v') :: dict_set d' k v
  end.

(** [o.get(k, default)] on an arbitrary value: only a [dict] has [get]. *)
Definition py_get (o : pyval) (k : string) (default : pyval) : result pyval :=
  match o with
  | PyDict d => Returns (dict_get d k default)
  | _ =>
      Raises (mkExn AttributeError
                ("'" ++ type_name o ++ "' object has no attribute 'get'"))
  end.

(** [o.items()] *)
Definition py_items (o : pyval) : result (list (string * pyval)) :=
  match o with
  | PyDict d => Returns d
  | _ =>
      Raises (mkExn AttributeError
                ("'" ++ type_name o ++ "' object has no attribute 'items'"))
  end.

(** A [str] is held as its UTF-8 bytes; a byte [10xxxxxx] continues the
    character that the bytes before it have begun. *)
Definition continuation (c : ascii) : bool :=
  let n := N_of_ascii c in ((128 <=? n) && (n <? 192))%N.

Definition continues (s : string) : bool :=
  match s with
  | String c _ => continuation c
  | EmptyString => false
  end.

(** The characters of a [str], each one a [str] of length one. *)
Fixpoint chars (s : string) : list pyval :=
  match s with
  | EmptyString => []
  | String c s' =>
      if continues s' then
        match chars s' with
        | PyStr t :: r => PyStr (String c t) :: r
        | r => PyStr (String c EmptyString) :: r
        end
      else PyStr (String c EmptyString) :: chars s'
  end.

(** [iter(o)]: the elements a [for] loop visits. *)
Definition py_iter (o : pyval) : result (list pyval) :=
  match o with
  | PyList l => Returns l
  | PyStr s => Returns (chars s)
  | PyDict d => Returns (map (fun kv => PyStr (fst kv)) d)
  | _ =>
      Raises (mkExn TypeError ("'" ++ type_name o ++ "' object is not iterable"))
  end.

(** [a == "lit"] for a string literal on the right. *)
Definition py_eq_str (a : pyval) (lit : string) : bool :=
  match a with
  | PyStr s => (s =? lit)%string
  | _ => false
  end.

(* ================================================================= *)
(** * Floats: IEEE-754 binary64 *)

Definition prec64 : Z := 53.
Definition emax64 : Z := 1024.

Definition float_add := SFadd prec64 emax64.
Definition float_mul := SFmul prec64 emax64.
Definition float_div := SFdiv prec64 emax64.

(** [float(z)]: correctly rounded; an integer beyond the largest finite
    double raises [OverflowError]. *)
Definition int_to_float (z : Z) : result spec_float :=
  match binary_normalize prec64 emax64 z 0 false with
  | S754_infinity _ =>
      Raises (mkExn OverflowError "int too large to convert to float")
  | f => Returns f
  end.

(** [a / b] on two [int]s: the correctly rounded quotient. *)
Definition int_truediv (a b : Z) : result spec_float :=
  if b =? 0 then Raises (mkExn ZeroDivisionError "division by zero")
  else
    let sign := xorb (a <? 0) (b <? 0) in
    if a =? 0 then Returns (S754_zero sign)
    else
      let '(mz, ez, lz) :=
        SFdiv_core_binary prec64 emax64 (Z.abs a) 0 (Z.abs b) 0 in
      match binary_round_aux prec64 emax64 sign mz ez lz with
      | S754_infinity _ =>
          Raises (mkExn OverflowError
                    "integer division result too large for a float")
      | f => Returns f
      end.

Definition float_is_zero (f : spec_float) : bool :=
  match f with
  | S754_zero _ => true
  | _ => false
  end.

(** The numeric tower: [bool] is an [int]. *)
Inductive number :=
| NInt (z : Z)
| NFloat (f : spec_float).

Definition as_number (v : pyval) : option number :=
  match v with
  | PyBool b => Some (NInt (if b then 1 else 0))
  | PyInt z => Some (NInt z)
  | PyFloat f => Some (NFloat f)
  | _ => None
  end.

Definition number_to_float (n : number) : result spec_float :=
  match n with
  | NInt z => int_to_float z
  | NFloat f => Returns f
  end.

(** [a + b] *)
Definition py_add (a b : pyval) : result pyval :=
  match as_number a, as_number b with
  | Some (NInt x), Some (NInt y) => Returns (PyInt (x + y))
  | Some x, Some y =>
      rbind (number_to_float x) (fun fx =>
      rbind (number_to_float y) (fun fy =>
      Returns (PyFloat (float_add fx fy))))
  | _, _ =>
      match a, b with
      | PyStr s, PyStr t => Returns (PyStr (s ++ t))
      | PyList l, PyList m => Returns (PyList (l ++ m)%list)
      | PyStr _, _ =>
          Raises (mkExn TypeError
                    ("can only concatenate str (not " ++ dq ++ type_name b ++
                     dq ++ ") to str"))
      | PyList _, _ =>
          Raises (mkExn TypeError
                    ("can only concatenate list (not " ++ dq ++ type_name b ++
                     dq ++ ") to list"))
      | _, _ =>
          Raises (mkExn TypeError
                    ("unsupported operand type(s) for +: '" ++ type_name a ++
                     "' and '" ++ type_name b ++ "'"))
      end
  end.

(** [a / b] *)
Definition py_truediv (a b : pyval) : result pyval :=
  match as_number a, as_number b with
  | Some (NInt x), Some (NInt y) =>
      rbind (int_truediv x y) (fun f => Returns (PyFloat f))
  | Some x, Some y =>
      rbind (number_to_float x) (fun fx =>
      rbind (number_to_float y) (fun fy =>
      if float_is_zero fy
      then Raises (mkExn ZeroDivisionError "float division by zero")
      else Returns (PyFloat (float_div fx fy))))
  | _, _ =>
      Raises (mkExn TypeError
                ("unsupported operand type(s) for /: '" ++ type_name a ++
                 "' and '" ++ type_name b ++ "'"))
  end.

(** ** Fixed-point formatting, [format(x, ".1f")] *)

Definition decimal (n : Z) : string :=
  NilZero.string_of_uint (N.to_uint (Z.to_N n)).

(** [n / d] rounded to the nearest integer, ties to the even one
    ([0 <= n], [0 < d]). *)
Definition div_half_even (n d : Z) : Z :=
  let q := n / d in
  let r := n mod d in
  match 2 * r ?= d with
  | Lt => q
  | Gt => q + 1
  | Eq => if Z.even q then q else q + 1
  end.

(** The number of tenths nearest to [m * 2^e]. *)
Definition tenths (m : positive) (e : Z) : Z :=
  match e with
  | Zneg p => div_half_even (Zpos m * 10) (2 ^ Zpos p)
  | _ => Zpos m * 10 * 2 ^ e
  end.

Definition sign_text (s : bool) : string := if s then "-" else "".

Definition format_1f (f : spec_float) : string :=
  match f with
  | S754_nan => "nan"
  | S754_infinity s => sign_text s ++ "inf"
  | S754_zero s => sign_text s ++ "0.0"
  | S754_finite s m e =>
      let t := tenths m e in
      sign_text s ++ decimal (t / 10) ++ "." ++ decimal (t mod 10)
  end.

(** [f"{v:.1f}"]: a number is printed as a float; a string does not know
    the format code, and the other values take no format string. *)
Definition py_format_1f (v : pyval) : result string :=
  match as_number v with
  | Some n => rbind (number_to_float n) (fun f => Returns (format_1f f))
  | None =>
      match v with
      | PyStr _ =>
          Raises (mkExn ValueError
                    "Unknown format code 'f' for object of type 'str'")
      | _ =>
          Raises (mkExn TypeError
                    ("unsupported format string passed to " ++ type_name v ++
                     ".__format__"))
      end
  end.

(* ================================================================= *)
(** * Timestamps *)

(** A naive [datetime], as [datetime.now()] returns it. *)
Record datetime := mkDatetime {
  year : Z; month : Z; day : Z;
  hour : Z; minute : Z; second : Z; microsecond : Z
}.

Fixpoint zeros (n : nat) : string :=
  match n with
  | O => ""
  | S n' => "0" ++ zeros n'
  end.

(** ["%0<width>d" % n] *)
Definition zpad (width : nat) (n : Z) : string :=
  let s := decimal n in
  zeros (width - String.length s) ++ s.

(** [t.strftime('%H:%M:%S')] *)
Definition strftime_HMS (t : datetime) : string :=
  zpad 2 (hour t) ++ ":" ++ zpad 2 (minute t) ++ ":" ++ zpad 2 (second t).

(** [t.strftime('%Y-%m-%d')]; the C library writes the year of [%Y]
    without padding. *)
Definition strftime_Ymd (t : datetime) : string :=
  decimal (year t) ++ "-" ++ zpad 2 (month t) ++ "-" ++ zpad 2 (day t).

(** [t.strftime('%Y-%m-%d %H:%M:%S')] *)
Definition strftime_Ymd_HMS (t : datetime) : string :=
  strftime_Ymd t ++ " " ++ strftime_HMS t.

(** [t.strftime('%Y%m%d_%H%M%S')] *)
Definition strftime_compact (t : datetime) : string :=
  decimal (year t) ++ zpad 2 (month t) ++ zpad 2 (day t) ++ "_" ++
  zpad 2 (hour t) ++ zpad 2 (minute t) ++ zpad 2 (second t).

(** [t.isoformat()]: [YYYY-MM-DDTHH:MM:SS], followed by [.ffffff] when the
    microsecond field is not zero. *)
Definition isoformat (t : datetime) : string :=
  zpad 4 (year t) ++ "-" ++ zpad 2 (month t) ++ "-" ++ zpad 2 (day t) ++
  "T" ++ strftime_HMS t ++
  (if microsecond t =? 0 then "" else "." ++ zpad 6 (microsecond t)).

(* ================================================================= *)
(** * JSON documents *)

(** [json.dumps] and [json.loads] are modelled on the token sequence of
    the document.  A string token carries the string it denotes and a
    number token the number it denotes: the escaping of characters, the
    digits of a number and the white space that [indent=2] adds belong to
    the lexical layer of Python's [json] module. *)
Inductive token :=
| TLBrace | TRBrace
| TLBracket | TRBracket
| TComma | TColon
| TString (s : string)
| TInt (z : Z)
| TFloat (f : spec_float)
| TTrue | TFalse | TNull.

(** The elements of an array, separated by commas, and its closing
    bracket. *)
Definition dumps_items (dump : pyval -> list token)
  : list pyval -> list token :=
  fix items (l : list pyval) : list token :=
    match l with
    | [] => [TRBracket]
    | x :: l' =>
        (dump x ++
         match l' with
         | [] => [TRBracket]
         | _ => TComma :: items l'
         end)%list
    end.

(** The members of an object, separated by commas, and its closing
    brace. *)
Definition dumps_members (dump : pyval -> list token)
  : list (string * pyval) -> list token :=
  fix members (d : list (string * pyval)) : list token :=
    match d with
    | [] => [TRBrace]
    | (k, x) :: d' =>
        (TString k :: TColon :: dump x ++
         match d' with
         | [] => [TRBrace]
         | _ => TComma :: members d'
         end)%list
    end.

(** The document of a value, as the encoder writes it when it raises
    nothing. *)
Fixpoint json_encode (v : pyval) : list token :=
  match v with
  | PyNone => [TNull]
  | PyBool true => [TTrue]
  | PyBool false => [TFalse]
  | PyInt z => [TInt z]
  | PyFloat f => [TFloat f]
  | PyStr s => [TString s]
  | PyList l => TLBracket :: dumps_items json_encode l
  | PyDict d => TLBrace :: dumps_members json_encode d
  end.

(** [sys.get_int_max_str_digits()]: CPython refuses to print an [int]
    of more decimal digits, and the encoder prints an [int] with
    [int.__repr__]. *)
Definition int_max_str_digits : Z := 4300.

Definition printable_int (z : Z) : bool :=
  Z.abs z <? 10 ^ int_max_str_digits.

Fixpoint printable (v : pyval) : bool :=
  match v with
  | PyInt z => printable_int z
  | PyList l => forallb printable l
  | PyDict d => forallb (fun kv => printable (snd kv)) d
  | _ => true
  end.

(** [json.dumps(v, indent=2)]: [ValueError] when the value holds an
    [int] that cannot be printed.  (A value nested deeper than the
    interpreter's recursion limit allows makes the encoder raise
    [RecursionError]; the limit depends on the interpreter and is not
    modelled, the properties of the export are stated for values nested
    at most [max_nesting] deep.) *)
Definition json_dumps (v : pyval) : result (list token) :=
  if printable v then Returns (json_encode v)
  else Raises (mkExn ValueError
                 ("Exceeds the limit (4300 digits) for integer string " ++
                  "conversion; use sys.set_int_max_str_digits() to " ++
                  "increase the limit")).

(** How deep the lists and dictionaries of a value are nested. *)
Fixpoint nesting (v : pyval) : nat :=
  match v with
  | PyList l => S (fold_right (fun x n => Nat.max (nesting x) n) O l)
  | PyDict d => S (fold_right (fun kv n => Nat.max (nesting (snd kv)) n) O d)
  | _ => O
  end.

Definition max_nesting : nat := 100.

(** The decoder, a recursive descent over the tokens.  [fuel] bounds the
    number of nested calls; [json_loads] supplies more than any document
    of that length needs.  Members are stored with [dict_set], so a
    repeated key keeps its first position and its last value. *)
Fixpoint parse_value (fuel : nat) (ts : list token)
  : option (pyval * list token) :=
  match fuel with
  | O => None
  | S fuel' =>
      match ts with
      | TNull :: r => Some (PyNone, r)
      | TTrue :: r => Some (PyBool true, r)
      | TFalse :: r => Some (PyBool false, r)
      | TInt z :: r => Some (PyInt z, r)
      | TFloat f :: r => Some (PyFloat f, r)
      | TString s :: r => Some (PyStr s, r)
      | TLBracket :: TRBracket :: r => Some (PyList [], r)
      | TLBracket :: r => parse_elements fuel' r []
      | TLBrace :: TRBrace :: r => Some (PyDict [], r)
      | TLBrace :: r => parse_members fuel' r []
      | _ => None
      end
  end
with parse_elements (fuel : nat) (ts : list token) (acc : list pyval)
  : option (pyval * list token) :=
  match fuel with
  | O => None
  | S fuel' =>
      match parse_value fuel' ts with
      | Some (v, TComma :: r) => parse_elements fuel' r (acc ++ [v])%list
      | Some (v, TRBracket :: r) => Some (PyList (acc ++ [v])%list, r)
      | _ => None
      end
  end
with parse_members (fuel : nat) (ts : list token) (acc : pydict)
  : option (pyval * list token) :=
  match fuel with
  | O => None
  | S fuel' =>
      match ts with
      | TString k :: TColon :: r =>
          match parse_value fuel' r with
          | Some (v, TComma :: r') => parse_members fuel' r' (dict_set acc k v)
          | Some (v, TRBrace :: r') => Some (PyDict (dict_set acc k v), r')
          | _ => None
          end
      | _ => None
      end
  end.

(** [json.loads]: [None] stands for [JSONDecodeError]. *)
Definition json_loads (ts : list token) : option pyval :=
  match parse_value (S (List.length ts)) ts with
  | Some (v, []) => Some v
  | _ => None
  end.

(** A Python [dict] holds each key once. *)
Fixpoint distinct_keys (d : pydict) : bool :=
  match d with
  | [] => true
  | (k, _) :: d' =>
      match dict_lookup k d' with
      | Some _ => false
      | None => distinct_keys d'
      end
  end.

Fixpoint well_formed (v : pyval) : bool :=
  match v with
  | PyList l => forallb well_formed l
  | PyDict d =>
      distinct_keys d && forallb (fun kv => well_formed (snd kv)) d
  | _ => true
  end.

(* ================================================================= *)
(** * Display widgets *)

(** A piece of displayed text: a literal segment, [str(v)] of an
    interpolated value, or the text of [traceback.format_exc()] for the
    exception being handled. *)
Inductive part :=
| Lit (s : string)
| Val (v : pyval)
| FormatExc (e : exn).

Definition text := list part.

(** One constructor per Streamlit display call; the containers
    ([with ...:] blocks) hold the widgets emitted inside them.
    [MarkdownHtml] is [st.markdown(..., unsafe_allow_html=True)] and
    [WriteObj] is [st.write] applied to a value that is not an f-string. *)
Inductive widget :=
| Markdown (t : text)
| MarkdownHtml (t : text)
| Write (t : text)
| WriteObj (v : pyval)
| Info (t : text)
| Success (t : text)
| Warning (t : text)
| Error (t : text)
| Metric (label : string) (value : text)
| Json (v : pyval)
| Code (t : text)
| Image (url : string)
| DownloadButton (label : string) (data : list token)
                 (file_name : string) (mime : string)
| Expander (label : string) (body : list widget)
| Column (index : nat) (body : list widget)
| Tab (label : string) (body : list widget)
| Container (body : list widget)
| Sidebar (body : list widget).

(* ================================================================= *)
(** * Session, world and the script monad *)

(** A backend instance: its identity and its [config] dictionary. *)
Record system_t := mkSystem { sys_id : nat; sys_config : pydict }.

(** A query record, one element of [st.session_state.chat_history]. *)
Record chat := mkChat {
  timestamp : datetime;
  query : string;
  response : pydict
}.

Record session_state := mkSession {
  system : option system_t;
  chat_history : list chat;
  initialized : bool;
  current_query : option string
}.

(** [init_session_state]: a fresh session gets the three defaults, an
    existing one keeps its values. *)
Definition init_session_state (st : option session_state) : session_state :=
  match st with
  | Some s => s
  | None =>
      {| system := None; chat_history := []; initialized := false;
         current_query := None |}
  end.

(** The arguments of [initialize_system], the key of its cache. *)
Definition cache_key := (bool * bool * string)%type.

(** What [initialize_system] returns: [(system, None)] or
    [(None, str(e))]. *)
Definition init_result := (option system_t * option string)%type.

(** Everything a run can read and change, apart from the page it
    draws. *)
Record world := mkWorld {
  session : session_state;
  calls : list string;           (* queries sent to the backend *)
  cache : list (cache_key * init_result);  (* st.cache_resource store *)
  environ : list (string * string);        (* os.environ *)
  next_id : nat                  (* identity of the next new object *)
}.

Definition set_session (s : session_state) (w : world) : world :=
  mkWorld s (calls w) (cache w) (environ w) (next_id w).
Definition set_calls (c : list string) (w : world) : world :=
  mkWorld (session w) c (cache w) (environ w) (next_id w).
Definition set_cache (c : list (cache_key * init_result)) (w : world) : world :=
  mkWorld (session w) (calls w) c (environ w) (next_id w).
Definition set_environ (e : list (string * string)) (w : world) : world :=
  mkWorld (session w) (calls w) (cache w) e (next_id w).
Definition set_next_id (n : nat) (w : world) : world :=
  mkWorld (session w) (calls w) (cache w) (environ w) n.

(** How a block of the script ends: normally, by an exception, or by
    [st.rerun()], which stops the run and is no [Exception]. *)
Inductive outcome (A : Type) :=
| Ok (a : A)
| Raise (e : exn)
| Rerun.
Arguments Ok {A} a.
Arguments Raise {A} e.
Arguments Rerun {A}.

(** A block of the script: from the world before it to how it ends, the
    world after it and the widgets it has drawn, in order. *)
Definition ui (A : Type) := world -> outcome A * world * list widget.

Definition ret {A} (a : A) : ui A := fun w => (Ok a, w, []).

Definition bind {A B} (m : ui A) (k : A -> ui B) : ui B :=
  fun w =>
    match m w with
    | (Ok a, w', ws) =>
        let '(r, w'', ws') := k a w' in (r, w'', (ws ++ ws')%list)
    | (Raise e, w', ws) => (Raise e, w', ws)
    | (Rerun, w', ws) => (Rerun, w', ws)
    end.

Declare Scope ui_scope.
Delimit Scope ui_scope with ui.
Notation "x <- m ;; k" := (bind m (fun x => k))
  (at level 100, m at next level, right associativity) : ui_scope.
Notation "m ;; k" := (bind m (fun _ => k))
  (at level 100, right associativity) : ui_scope.
Open Scope ui_scope.

Definition lift {A} (r : result A) : ui A :=
  fun w =>
    match r with
    | Returns a => (Ok a, w, [])
    | Raises e => (Raise e, w, [])
    end.

Definition raise {A} (e : exn) : ui A := fun w => (Raise e, w, []).

(** [st.rerun()] *)
Definition st_rerun : ui unit := fun w => (Rerun, w, []).

Definition emit (x : widget) : ui unit := fun w => (Ok tt, w, [x]).

Definition get_session : ui session_state :=
  fun w => (Ok (session w), w, []).
Definition put_session (s : session_state) : ui unit :=
  fun w => (Ok tt, set_session s w, []).

(** [with container: body]: the widgets of [body] go into the container,
    also when [body] ends by an exception. *)
Definition within {A} (wrap : list widget -> widget) (body : ui A) : ui A :=
  fun w =>
    let '(r, w', ws) := body w in (r, w', [wrap ws]).

(** [try: body  except Exception as e: handler e] *)
Definition try_except {A} (body : ui A) (handler : exn -> ui A) : ui A :=
  fun w =>
    match body w with
    | (Raise e, w', ws) =>
        let '(r, w'', ws') := handler e w' in (r, w'', (ws ++ ws')%list)
    | r => r
    end.

(** [for x in xs: body x] *)
Fixpoint for_each {A} (xs : list A) (body : A -> ui unit) : ui unit :=
  match xs with
  | [] => ret tt
  | x :: xs' => body x ;; for_each xs' body
  end.

Definition when (b : bool) (body : ui unit) : ui unit :=
  if b then body else ret tt.

(** [enumerate(xs, start)] *)
Fixpoint enumerate {A} (start : nat) (xs : list A) : list (nat * A) :=
  match xs with
  | [] => []
  | x :: xs' => (start, x) :: enumerate (S start) xs'
  end.

(* ================================================================= *)
(** * The page script *)

(** ** Widget inputs of one run *)

(** The buttons of the page.  A run is triggered by at most one of them. *)
Inductive button :=
| BtnInitialize               (* "Initialize System" *)
| BtnClear                    (* "Clear Chat History" *)
| BtnViewConfig               (* "View Configuration" *)
| BtnExample (q : string)     (* key [example_<q>] *)
| BtnAnalyze                  (* the form's submit button *)
| BtnDetail (i : nat)         (* "View Details", key [detail_<i>] *)
| BtnExport.                  (* "Export History as JSON" *)

Definition button_eqb (a b : button) : bool :=
  match a, b with
  | BtnInitialize, BtnInitialize => true
  | BtnClear, BtnClear => true
  | BtnViewConfig, BtnViewConfig => true
  | BtnExample p, BtnExample q => (p =? q)%string
  | BtnAnalyze, BtnAnalyze => true
  | BtnDetail i, BtnDetail j => Nat.eqb i j
  | BtnExport, BtnExport => true
  | _, _ => false
  end.

Record inputs := mkInputs {
  in_use_qdrant : bool;         (* checkbox "Enable Qdrant RAG" *)
  in_qdrant_local : bool;       (* checkbox "Use Local Qdrant" *)
  in_collection_name : string;  (* text input "Collection Name" *)
  in_user_query : string;       (* text input of the query form *)
  in_pressed : option button;   (* the button that triggered the run *)
  in_now : datetime             (* what [datetime.now()] reads *)
}.

(** [st.button(...)] / [st.form_submit_button(...)] *)
Definition st_button (inp : inputs) (b : button) : bool :=
  match in_pressed inp with
  | Some b' => button_eqb b b'
  | None => false
  end.

(** ** Fixed texts *)

(** [<div class="cls">] *)
Definition div_open (cls : string) : string :=
  "<div class=" ++ dq ++ cls ++ dq ++ ">".

Definition div (cls body : string) : string :=
  div_open cls ++ body ++ "</div>".

Definition green : string := "🟢".
Definition red : string := "🔴".
Definition yellow : string := "🟡".

Definition example_queries : list string :=
  [ "Should I buy Apple stock?";
    "What's the market risk today?";
    "Analyze Tesla stock";
    "Give me a market summary";
    "Is Bitcoin a good investment?" ].

(** [st.metric(label, value)] with a value that is not an f-string:
    Streamlit accepts [int], [float], [str] and [None] and raises
    [TypeError] on anything else. *)
Definition st_metric (label : string) (value : pyval) : ui unit :=
  match value with
  | PyList _ | PyDict _ =>
      raise (mkExn TypeError "value only accepts: int, float, str, or None")
  | _ => emit (Metric label [Val value])
  end.

(** [s[:n]] *)
Fixpoint str_prefix (n : nat) (s : string) : string :=
  match s with
  | EmptyString => EmptyString
  | String c s' =>
      if continuation c then String c (str_prefix n s')
      else
        match n with
        | O => EmptyString
        | S n' => String c (str_prefix n' s')
        end
  end.

(** [xs[-n:]] *)
Definition last_n {A} (n : nat) (xs : list A) : list A :=
  skipn (List.length xs - n) xs.

Definition int_of_nat (n : nat) : pyval := PyInt (Z.of_nat n).

(** ** Lines 219-273: display of a response *)

(** Lines 256-273, the body of the "Detailed Analysis" expander. *)
Definition detailed_analysis (response : pydict) : ui unit :=
  let detailed := dict_get response "detailed_analysis" (PyDict []) in
  agent_outputs <- lift (py_get detailed "agent_outputs" PyNone) ;;
  when (truthy agent_outputs)
    (emit (Markdown [Lit "#### Agent Outputs"]) ;;
     items <- lift (py_items agent_outputs) ;;
     for_each items (fun '(agent_name, agent_data) =>
       emit (Markdown [Lit ("**" ++ agent_name ++ "**")]) ;;
       emit (Json agent_data))) ;;
  outputs <- lift (py_get detailed "agent_outputs" (PyDict [])) ;;
  rag <- lift (py_get outputs "RAG_AGENT" (PyDict [])) ;;
  docs <- lift (py_get rag "docs" PyNone) ;;
  when (truthy docs)
    (emit (Markdown [Lit "#### 📄 Retrieved Documents"]) ;;
     docs <- lift (py_iter docs) ;;
     for_each (enumerate 1 docs) (fun '(i, doc) =>
       score <- lift (py_get doc "score" (PyStr "N/A")) ;;
       emit (Markdown [Lit "**Document "; Val (int_of_nat i);
                       Lit "** (Score: "; Val score; Lit ")"]) ;;
       txt <- lift (py_get doc "text" (PyStr "")) ;;
       emit (WriteObj txt) ;;
       emit (Markdown [Lit "---"]))).

(** Lines 224-273, the branch of a successful response. *)
Definition display_success (response : pydict) : ui unit :=
  emit (MarkdownHtml [Lit (div "success-box" "✅ Analysis Complete")]) ;;
  within (Column 1)
    (recommendation <- lift (dict_getitem response "recommendation") ;;
     let color :=
       if py_eq_str recommendation "BUY" then green
       else if py_eq_str recommendation "SELL" then red
       else yellow in
     emit (Metric "Recommendation" [Lit color; Lit " "; Val recommendation])) ;;
  within (Column 2)
    (confidence <- lift (dict_getitem response "confidence") ;;
     emit (Metric "Confidence" [Val confidence; Lit "%"])) ;;
  within (Column 3)
    (position_size <- lift (dict_getitem response "position_size") ;;
     st_metric "Position Size" position_size) ;;
  within (Column 4)
    (risk_level <- lift (dict_getitem response "risk_level") ;;
     let risk_emoji :=
       if py_eq_str risk_level "Low" then green
       else if py_eq_str risk_level "Medium" then yellow
       else red in
     emit (Metric "Risk Level" [Lit risk_emoji; Lit " "; Val risk_level])) ;;
  emit (Markdown [Lit "### 📝 Explanation"]) ;;
  explanation <- lift (dict_getitem response "explanation") ;;
  emit (WriteObj explanation) ;;
  when (truthy (dict_get response "key_factors" PyNone))
    (emit (Markdown [Lit "### 🔑 Key Factors"]) ;;
     key_factors <- lift (dict_getitem response "key_factors") ;;
     factors <- lift (py_iter key_factors) ;;
     for_each factors (fun factor =>
       emit (Markdown [Lit "- "; Val factor]))) ;;
  within (Expander "🔬 Detailed Analysis") (detailed_analysis response).

(** Lines 219-222, the branch of a failed response. *)
Definition display_failure (response : pydict) : ui unit :=
  emit (MarkdownHtml
          [Lit (div_open "error-box" ++ "🚫 ");
           Val (dict_get response "message" (PyStr "Query failed"));
           Lit "</div>"]) ;;
  when (truthy (dict_get response "suggestion" PyNone))
    (emit (Info [Lit "💡 "; Val (dict_get response "suggestion" PyNone)])).

(** Lines 219-273. *)
Definition display_response (response : pydict) : ui unit :=
  if negb (truthy (dict_get response "success" (PyBool false)))
  then display_failure response
  else display_success response.

(** Lines 275-279, the handler of the [except Exception as e] clause. *)
Definition display_exception (e : exn) : ui unit :=
  emit (Error [Lit ("❌ Error: " ++ exn_str e)]) ;;
  within (Expander "Error Details") (emit (Code [FormatExc e])).

(** ** Lines 282-296: recent queries *)

Definition recent_entry (c : chat) : ui unit :=
  within (Expander ("🕐 " ++ strftime_HMS (timestamp c) ++ " - " ++
                    str_prefix 50 (query c) ++ "..."))
    (emit (Write [Lit ("**Query:** " ++ query c)]) ;;
     let response := response c in
     if truthy (dict_get response "success" PyNone) then
       recommendation <- lift (dict_getitem response "recommendation") ;;
       emit (Write [Lit "**Recommendation:** "; Val recommendation]) ;;
       confidence <- lift (dict_getitem response "confidence") ;;
       emit (Write [Lit "**Confidence:** "; Val confidence; Lit "%"]) ;;
       explanation <- lift (dict_getitem response "explanation") ;;
       emit (Write [Lit "**Explanation:** "; Val explanation])
     else
       emit (Write [Lit "**Status:** ";
                    Val (dict_get response "message" (PyStr "Failed"))])).

Definition non_empty {A} (xs : list A) : bool :=
  match xs with
  | [] => false
  | _ => true
  end.

Definition recent_queries : ui unit :=
  s <- get_session ;;
  when (non_empty (chat_history s))
    (emit (Markdown [Lit "---"]) ;;
     emit (Markdown [Lit "### 💬 Recent Queries"]) ;;
     for_each (rev (last_n 5 (chat_history s))) recent_entry).

(** ** Lines 298-337: the analysis dashboard *)

Definition is_successful (c : chat) : bool :=
  truthy (dict_get (response c) "success" PyNone).

(** Line 304 *)
Definition successful_queries (h : list chat) : list chat :=
  filter is_successful h.

(** [a * b] on numbers (the script multiplies numbers only; sequence
    repetition is not modelled). *)
Definition py_mul (a b : pyval) : result pyval :=
  match as_number a, as_number b with
  | Some (NInt x), Some (NInt y) => Returns (PyInt (x * y))
  | Some x, Some y =>
      rbind (number_to_float x) (fun fx =>
      rbind (number_to_float y) (fun fy =>
      Returns (PyFloat (float_mul fx fy))))
  | _, _ => Raises (mkExn TypeError "unsupported operand type(s) for *")
  end.

Definition py_len {A} (xs : list A) : pyval := int_of_nat (List.length xs).

(** Line 315:
    [(len(successful_queries) / len(chat_history) * 100) if chat_history else 0] *)
Definition success_rate (h : list chat) : result pyval :=
  if non_empty h then
    rbind (py_truediv (py_len (successful_queries h)) (py_len h)) (fun q =>
    py_mul q (PyInt 100))
  else Returns (PyInt 0).

(** [sum(1 for c in cs if c['response']['recommendation'] == lit)] *)
Fixpoint count_recommendation (lit : string) (acc : Z) (cs : list chat)
  : result Z :=
  match cs with
  | [] => Returns acc
  | c :: cs' =>
      rbind (dict_getitem (response c) "recommendation") (fun r =>
      count_recommendation lit (if py_eq_str r lit then acc + 1 else acc) cs')
  end.

(** [sum(c['response']['confidence'] for c in cs)]: each confidence is
    read just before it is added. *)
Fixpoint sum_confidence (acc : pyval) (cs : list chat) : result pyval :=
  match cs with
  | [] => Returns acc
  | c :: cs' =>
      rbind (dict_getitem (response c) "confidence") (fun x =>
      rbind (py_add acc x) (fun acc' =>
      sum_confidence acc' cs'))
  end.

(** Line 334 *)
Definition avg_confidence (successful : list chat) : result pyval :=
  rbind (sum_confidence (PyInt 0) successful) (fun total =>
  py_truediv total (py_len successful)).

(** Lines 319-335 *)
Definition recommendation_distribution (successful : list chat) : ui unit :=
  emit (Markdown [Lit "#### 📊 Recommendation Distribution"]) ;;
  buy_count <- lift (count_recommendation "BUY" 0 successful) ;;
  sell_count <- lift (count_recommendation "SELL" 0 successful) ;;
  hold_count <- lift (count_recommendation "HOLD" 0 successful) ;;
  within (Column 1) (st_metric "🟢 BUY" (PyInt buy_count)) ;;
  within (Column 2) (st_metric "🔴 SELL" (PyInt sell_count)) ;;
  within (Column 3) (st_metric "🟡 HOLD" (PyInt hold_count)) ;;
  avg <- lift (avg_confidence successful) ;;
  shown <- lift (py_format_1f avg) ;;
  emit (Metric "Average Confidence" [Lit (shown ++ "%")]).

Definition analysis_dashboard : ui unit :=
  emit (Markdown [Lit "### 📈 Analysis Dashboard"]) ;;
  s <- get_session ;;
  let h := chat_history s in
  if non_empty h then
    let successful := successful_queries h in
    within (Column 1) (st_metric "Total Queries" (py_len h)) ;;
    within (Column 2) (st_metric "Successful" (py_len successful)) ;;
    within (Column 3)
      (rate <- lift (success_rate h) ;;
       shown <- lift (py_format_1f rate) ;;
       emit (Metric "Success Rate" [Lit (shown ++ "%")])) ;;
    when (non_empty successful) (recommendation_distribution successful)
  else
    emit (Info [Lit "📊 No analysis data yet. Start by asking some trading questions!"]).

(** ** Lines 339-380: the history tab *)

(** Lines 366-372: the value [json.dumps] is applied to is a list with
    one three-key dictionary per record. *)
Definition export_entry (c : chat) : pyval :=
  PyDict [ ("timestamp", PyStr (isoformat (timestamp c)));
           ("query", PyStr (query c));
           ("response", PyDict (response c)) ].

Definition history_json (h : list chat) : result (list token) :=
  json_dumps (PyList (map export_entry h)).

(** Lines 345-362, one pass of the loop. *)
Definition history_entry (inp : inputs) (ic : nat * chat) : ui unit :=
  let '(i, c) := ic in
  within Container
    (within (Column 1)
       (emit (Markdown [Lit ("**" ++ strftime_Ymd_HMS (timestamp c) ++ "**")]) ;;
        emit (Write [Lit ("Q: " ++ query c)]) ;;
        let response := response c in
        if truthy (dict_get response "success" PyNone) then
          recommendation <- lift (dict_getitem response "recommendation") ;;
          confidence <- lift (dict_getitem response "confidence") ;;
          emit (Write [Lit "✅ "; Val recommendation; Lit " (";
                       Val confidence; Lit "% confidence)"])
        else
          emit (Write [Lit "🚫 ";
                       Val (dict_get response "message" (PyStr "Failed"))])) ;;
     within (Column 2)
       (when (st_button inp (BtnDetail i))
          (emit (Json (PyDict (response c))))) ;;
     emit (Markdown [Lit "---"])).

Definition history_tab (inp : inputs) : ui unit :=
  emit (Markdown [Lit "### 📚 Query History"]) ;;
  s <- get_session ;;
  let h := chat_history s in
  if non_empty h then
    for_each (enumerate 0 (rev h)) (history_entry inp) ;;
    when (st_button inp BtnExport)
      (history_json <- lift (history_json h) ;;
       emit (DownloadButton "Download JSON" history_json
               ("trading_history_" ++ strftime_compact (in_now inp) ++ ".json")
               "application/json"))
  else
    emit (Info [Lit "📚 No query history yet. Start asking questions!"]).

(** ** Lines 121-130: system status *)

Definition with_system (sys : option system_t) (s : session_state) :=
  mkSession sys (chat_history s) (initialized s) (current_query s).
Definition with_chat_history (h : list chat) (s : session_state) :=
  mkSession (system s) h (initialized s) (current_query s).
Definition with_initialized (b : bool) (s : session_state) :=
  mkSession (system s) (chat_history s) b (current_query s).
Definition with_current_query (q : option string) (s : session_state) :=
  mkSession (system s) (chat_history s) (initialized s) q.

Definition system_status : ui unit :=
  emit (Markdown [Lit "### 📊 System Status"]) ;;
  s <- get_session ;;
  match initialized s, system s with
  | true, Some sys =>
      let config := sys_config sys in
      emit (Success [Lit "🟢 Active"]) ;;
      emit (Info [Lit ("**RAG:** " ++
                       if truthy (dict_get config "use_qdrant" PyNone)
                       then "Enabled" else "Disabled")]) ;;
      emit (Info [Lit ("**Mode:** " ++
                       if truthy (dict_get config "qdrant_local" PyNone)
                       then "Local" else "Cloud")]) ;;
      emit (Info [Lit "**Collection:** ";
                  Val (dict_get config "qdrant_collection" (PyStr "N/A"))])
  | _, _ => emit (Warning [Lit "🟡 Not initialized"])
  end.

(** ** [os.environ] and the [st.cache_resource] store *)

Fixpoint environ_set (env : list (string * string)) (k v : string)
  : list (string * string) :=
  match env with
  | [] => [(k, v)]
  | (k', v') :: env' =>
      if (k =? k')%string then (k', v) :: env'
      else (k', v') :: environ_set env' k v
  end.

Definition setenv (k v : string) : ui unit :=
  fun w => (Ok tt, set_environ (environ_set (environ w) k v) w, []).

Definition cache_key_eqb (a b : cache_key) : bool :=
  let '(a1, a2, a3) := a in
  let '(b1, b2, b3) := b in
  Bool.eqb a1 b1 && Bool.eqb a2 b2 && (a3 =? b3)%string.

Fixpoint cache_lookup (k : cache_key) (c : list (cache_key * init_result))
  : option init_result :=
  match c with
  | [] => None
  | (k', r) :: c' => if cache_key_eqb k k' then Some r else cache_lookup k c'
  end.

(** [if error:] on [None] or a string. *)
Definition error_truthy (error : option string) : bool :=
  match error with
  | Some msg => negb (msg =? "")%string
  | None => false
  end.

Definition error_text (error : option string) : string :=
  match error with
  | Some msg => msg
  | None => "None"
  end.

Definition custom_css : string := "
<style>
    .main-header {
        font-size: 2.5rem;
        font-weight: bold;
        color: #1f77b4;
        text-align: center;
        margin-bottom: 1rem;
    }
    .sub-header {
        font-size: 1.2rem;
        color: #666;
        text-align: center;
        margin-bottom: 2rem;
    }
    .metric-card {
        background-color: #f0f2f6;
        padding: 1rem;
        border-radius: 0.5rem;
        margin: 0.5rem 0;
    }
    .success-box {
        background-color: #d4edda;
        border-left: 5px solid #28a745;
        padding: 1rem;
        border-radius: 0.3rem;
        margin: 1rem 0;
    }
    .warning-box {
        background-color: #fff3cd;
        border-left: 5px solid #ffc107;
        padding: 1rem;
        border-radius: 0.3rem;
        margin: 1rem 0;
    }
    .error-box {
        background-color: #f8d7da;
        border-left: 5px solid #dc3545;
        padding: 1rem;
        border-radius: 0.3rem;
        margin: 1rem 0;
    }
</style>
".

Definition footer : string :=
  "
<div style=" ++ dq ++ "text-align: center; color: #666; padding: 1rem;" ++ dq ++ ">
    <p>⚠️ <strong>Disclaimer:</strong> This is an AI-powered tool for educational purposes. 
    Not financial advice. Always do your own research and consult with financial advisors.</p>
    <p>Powered by Multi-Agent Trading System | Built with Streamlit</p>
</div>
".

(** ** The code that calls the backend *)

Section Backend.

(** [TradingAssistantSystem()]: the [config] of the new instance, built
    from the environment, or an exception. *)
Variable backend_new : list (string * string) -> result pydict.

(** [system._create_assistant()]; the assistant object itself plays no
    part in what the page shows. *)
Variable create_assistant : system_t -> result unit.

(** [system.process_query_sync(query)], which may depend on the queries
    the backend has already been sent. *)
Variable process_query_sync :
  system_t -> list string -> string -> result pydict.

(** Line 92: a new instance with a new identity. *)
Definition new_system : ui system_t :=
  fun w =>
    match backend_new (environ w) with
    | Returns config =>
        (Ok (mkSystem (next_id w) config), set_next_id (S (next_id w)) w, [])
    | Raises e => (Raise e, w, [])
    end.

(** Lines 85-97, the body of [initialize_system]. *)
Definition initialize_system_body
    (use_qdrant qdrant_local : bool) (collection_name : string)
  : ui init_result :=
  try_except
    (setenv "USE_QDRANT" (if use_qdrant then "true" else "false") ;;
     setenv "QDRANT_LOCAL" (if qdrant_local then "true" else "false") ;;
     system <- new_system ;;
     let system :=
       mkSystem (sys_id system)
         (dict_set (sys_config system) "qdrant_collection"
                   (PyStr collection_name)) in
     lift (create_assistant system) ;;
     ret (Some system, None))
    (fun e => ret (None, Some (exn_str e))).

(** Line 84, [@st.cache_resource]: the body runs when the store has no
    entry for the three arguments, and what it returns is stored. *)
Definition initialize_system
    (use_qdrant qdrant_local : bool) (collection_name : string)
  : ui init_result :=
  fun w =>
    let key := (use_qdrant, qdrant_local, collection_name) in
    match cache_lookup key (cache w) with
    | Some r => (Ok r, w, [])
    | None =>
        match initialize_system_body use_qdrant qdrant_local
                collection_name w with
        | (Ok r, w', ws) => (Ok r, set_cache ((key, r) :: cache w') w', ws)
        | other => other
        end
    end.

(** Lines 100-158, the body of [with st.sidebar:] *)
Definition sidebar (inp : inputs) : ui unit :=
  emit (Image "https://via.placeholder.com/150x50/1f77b4/ffffff?text=Trading+AI") ;;
  emit (Markdown [Lit "## ⚙️ Configuration"]) ;;
  let use_qdrant := in_use_qdrant inp in
  let qdrant_local := in_qdrant_local inp in
  let collection_name := in_collection_name inp in
  when (st_button inp BtnInitialize)
    (r <- initialize_system use_qdrant qdrant_local collection_name ;;
     let '(system, error) := r in
     if error_truthy error then
       emit (Error [Lit ("❌ Initialization failed: " ++ error_text error)])
     else
       s <- get_session ;;
       put_session (with_initialized true (with_system system s)) ;;
       emit (Success [Lit "✅ System initialized successfully!"]) ;;
       st_rerun) ;;
  emit (Markdown [Lit "---"]) ;;
  system_status ;;
  emit (Markdown [Lit "---"]) ;;
  emit (Markdown [Lit "### 🚀 Quick Actions"]) ;;
  when (st_button inp BtnClear)
    (s <- get_session ;;
     put_session (with_chat_history [] s) ;;
     st_rerun) ;;
  when (st_button inp BtnViewConfig)
    (s <- get_session ;;
     match system s with
     | Some sys => emit (Json (PyDict (sys_config sys)))
     | None => ret tt
     end) ;;
  emit (Markdown [Lit "---"]) ;;
  emit (Markdown [Lit "### 💡 Example Queries"]) ;;
  for_each example_queries (fun query =>
    when (st_button inp (BtnExample query))
      (s <- get_session ;;
       put_session (with_current_query (Some query) s))).

(** Line 209: the call of the backend. *)
Definition call_backend (user_query : string) : ui pydict :=
  fun w =>
    match system (session w) with
    | None =>
        (Raise (mkExn AttributeError
                  "'NoneType' object has no attribute 'process_query_sync'"),
         w, [])
    | Some sys =>
        let w' := set_calls (calls w ++ [user_query]) w in
        match process_query_sync sys (calls w) user_query with
        | Returns response => (Ok response, w', [])
        | Raises e => (Raise e, w', [])
        end
    end.

(** Lines 208-273, the body of the [try]. *)
Definition submit_query (inp : inputs) (user_query : string) : ui unit :=
  response <- call_backend user_query ;;
  s <- get_session ;;
  put_session
    (with_chat_history
       (chat_history s ++ [mkChat (in_now inp) user_query response]) s) ;;
  display_response response.

(** Lines 205-279: the [try] statement runs when the form was submitted
    with a non-empty query. *)
Definition submission (inp : inputs) : ui unit :=
  let user_query := in_user_query inp in
  let submit_button := st_button inp BtnAnalyze in
  when (submit_button && negb (user_query =? "")%string)
    (try_except (submit_query inp user_query) display_exception).

(** Lines 187-296 *)
Definition chat_tab (inp : inputs) : ui unit :=
  emit (Markdown [Lit "### Ask Your Trading Question"]) ;;
  s <- get_session ;;
  let default_query :=
    match current_query s with
    | Some q => q
    | None => ""
    end in
  when (negb (default_query =? "")%string)
    (put_session (with_current_query None s)) ;;
  submission inp ;;
  recent_queries.

(** Lines 160-380 *)
Definition main_content (inp : inputs) : ui unit :=
  emit (MarkdownHtml [Lit (div "main-header" "📈 Trading Assistant AI")]) ;;
  emit (MarkdownHtml
          [Lit (div "sub-header"
                  "Your AI-powered trading advisor with multi-agent analysis")]) ;;
  s <- get_session ;;
  if negb (initialized s) then
    emit (MarkdownHtml
            [Lit (div "warning-box"
                    "⚠️ Please initialize the system using the sidebar configuration.")]) ;;
    within (Column 1)
      (emit (Markdown [Lit "### 🎯 Signal Generation"]) ;;
       emit (Write [Lit "Get buy/sell recommendations with confidence scores"])) ;;
    within (Column 2)
      (emit (Markdown [Lit "### 🔍 Market Analysis"]) ;;
       emit (Write [Lit "Deep analysis using multiple AI agents"])) ;;
    within (Column 3)
      (emit (Markdown [Lit "### 📊 Risk Assessment"]) ;;
       emit (Write [Lit "Comprehensive risk evaluation and position sizing"]))
  else
    within (Tab "💬 Chat") (chat_tab inp) ;;
    within (Tab "📈 Analysis") analysis_dashboard ;;
    within (Tab "📚 History") (history_tab inp).

(** The whole script, run once from top to bottom. *)
Definition script (inp : inputs) : ui unit :=
  emit (MarkdownHtml [Lit custom_css]) ;;
  within Sidebar (sidebar inp) ;;
  main_content inp ;;
  emit (Markdown [Lit "---"]) ;;
  emit (MarkdownHtml [Lit footer]).

(** What one user interaction does: a run that ends in [st.rerun()] is
    followed by a run which no button triggers, and the page is the one
    the last run has drawn. *)
Definition interact (inp : inputs) (w : world)
  : outcome unit * world * list widget :=
  match script inp w with
  | (Rerun, w', _) =>
      script (mkInputs (in_use_qdrant inp) (in_qdrant_local inp)
                (in_collection_name inp) (in_user_query inp) None (in_now inp))
             w'
  | r => r
  end.

End Backend.

(** The world of a new browser session before its first run. *)
Definition new_world (env : list (string * string)) : world :=
  mkWorld (init_session_state None) [] [] env O.

(* ================================================================= *)
(** * Notions used to state the properties *)

(** The response has a [success] field and the field is truthy. *)
Definition truthy_field (k : string) (d : pydict) : bool :=
  match dict_lookup k d with
  | Some v => truthy v
  | None => false
  end.

(** All the metrics of a widget tree, as (label, value) pairs. *)
Fixpoint widget_metrics (x : widget) : list (string * text) :=
  match x with
  | Metric label value => [(label, value)]
  | Expander _ body | Column _ body | Tab _ body
  | Container body | Sidebar body => flat_map widget_metrics body
  | _ => []
  end.

Definition page_metrics (p : list widget) : list (string * text) :=
  flat_map widget_metrics p.

Definition metric_labels (p : list widget) : list string :=
  map fst (page_metrics p).

(** A block that only displays: it leaves the world as it was and does
    not end in a rerun. *)
Definition display_only {A} (m : ui A) : Prop :=
  forall w, exists r ws, m w = (r, w, ws) /\ r <> Rerun.

Definition is_infinity (f : spec_float) : bool :=
  match f with
  | S754_infinity _ => true
  | _ => false
  end.

(** A token sequence that starts with a value: not with a closing
    bracket, a comma or a colon. *)
Definition starts_value (ts : list token) : Prop :=
  match ts with
  | [] => False
  | (TRBracket | TRBrace | TComma | TColon) :: _ => False
  | _ => True
  end.

(** A value is read back from its own document, whatever follows it. *)
Definition reads_back (v : pyval) : Prop :=
  forall fuel rest,
    (List.length (json_encode v) <= fuel)%nat ->
    parse_value fuel (json_encode v ++ rest) = Some (v, rest).

(** A block that only displays and ends normally. *)
Definition renders {A} (m : ui A) : Prop :=
  forall w, exists a ws, m w = (Ok a, w, ws).

(** A block that leaves the list of records as it was, however it ends. *)
Definition keeps_history {A} (m : ui A) : Prop :=
  forall w r w' ws,
    m w = (r, w', ws) ->
    chat_history (session w') = chat_history (session w).

(** The history a run is expected to leave behind the submission block
    (lines 205-279): the old records, followed by one new record when a
    non-empty query was submitted and the backend returned a response. *)
Definition history_after_submission
    (process_query_sync : system_t -> list string -> string -> result pydict)
    (inp : inputs) (w : world) : list chat :=
  let h := chat_history (session w) in
  let q := in_user_query inp in
  if st_button inp BtnAnalyze && negb (q =? "")%string then
    match system (session w) with
    | Some sys =>
        match process_query_sync sys (calls w) q with
        | Returns response => (h ++ [mkChat (in_now inp) q response])%list
        | Raises _ => h
        end
    | None => h
    end
  else h.

(** The history a whole run is expected to leave: empty after "Clear
    Chat History", the result of the submission block when the system is
    initialized, and the old history otherwise. *)
Definition expected_history
    (process_query_sync : system_t -> list string -> string -> result pydict)
    (inp : inputs) (w : world) : list chat :=
  if st_button inp BtnClear then []
  else if initialized (session w)
       then history_after_submission process_query_sync inp w
       else chat_history (session w).

Definition is_zero_division {A} (r : outcome A) : bool :=
  match r with
  | Raise (mkExn ZeroDivisionError _) => true
  | _ => false
  end.

(* ================================================================= *)
(** * Notions for the rest of the page *)

(** [os.environ.get(k)] *)
Fixpoint environ_get (env : list (string * string)) (k : string)
  : option string :=
  match env with
  | [] => None
  | (k', v) :: env' => if (k =? k')%string then Some v else environ_get env' k
  end.

(** The text of a flag in the environment. *)
Definition flag_text (b : bool) : string := if b then "true" else "false".

(** [k in d] *)
Definition has_key (k : string) (d : pydict) : bool :=
  match dict_lookup k d with
  | Some _ => true
  | None => false
  end.

(** The first of the keys [ks] that the dictionary lacks. *)
Fixpoint first_missing (ks : list string) (d : pydict) : option string :=
  match ks with
  | [] => None
  | k :: ks' => if has_key k d then first_missing ks' d else Some k
  end.

(** [KeyError(k)] *)
Definition key_error (k : string) : exn := mkExn KeyError ("'" ++ k ++ "'").

(** The exception that drawing a record raises when the panel reads the
    keys [ks] of a successful response, if it raises one. *)
Definition record_error (ks : list string) (c : chat) : option exn :=
  if is_successful c
  then option_map key_error (first_missing ks (response c))
  else None.

(** The exception of the first record that raises one. *)
Fixpoint first_error (ks : list string) (cs : list chat) : option exn :=
  match cs with
  | [] => None
  | c :: cs' =>
      match record_error ks c with
      | Some e => Some e
      | None => first_error ks cs'
      end
  end.

(** How a loop over records ends. *)
Definition ends_with (e : option exn) : outcome unit :=
  match e with
  | Some e => Raise e
  | None => Ok tt
  end.

(** A block that keeps a property of the world, however it ends. *)
Definition preserves (I : world -> Prop) {A} (m : ui A) : Prop :=
  forall w r w' ws, I w -> m w = (r, w', ws) -> I w'.

(** The queries the backend has been sent after the submission block
    (lines 205-279): one more when a non-empty query was submitted to a
    session that holds a system. *)
Definition calls_after_submission (inp : inputs) (w : world) : list string :=
  let q := in_user_query inp in
  if st_button inp BtnAnalyze && negb (q =? "")%string then
    match system (session w) with
    | Some _ => (calls w ++ [q])%list
    | None => calls w
    end
  else calls w.

(** The queries the backend has been sent after a whole run. *)
Definition expected_calls (inp : inputs) (w : world) : list string :=
  if initialized (session w) then calls_after_submission inp w else calls w.

(** Lines 192-194: the example query is taken out of the session, unless
    it is the empty string. *)
Definition consume_query (s : session_state) : session_state :=
  match current_query s with
  | Some q => if (q =? "")%string then s else with_current_query None s
  | None => s
  end.

(** A block that does not end in a rerun. *)
Definition never_reruns {A} (m : ui A) : Prop :=
  forall w r w' ws, m w = (r, w', ws) -> r <> Rerun.

(** The world behind the submission block (lines 205-279): only the
    history and the list of queries sent to the backend can differ. *)
Definition world_after_submission
    (process_query_sync : system_t -> list string -> string -> result pydict)
    (inp : inputs) (w : world) : world :=
  set_session
    (with_chat_history (history_after_submission process_query_sync inp w)
       (session w))
    (set_calls (calls_after_submission inp w) w).

(** A block that always runs to its end. *)
Definition ends_normally {A} (m : ui A) : Prop :=
  forall w, exists a w' ws, m w = (Ok a, w', ws).

(** The keys of a successful response that the "Recent Queries" panel
    reads (lines 288-290), and those the history tab reads (line 355). *)
Definition recent_keys : list string :=
  ["recommendation"; "confidence"; "explanation"].
Definition history_keys : list string := ["recommendation"; "confidence"].

(** The recommendation of the record is the string [lit]. *)
Definition recommends (lit : string) (c : chat) : bool :=
  match dict_lookup "recommendation" (response c) with
  | Some v => py_eq_str v lit
  | None => false
  end.

(** The confidence of a record, when it is an [int]. *)
Definition int_confidence (c : chat) : option Z :=
  match dict_lookup "confidence" (response c) with
  | Some (PyInt z) => Some z
  | _ => None
  end.

(** The sum of the [int] confidences of the records. *)
Fixpoint confidence_total (cs : list chat) : Z :=
  match cs with
  | [] => 0
  | c :: cs' =>
      match int_confidence c with
      | Some z => z + confidence_total cs'
      | None => confidence_total cs'
      end
  end.

(** A record with a recommendation and a whole percentage as its
    confidence. *)
Definition percent_record (c : chat) : bool :=
  has_key "recommendation" (response c) &&
  match int_confidence c with
  | Some z => (0 <=? z) && (z <=? 100)
  | None => false
  end.

(** All the values that [st.json] has drawn in a widget tree. *)
Fixpoint widget_jsons (x : widget) : list pyval :=
  match x with
  | Json v => [v]
  | Expander _ body | Column _ body | Tab _ body
  | Container body | Sidebar body => flat_map widget_jsons body
  | _ => []
  end.

Definition page_jsons (p : list widget) : list pyval :=
  flat_map widget_jsons p.

(** The values [st.metric] accepts. *)
Definition metric_value (v : pyval) : bool :=
  match v with
  | PyList _ | PyDict _ => false
  | _ => true
  end.

(** ** The export *)

(** A [datetime] whose fields are in the ranges of the class, as
    [datetime.now()] returns it. *)
Definition valid_datetime (t : datetime) : bool :=
  (1 <=? year t) && (year t <=? 9999) &&
  (1 <=? month t) && (month t <=? 12) &&
  (1 <=? day t) && (day t <=? 31) &&
  (0 <=? hour t) && (hour t <=? 23) &&
  (0 <=? minute t) && (minute t <=? 59) &&
  (0 <=? second t) && (second t <=? 59) &&
  (0 <=? microsecond t) && (microsecond t <=? 999999).

(** The character of the units digit of [z]. *)
Definition digit (z : Z) : ascii := ascii_of_N (48 + Z.to_N (z mod 10)).

(** [z] written with exactly [width] decimal digits. *)
Fixpoint fixed_width (width : nat) (z : Z) : string :=
  match width with
  | O => ""
  | S width' => fixed_width width' (z / 10) ++ String (digit z) ""
  end.

(** ISO 8601, the extended format of a local date and time:
    [YYYY-MM-DDThh:mm:ss], every field with its fixed number of digits,
    followed by a decimal point and the six digits of the microseconds
    when these are not zero. *)
Definition iso8601_extended (t : datetime) : string :=
  fixed_width 4 (year t) ++ "-" ++ fixed_width 2 (month t) ++ "-" ++
  fixed_width 2 (day t) ++ "T" ++
  fixed_width 2 (hour t) ++ ":" ++ fixed_width 2 (minute t) ++ ":" ++
  fixed_width 2 (second t) ++
  (if microsecond t =? 0 then ""
   else "." ++ fixed_width 6 (microsecond t)).

(** The digit [r] put before the digits [d]. *)
Definition cons_digit (r : Z) (d : Decimal.uint) : Decimal.uint :=
  match r with
  | 0 => Decimal.D0 d | 1 => Decimal.D1 d | 2 => Decimal.D2 d
  | 3 => Decimal.D3 d | 4 => Decimal.D4 d | 5 => Decimal.D5 d
  | 6 => Decimal.D6 d | 7 => Decimal.D7 d | 8 => Decimal.D8 d
  | _ => Decimal.D9 d
  end.

(** The [width] lowest decimal digits of [z], units first. *)
Fixpoint little_digits (width : nat) (z : Z) : Decimal.uint :=
  match width with
  | O => Decimal.Nil
  | S width' => cons_digit (z mod 10) (little_digits width' (z / 10))
  end.

(** A record that the export writes and [json.loads] reads back: its
    time is a [datetime], and its response a JSON value whose
    dictionaries hold each key once (as every Python [dict] does), whose
    [int]s can be printed and which is nested at most [max_nesting]
    deep. *)
Definition exportable (c : chat) : bool :=
  valid_datetime (timestamp c) &&
  well_formed (PyDict (response c)) &&
  printable (PyDict (response c)) &&
  (nesting (PyDict (response c)) <=? max_nesting)%nat.

(* ================================================================= *)
(** * A sample session *)

(** A backend, two responses and a session with two records, on which
    the properties below are exercised. *)
Module Sample.

Definition now : datetime := mkDatetime 2024 3 5 9 7 0 123.

Definition failed : pydict :=
  [ ("success", PyBool false);
    ("message", PyStr "no data");
    ("suggestion", PyStr "try again") ].

Definition advice : pydict :=
  [ ("success", PyBool true);
    ("recommendation", PyStr "BUY");
    ("confidence", PyInt 80);
    ("position_size", PyStr "5%");
    ("risk_level", PyStr "Low");
    ("explanation", PyStr "because");
    ("key_factors", PyList [PyStr "momentum"; PyStr "earnings"]) ].

Definition bad_record : chat := mkChat now "bad" failed.
Definition good_record : chat := mkChat now "good" advice.
Definition history : list chat := [bad_record; good_record].

(** A backend whose [process_query_sync] raises on the query "boom". *)
Definition process (sys : system_t) (past : list string) (q : string)
  : result pydict :=
  if (q =? "boom")%string
  then Raises (mkExn (OtherException "RuntimeError") "backend down")
  else Returns advice.

(** Its constructor reads nothing from the environment and never fails. *)
Definition new_config (env : list (string * string)) : result pydict :=
  Returns [("use_qdrant", PyBool true); ("qdrant_local", PyBool true)].

Definition create (sys : system_t) : result unit := Returns tt.

Definition the_system : system_t :=
  mkSystem 0 [("qdrant_collection", PyStr "trading_knowledge")].

Definition the_world : world :=
  mkWorld (mkSession (Some the_system) history true None) [] [] [] 1.

(** The run that submits the query [q]. *)
Definition submit (q : string) : inputs :=
  mkInputs true true "trading_knowledge" q (Some BtnAnalyze) now.

(** The run triggered by the button [b]. *)
Definition press (b : button) : inputs :=
  mkInputs true true "trading_knowledge" "" (Some b) now.

(** The history after one interaction. *)
Definition history_after (inp : inputs) (w : world) : list chat :=
  chat_history (session (snd (fst (interact new_config create process inp w)))).

(** A constructor that raises an exception without a message. *)
Definition silent_new (env : list (string * string)) : result pydict :=
  Raises (mkExn (OtherException "RuntimeError") "").

(** A successful response without an explanation, and a backend that
    returns it. *)
Definition terse : pydict :=
  [ ("success", PyBool true);
    ("recommendation", PyStr "HOLD");
    ("confidence", PyInt 50) ].

Definition terse_process (sys : system_t) (past : list string) (q : string)
  : result pydict := Returns terse.

(** A failed response that carries, beside its message, an [int] of
    4301 digits. *)
Definition huge : pydict :=
  [ ("success", PyBool false);
    ("message", PyStr "no data");
    ("volume", PyInt (10 ^ 4300)) ].

Definition huge_record : chat := mkChat now "volume?" huge.

Definition huge_world : world :=
  mkWorld (mkSession (Some the_system) [huge_record] true None) [] [] [] 1.

End Sample.

(* ================================================================= *)
(** * Facts about the monad *)

Lemma display_only_ret {A} (a : A) : display_only (ret a).
Proof. intros w. now exists (Ok a), []. Qed.

Lemma display_only_lift {A} (r : result A) : display_only (lift r).
Proof.
  intros w. unfold lift.
  destruct r as [a|e]; [now exists (Ok a), [] | now exists (Raise e), []].
Qed.

Lemma display_only_raise {A} (e : exn) : display_only (@raise A e).
Proof. intros w. now exists (Raise e), []. Qed.

Lemma display_only_emit (x : widget) : display_only (emit x).
Proof. intros w. now exists (Ok tt), [x]. Qed.

Lemma display_only_get_session : display_only get_session.
Proof. intros w. now exists (Ok (session w)), []. Qed.

Lemma display_only_bind {A B} (m : ui A) (k : A -> ui B) :
  display_only m -> (forall a, display_only (k a)) -> display_only (bind m k).
Proof.
  intros Hm Hk w. unfold bind.
  destruct (Hm w) as (r & ws & -> & Hr).
  destruct r as [a|e|]; [| now exists (Raise e), ws | contradiction].
  destruct (Hk a w) as (r' & ws' & -> & Hr').
  now exists r', (ws ++ ws')%list.
Qed.

Lemma display_only_within {A} (wrap : list widget -> widget) (m : ui A) :
  display_only m -> display_only (within wrap m).
Proof.
  intros Hm w. unfold within.
  destruct (Hm w) as (r & ws & -> & Hr).
  now exists r, [wrap ws].
Qed.

Lemma display_only_when (b : bool) (m : ui unit) :
  display_only m -> display_only (when b m).
Proof.
  intros Hm. destruct b; [exact Hm | apply display_only_ret].
Qed.

Lemma display_only_for_each {A} (xs : list A) (body : A -> ui unit) :
  (forall x, display_only (body x)) -> display_only (for_each xs body).
Proof.
  intros Hb. induction xs as [|x xs IH]; cbn.
  - apply display_only_ret.
  - apply display_only_bind; auto.
Qed.

Lemma display_only_try {A} (m : ui A) (h : exn -> ui A) :
  display_only m -> (forall e, display_only (h e)) ->
  display_only (try_except m h).
Proof.
  intros Hm Hh w. unfold try_except.
  destruct (Hm w) as (r & ws & -> & Hr).
  destruct r as [a|e|]; [now exists (Ok a), ws | | contradiction].
  destruct (Hh e w) as (r' & ws' & -> & Hr').
  now exists r', (ws ++ ws')%list.
Qed.

Lemma display_only_st_metric (label : string) (v : pyval) :
  display_only (st_metric label v).
Proof.
  destruct v; cbn; first [apply display_only_emit | apply display_only_raise].
Qed.

Create HintDb display discriminated.
#[export] Hint Resolve display_only_ret display_only_lift display_only_raise
  display_only_emit display_only_get_session display_only_within
  display_only_when display_only_for_each display_only_try
  display_only_st_metric : display.

(** Solves [display_only] goals of blocks built from the combinators. *)
Ltac display :=
  repeat first
    [ progress intros
    | apply display_only_bind
    | solve [auto with display]
    | apply display_only_within
    | apply display_only_when
    | apply display_only_for_each
    | apply display_only_try
    | match goal with
      | |- display_only (let '(_, _) := ?p in _) => destruct p
      | |- display_only (if ?b then _ else _) => destruct b
      | |- display_only (match ?x with _ => _ end) => destruct x
      end ].

Lemma display_only_detailed_analysis (response : pydict) :
  display_only (detailed_analysis response).
Proof. unfold detailed_analysis. display. Qed.
#[export] Hint Resolve display_only_detailed_analysis : display.

Lemma display_only_display_success (response : pydict) :
  display_only (display_success response).
Proof. unfold display_success. display. Qed.
#[export] Hint Resolve display_only_display_success : display.

Lemma display_only_display_failure (response : pydict) :
  display_only (display_failure response).
Proof. unfold display_failure. display. Qed.
#[export] Hint Resolve display_only_display_failure : display.

Lemma display_only_display_response (response : pydict) :
  display_only (display_response response).
Proof. unfold display_response. display. Qed.
#[export] Hint Resolve display_only_display_response : display.

Lemma display_only_display_exception (e : exn) :
  display_only (display_exception e).
Proof. unfold display_exception. display. Qed.
#[export] Hint Resolve display_only_display_exception : display.

Lemma display_only_recent_entry (c : chat) : display_only (recent_entry c).
Proof. unfold recent_entry. display. Qed.
#[export] Hint Resolve display_only_recent_entry : display.

Lemma display_only_recent_queries : display_only recent_queries.
Proof. unfold recent_queries. display. Qed.
#[export] Hint Resolve display_only_recent_queries : display.

Lemma display_only_recommendation_distribution (cs : list chat) :
  display_only (recommendation_distribution cs).
Proof. unfold recommendation_distribution. display. Qed.
#[export] Hint Resolve display_only_recommendation_distribution : display.

Lemma display_only_analysis_dashboard : display_only analysis_dashboard.
Proof. unfold analysis_dashboard. display. Qed.
#[export] Hint Resolve display_only_analysis_dashboard : display.

Lemma display_only_history_entry (inp : inputs) (ic : nat * chat) :
  display_only (history_entry inp ic).
Proof. unfold history_entry. display. Qed.
#[export] Hint Resolve display_only_history_entry : display.

Lemma display_only_history_tab (inp : inputs) : display_only (history_tab inp).
Proof. unfold history_tab. display. Qed.
#[export] Hint Resolve display_only_history_tab : display.

Lemma display_only_system_status : display_only system_status.
Proof. unfold system_status. display. Qed.
#[export] Hint Resolve display_only_system_status : display.

(** ** Stepping through a block *)

Lemma bind_emit {B} (x : widget) (k : unit -> ui B) (w : world) :
  bind (emit x) k w =
  let '(r, w', ws) := k tt w in (r, w', x :: ws).
Proof. reflexivity. Qed.

Lemma bind_ok {A B} (m : ui A) (k : A -> ui B)
    (w w' : world) (a : A) (ws : list widget) :
  m w = (Ok a, w', ws) ->
  bind m k w = let '(r, w'', ws') := k a w' in (r, w'', (ws ++ ws')%list).
Proof. intros H. unfold bind. now rewrite H. Qed.

Lemma bind_get_session {B} (k : session_state -> ui B) (w : world) :
  bind get_session k w = k (session w) w.
Proof.
  unfold bind, get_session. now destruct (k (session w) w) as [[r w'] ws].
Qed.

Lemma bind_display_only {A B} (m : ui A) (k : A -> ui B)
    (w : world) (a : A) (ws : list widget) :
  m w = (Ok a, w, ws) ->
  display_only (k a) ->
  exists r rest, bind m k w = (r, w, (ws ++ rest)%list) /\ r <> Rerun.
Proof.
  intros Hm Hk. rewrite (@bind_ok _ _ m k _ _ _ _ Hm).
  destruct (Hk w) as (r & rest & -> & Hr).
  now exists r, rest.
Qed.

Lemma dict_get_lookup (d : pydict) (k : string) (default : pyval) :
  dict_get d k default =
  match dict_lookup k d with
  | Some v => v
  | None => default
  end.
Proof. reflexivity. Qed.

(** The two ways the script reads [success] agree with [truthy_field]. *)
Lemma success_get_false (d : pydict) :
  truthy (dict_get d "success" (PyBool false)) = truthy_field "success" d.
Proof. unfold dict_get, truthy_field. now destruct (dict_lookup _ d). Qed.

Lemma success_get_none (d : pydict) :
  truthy (dict_get d "success" PyNone) = truthy_field "success" d.
Proof. unfold dict_get, truthy_field. now destruct (dict_lookup _ d). Qed.

(* ================================================================= *)
(** * Display of a response *)


(** C5: for a successful response whose recommendation is BUY, SELL or
    HOLD, the first metric shown is "Recommendation", and its indicator
    is green for BUY, red for SELL and yellow for HOLD. *)
Theorem recommendation_color_mapping
    (response : pydict) (recommendation : string) (w : world) :
  truthy_field "success" response = true ->
  dict_lookup "recommendation" response = Some (PyStr recommendation) ->
  In recommendation ["BUY"; "SELL"; "HOLD"] ->
  exists color r rest,
    display_response response w =
      (r, w,
       MarkdownHtml [Lit (div "success-box" "✅ Analysis Complete")] ::
       Column 1 [Metric "Recommendation"
                   [Lit color; Lit " "; Val (PyStr recommendation)]] ::
       rest) /\
    (recommendation = "BUY" -> color = "🟢") /\
    (recommendation = "SELL" -> color = "🔴") /\
    (recommendation = "HOLD" -> color = "🟡").
Proof.
  intros Hok Hrec Hin. unfold display_response.
  rewrite success_get_false, Hok. cbn [negb].
  unfold display_success. rewrite bind_emit.
  set (color := if py_eq_str (PyStr recommendation) "BUY" then green
                else if py_eq_str (PyStr recommendation) "SELL" then red
                else yellow).
  match goal with
  | |- context [bind (within (Column 1) ?body) ?k w] =>
      destruct (@bind_display_only _ _ (within (Column 1) body) k w tt
                  [Column 1 [Metric "Recommendation"
                     [Lit color; Lit " "; Val (PyStr recommendation)]]])
        as (r & ws & Hrun & _);
      [ unfold within, bind, lift, dict_getitem; rewrite Hrec; reflexivity
      | display
      | rewrite Hrun ]
  end.
  exists color, r, ws. split; [reflexivity|].
  subst color. cbn [py_eq_str].
  repeat split; intros ->; reflexivity.
Qed.

(* ================================================================= *)
(** * Lists of records on the page *)

(** A loop whose body draws one widget per element draws the widgets of
    a prefix of the list, and of the whole list when it ends normally. *)
Lemma for_each_shows {A} (xs : list A) (body : A -> ui unit)
    (R : A -> widget -> Prop) :
  (forall x w, exists r y, body x w = (r, w, [y]) /\ R x y /\ r <> Rerun) ->
  forall w, exists r ys,
    for_each xs body w = (r, w, ys) /\
    Forall2 R (firstn (List.length ys) xs) ys /\
    (r = Ok tt -> List.length ys = List.length xs) /\
    r <> Rerun.
Proof.
  intros Hbody. induction xs as [|x xs IH]; intros w; cbn [for_each].
  - exists (Ok tt), []. unfold ret. repeat split; [constructor | discriminate].
  - destruct (Hbody x w) as (r & y & Hrun & Hy & Hr).
    unfold bind. rewrite Hrun. destruct r as [[]|e|]; [| | contradiction].
    + destruct (IH w) as (r' & ys & -> & HF & Hlen & Hr').
      exists r', (y :: ys). cbn. repeat split.
      * now constructor.
      * intros E. now rewrite Hlen.
      * assumption.
    + exists (Raise e), [y]. repeat split; try discriminate.
      cbn. constructor; [assumption | constructor].
Qed.

Lemma rev_last_n {A} (n : nat) (xs : list A) :
  rev (last_n n xs) = firstn n (rev xs).
Proof.
  unfold last_n.
  destruct (Nat.le_gt_cases (List.length xs) n) as [Hle|Hgt].
  - replace (List.length xs - n)%nat with O by lia. cbn [skipn].
    rewrite firstn_all2; [reflexivity | now rewrite length_rev].
  - rewrite <- (rev_involutive xs) at 2. rewrite skipn_rev, rev_involutive.
    rewrite length_rev. f_equal. lia.
Qed.

(** What the "Recent Queries" panel draws for one record. *)
Lemma recent_entry_shows (c : chat) (w : world) :
  exists r y,
    recent_entry c w = (r, w, [y]) /\
    (exists rest,
        y = Expander ("🕐 " ++ strftime_HMS (timestamp c) ++ " - " ++
                      str_prefix 50 (query c) ++ "...")
              (Write [Lit ("**Query:** " ++ query c)] :: rest)) /\
    r <> Rerun.
Proof.
  unfold recent_entry.
  match goal with
  | |- context [within ?wrap (bind (emit ?x) ?k) w] =>
      destruct (@bind_display_only _ _ (emit x) k w tt [x])
        as (r & rest & Hrun & Hr); [reflexivity | display | ]
  end.
  unfold within. rewrite Hrun.
  eexists r, _. split; [reflexivity|]. split; [|assumption].
  now exists rest.
Qed.

(** C8: the "Recent Queries" panel shows one expander per record of the
    five most recent records at most, the most recent first: the list it
    walks is the first five elements of the reversed history, and the
    expanders it draws are, in order, those of that list (all of them
    when no record makes the rendering fail). *)
Theorem recent_queries_shows_last_five (w : world) :
  let h := chat_history (session w) in
  let recent := firstn 5 (rev h) in
  let shows c x :=
    exists rest,
      x = Expander ("🕐 " ++ strftime_HMS (timestamp c) ++ " - " ++
                    str_prefix 50 (query c) ++ "...")
            (Write [Lit ("**Query:** " ++ query c)] :: rest) in
  rev (last_n 5 h) = recent /\
  (List.length recent <= 5)%nat /\
  exists r heading shown,
    recent_queries w = (r, w, (heading ++ shown)%list) /\
    heading = (if non_empty h
               then [Markdown [Lit "---"];
                     Markdown [Lit "### 💬 Recent Queries"]]
               else []) /\
    Forall2 shows (firstn (List.length shown) recent) shown /\
    (List.length shown <= 5)%nat /\
    (r = Ok tt -> List.length shown = List.length recent).
Proof.
  cbn zeta. split; [apply rev_last_n|]. split; [apply firstn_le_length|].
  unfold recent_queries. rewrite bind_get_session.
  destruct (chat_history (session w)) as [|c0 h0] eqn:Hh; cbn [non_empty when].
  - exists (Ok tt), [], []. unfold ret. cbn.
    repeat split; try constructor; lia.
  - rewrite !bind_emit. rewrite rev_last_n.
    set (recent := firstn 5 (rev (c0 :: h0))).
    destruct (for_each_shows recent recent_entry _ recent_entry_shows w)
      as (r & ys & Hrun & HF & Hlen & _).
    rewrite Hrun.
    exists r, [Markdown [Lit "---"]; Markdown [Lit "### 💬 Recent Queries"]], ys.
    split; [reflexivity|]. split; [reflexivity|].
    split; [exact HF|]. split; [|exact Hlen].
    apply Forall2_length in HF. rewrite length_firstn in HF.
    assert (List.length recent <= 5)%nat by apply firstn_le_length. lia.
Qed.

(** ** A record whose response is not successful *)

Lemma history_entry_failure (inp : inputs) (i : nat) (c : chat) (w : world) :
  truthy_field "success" (response c) = false ->
  history_entry inp (i, c) w =
    (Ok tt, w,
     [Container
        [Column 1
           [Markdown [Lit ("**" ++ strftime_Ymd_HMS (timestamp c) ++ "**")];
            Write [Lit ("Q: " ++ query c)];
            Write [Lit "🚫 ";
                   Val (dict_get (response c) "message" (PyStr "Failed"))]];
         Column 2 (if st_button inp (BtnDetail i)
                   then [Json (PyDict (response c))] else []);
         Markdown [Lit "---"]]]).
Proof.
  intros Hfail. unfold history_entry.
  rewrite success_get_none, Hfail.
  destruct (st_button inp (BtnDetail i)); reflexivity.
Qed.

Lemma recent_entry_failure (c : chat) (w : world) :
  truthy_field "success" (response c) = false ->
  recent_entry c w =
    (Ok tt, w,
     [Expander ("🕐 " ++ strftime_HMS (timestamp c) ++ " - " ++
                str_prefix 50 (query c) ++ "...")
        [Write [Lit ("**Query:** " ++ query c)];
         Write [Lit "**Status:** ";
                Val (dict_get (response c) "message" (PyStr "Failed"))]]]).
Proof.
  intros Hfail. unfold recent_entry.
  rewrite success_get_none, Hfail. reflexivity.
Qed.

Lemma not_in_successful (c : chat) (h : list chat) :
  is_successful c = false -> ~ In c (successful_queries h).
Proof.
  intros Hc Hin. unfold successful_queries in Hin.
  apply filter_In in Hin. destruct Hin as [_ Hs]. congruence.
Qed.


(* ================================================================= *)
(** * The code that calls the backend *)

Section BackendFacts.

Variable backend_new : list (string * string) -> result pydict.
Variable create_assistant : system_t -> result unit.
Variable process_query_sync :
  system_t -> list string -> string -> result pydict.

(** ** The submission block *)

(** What the body of the [try] does, case by case. *)
Lemma submit_query_run (inp : inputs) (q : string) (w : world) :
  match system (session w) with
  | None =>
      submit_query process_query_sync inp q w =
        (Raise (mkExn AttributeError
                  "'NoneType' object has no attribute 'process_query_sync'"),
         w, [])
  | Some sys =>
      match process_query_sync sys (calls w) q with
      | Raises e =>
          submit_query process_query_sync inp q w =
            (Raise e, set_calls (calls w ++ [q]) w, [])
      | Returns response =>
          exists r ws,
            submit_query process_query_sync inp q w =
              (r,
               set_session
                 (with_chat_history
                    (chat_history (session w) ++
                     [mkChat (in_now inp) q response]) (session w))
                 (set_calls (calls w ++ [q]) w),
               ws) /\
            r <> Rerun
      end
  end.
Proof.
  unfold submit_query, bind, call_backend.
  destruct (system (session w)) as [sys|]; [|reflexivity].
  destruct (process_query_sync sys (calls w) q) as [response|e];
    [|reflexivity].
  cbn [get_session put_session].
  match goal with
  | |- context [display_response response ?w1] =>
      destruct (display_only_display_response response w1)
        as (r & ws & -> & Hr)
  end.
  now exists r, ws.
Qed.

Lemma display_exception_run (e : exn) (w : world) :
  display_exception e w =
    (Ok tt, w,
     [Error [Lit ("❌ Error: " ++ exn_str e)];
      Expander "Error Details" [Code [FormatExc e]]]).
Proof. reflexivity. Qed.

Lemma submission_pressed (inp : inputs) (w : world) :
  st_button inp BtnAnalyze = true ->
  in_user_query inp <> "" ->
  submission process_query_sync inp w =
  try_except (submit_query process_query_sync inp (in_user_query inp))
    display_exception w.
Proof.
  intros Hbtn Hq. unfold submission. rewrite Hbtn.
  destruct (in_user_query inp =? "")%string eqn:E; [|reflexivity].
  apply String.eqb_eq in E. contradiction.
Qed.

(** C7: when a query is submitted and the body of the [try] (the call
    of [process_query_sync], the append to the history, the rendering
    of the response) raises an exception [e], the submission itself
    ends normally: after what the body had drawn, the error message with
    [str(e)] and a collapsible "Error Details" panel holding the
    traceback are drawn.  The world is left as the body left it, and the
    backend has been called once at most: there is no retry.  In
    particular an exception raised by [process_query_sync] leaves the
    history as it was.  A submission never ends by an exception. *)
Theorem exception_is_caught_and_shown (inp : inputs) (w : world) :
  st_button inp BtnAnalyze = true ->
  in_user_query inp <> "" ->
  let q := in_user_query inp in
  let error_widgets e :=
    [Error [Lit ("❌ Error: " ++ exn_str e)];
     Expander "Error Details" [Code [FormatExc e]]] in
  (forall e w1 ws,
      submit_query process_query_sync inp q w = (Raise e, w1, ws) ->
      submission process_query_sync inp w =
        (Ok tt, w1, (ws ++ error_widgets e)%list) /\
      (calls w1 = calls w \/ calls w1 = (calls w ++ [q])%list)) /\
  (forall sys e,
      system (session w) = Some sys ->
      process_query_sync sys (calls w) q = Raises e ->
      submission process_query_sync inp w =
        (Ok tt, set_calls (calls w ++ [q]) w, error_widgets e)) /\
  (forall r w2 ws, submission process_query_sync inp w = (r, w2, ws) ->
                   r = Ok tt).
Proof.
  intros Hbtn Hq. cbn zeta.
  pose proof (submission_pressed inp w Hbtn Hq) as Hsub.
  pose proof (submit_query_run inp (in_user_query inp) w) as H.
  split; [|split].
  - intros e w1 ws Hrun. split.
    + rewrite Hsub. unfold try_except. rewrite Hrun.
      now rewrite display_exception_run.
    + destruct (system (session w)) as [sys|].
      * destruct (process_query_sync sys (calls w) (in_user_query inp)).
        -- destruct H as (r & ws' & H & _). rewrite H in Hrun.
           injection Hrun as _ <- _. now right.
        -- rewrite H in Hrun. injection Hrun as _ <- _. now right.
      * rewrite H in Hrun. injection Hrun as _ <- _. now left.
  - intros sys e Hsys Hraise. rewrite Hsub. unfold try_except.
    rewrite Hsys, Hraise in H. now rewrite H, display_exception_run.
  - intros r w2 ws. rewrite Hsub. unfold try_except.
    destruct (submit_query process_query_sync inp (in_user_query inp) w)
      as [[[[]|e|] w1] ws1] eqn:Hrun.
    + now intros [= <- _ _].
    + rewrite display_exception_run. now intros [= <- _ _].
    + exfalso.
      destruct (system (session w)) as [sys|]; [|congruence].
      destruct (process_query_sync sys (calls w) (in_user_query inp));
        [|congruence].
      destruct H as (r' & ws' & H & Hr). congruence.
Qed.

(** ** Blocks that leave the history alone *)

Lemma bind_ret {A B} (a : A) (k : A -> ui B) (w : world) :
  bind (ret a) k w = k a w.
Proof. unfold bind, ret. now destruct (k a w) as [[r w'] ws]. Qed.

Lemma keeps_of_display_only {A} (m : ui A) :
  display_only m -> keeps_history m.
Proof.
  intros Hm w r w' ws Hrun. destruct (Hm w) as (r0 & ws0 & E & _).
  rewrite E in Hrun. now injection Hrun as _ <- _.
Qed.

Lemma keeps_bind {A B} (m : ui A) (k : A -> ui B) :
  keeps_history m -> (forall a, keeps_history (k a)) ->
  keeps_history (bind m k).
Proof.
  intros Hm Hk w r w' ws. unfold bind.
  destruct (m w) as [[[a|e|] w1] ws1] eqn:E1.
  - destruct (k a w1) as [[r2 w2] ws2] eqn:E2. intros [= _ <- _].
    rewrite (Hk a _ _ _ _ E2). exact (Hm _ _ _ _ E1).
  - intros [= _ <- _]. exact (Hm _ _ _ _ E1).
  - intros [= _ <- _]. exact (Hm _ _ _ _ E1).
Qed.

Lemma keeps_within {A} (wrap : list widget -> widget) (m : ui A) :
  keeps_history m -> keeps_history (within wrap m).
Proof.
  intros Hm w r w' ws. unfold within.
  destruct (m w) as [[r1 w1] ws1] eqn:E1. intros [= _ <- _].
  exact (Hm _ _ _ _ E1).
Qed.

Lemma keeps_when (b : bool) (m : ui unit) :
  keeps_history m -> keeps_history (when b m).
Proof.
  intros Hm. destruct b; [exact Hm|].
  apply keeps_of_display_only, display_only_ret.
Qed.

Lemma keeps_for_each {A} (xs : list A) (body : A -> ui unit) :
  (forall x, keeps_history (body x)) -> keeps_history (for_each xs body).
Proof.
  intros Hb. induction xs as [|x xs IH]; cbn.
  - apply keeps_of_display_only, display_only_ret.
  - apply keeps_bind; auto.
Qed.

(** Reading the session and writing it back with the same records. *)
Lemma keeps_update {B} (f : session_state -> session_state)
    (k : unit -> ui B) :
  (forall s, chat_history (f s) = chat_history s) ->
  (forall u, keeps_history (k u)) ->
  keeps_history (bind get_session (fun s => bind (put_session (f s)) k)).
Proof.
  intros Hf Hk w r w' ws. rewrite bind_get_session.
  unfold bind, put_session.
  destruct (k tt (set_session (f (session w)) w)) as [[r2 w2] ws2] eqn:E2.
  intros [= _ <- _]. rewrite (Hk tt _ _ _ _ E2). cbn. apply Hf.
Qed.

Lemma keeps_set_current_query (q : option string) :
  keeps_history
    (bind get_session (fun s => put_session (with_current_query q s))).
Proof.
  intros w r w' ws. rewrite bind_get_session. now intros [= _ <- _].
Qed.

Lemma keeps_st_rerun : keeps_history st_rerun.
Proof. intros w r w' ws [= _ <- _]. reflexivity. Qed.

Lemma initialize_system_session (a b : bool) (c : string) (w : world) :
  session (snd (fst (initialize_system backend_new create_assistant a b c w)))
  = session w.
Proof.
  unfold initialize_system, initialize_system_body, try_except, bind,
    setenv, new_system, lift, ret.
  destruct (cache_lookup (a, b, c) (cache w)); [reflexivity|].
  cbn [environ set_environ].
  destruct (backend_new _) as [config|e]; [|reflexivity].
  cbn. destruct (create_assistant _); reflexivity.
Qed.

Lemma keeps_initialize_system (a b : bool) (c : string) :
  keeps_history (initialize_system backend_new create_assistant a b c).
Proof.
  intros w r w' ws E.
  pose proof (initialize_system_session a b c w) as H.
  rewrite E in H. cbn in H. now rewrite H.
Qed.

Lemma system_status_renders : renders system_status.
Proof.
  intros w. unfold system_status. rewrite bind_emit, bind_get_session.
  destruct (initialized (session w)); [|now eexists tt, _].
  destruct (system (session w)); now eexists tt, _.
Qed.

Lemma sidebar_keeps_history (inp : inputs) :
  st_button inp BtnClear = false ->
  keeps_history (sidebar backend_new create_assistant inp).
Proof.
  intros Hclear. unfold sidebar. rewrite Hclear. cbn [when].
  repeat first
    [ apply keeps_bind; [|intros ?]
    | apply keeps_of_display_only; solve [display] ].
  - apply keeps_when. apply keeps_bind; [apply keeps_initialize_system|].
    intros [sys error]. destruct (error_truthy error).
    + apply keeps_of_display_only. display.
    + apply (keeps_update (fun s => with_initialized true (with_system sys s)));
        [reflexivity|].
      intros _. apply keeps_bind;
        [apply keeps_of_display_only; display | intros _; apply keeps_st_rerun].
  - apply keeps_when, keeps_set_current_query.
  - apply keeps_when, keeps_set_current_query.
  - apply keeps_when, keeps_set_current_query.
  - apply keeps_when, keeps_set_current_query.
  - apply keeps_when, keeps_set_current_query.
Qed.

(** ** The sidebar, button by button *)

Lemma st_button_pressed (inp : inputs) (b : button) :
  in_pressed inp = Some b ->
  forall b', st_button inp b' = button_eqb b' b.
Proof. intros H b'. unfold st_button. now rewrite H. Qed.

Lemma button_eqb_eq (a b : button) : button_eqb a b = true -> a = b.
Proof.
  destruct a, b; cbn; try discriminate; try reflexivity.
  - intros H. apply String.eqb_eq in H. now subst.
  - intros H. apply Nat.eqb_eq in H. now subst.
Qed.

Lemma st_button_true (inp : inputs) (b : button) :
  st_button inp b = true -> in_pressed inp = Some b.
Proof.
  unfold st_button. destruct (in_pressed inp) as [b'|]; [|discriminate].
  intros H. apply button_eqb_eq in H. now subst.
Qed.

(** "Clear Chat History": the list is emptied and the run ends in a
    rerun. *)
Lemma sidebar_clear (inp : inputs) (w : world) :
  st_button inp BtnClear = true ->
  exists ws,
    sidebar backend_new create_assistant inp w =
      (Rerun, set_session (with_chat_history [] (session w)) w, ws).
Proof.
  intros Hclear. apply st_button_true in Hclear.
  unfold sidebar. rewrite !(st_button_pressed inp Hclear). cbn [button_eqb when].
  rewrite !bind_emit, bind_ret, bind_emit.
  destruct (system_status_renders w) as ([] & ws & Hst).
  rewrite (@bind_ok _ _ system_status _ _ _ _ _ Hst).
  rewrite !bind_emit. unfold bind at 1. rewrite bind_get_session.
  cbn. now eexists.
Qed.

(** A run triggered by the form draws the sidebar and changes nothing. *)
Lemma sidebar_analyze (inp : inputs) (w : world) :
  st_button inp BtnAnalyze = true ->
  exists ws, sidebar backend_new create_assistant inp w = (Ok tt, w, ws).
Proof.
  intros Hbtn. apply st_button_true in Hbtn.
  unfold sidebar. rewrite !(st_button_pressed inp Hbtn). cbn [button_eqb when].
  rewrite !bind_emit, bind_ret, bind_emit.
  destruct (system_status_renders w) as ([] & ws & Hst).
  rewrite (@bind_ok _ _ system_status _ _ _ _ _ Hst).
  rewrite !bind_emit, !bind_ret, !bind_emit.
  unfold example_queries. cbn [for_each].
  rewrite !(st_button_pressed inp Hbtn). cbn [button_eqb when].
  rewrite !bind_ret. unfold ret. now eexists.
Qed.

(** ** The chat tab *)

Lemma history_after_submission_idle (inp : inputs) (w : world) :
  st_button inp BtnAnalyze = false ->
  history_after_submission process_query_sync inp w =
  chat_history (session w).
Proof.
  intros H. unfold history_after_submission. now rewrite H.
Qed.

Lemma submission_history (inp : inputs) (w : world)
    (r : outcome unit) (w' : world) (ws : list widget) :
  submission process_query_sync inp w = (r, w', ws) ->
  chat_history (session w') =
    history_after_submission process_query_sync inp w /\
  system (session w') = system (session w) /\
  initialized (session w') = initialized (session w).
Proof.
  unfold submission, history_after_submission.
  destruct (st_button inp BtnAnalyze && negb (in_user_query inp =? "")%string);
    cbn [when].
  - unfold try_except.
    pose proof (submit_query_run inp (in_user_query inp) w) as H.
    destruct (system (session w)) as [sys|] eqn:Hsys.
    + destruct (process_query_sync sys (calls w) (in_user_query inp))
        as [response|e].
      * destruct H as (r0 & ws0 & -> & Hr0).
        destruct r0 as [[]|e|]; [| |contradiction].
        -- intros [= _ <- _]. cbn. now rewrite Hsys.
        -- rewrite display_exception_run. intros [= _ <- _]. cbn.
           now rewrite Hsys.
      * rewrite H, display_exception_run. intros [= _ <- _]. cbn.
        now rewrite Hsys.
    + rewrite H, display_exception_run. intros [= _ <- _]. now rewrite Hsys.
  - intros [= _ <- _]. auto.
Qed.

Lemma chat_tab_history (inp : inputs) (w : world)
    (r : outcome unit) (w' : world) (ws : list widget) :
  chat_tab process_query_sync inp w = (r, w', ws) ->
  chat_history (session w') =
  history_after_submission process_query_sync inp w.
Proof.
  unfold chat_tab. rewrite bind_emit, bind_get_session.
  set (w1 := if negb (match current_query (session w) with
                      | Some q => q
                      | None => ""
                      end =? "")%string
             then set_session (with_current_query None (session w)) w
             else w).
  assert (Hw1 : history_after_submission process_query_sync inp w1 =
                history_after_submission process_query_sync inp w).
  { subst w1. now destruct (negb _). }
  assert (Hstep : forall B (k : unit -> ui B),
             bind (when (negb (match current_query (session w) with
                               | Some q => q
                               | None => ""
                               end =? "")%string)
                     (put_session (with_current_query None (session w)))) k w
             = k tt w1).
  { intros B k. subst w1. destruct (negb _); cbn [when].
    - unfold bind, put_session. now destruct (k tt _) as [[? ?] ?].
    - apply bind_ret. }
  rewrite Hstep. unfold bind.
  destruct (submission process_query_sync inp w1) as [[r1 w2] ws1] eqn:Hsub.
  apply submission_history in Hsub. destruct Hsub as (Hh & _ & _).
  destruct r1 as [[]|e|].
  - destruct (display_only_recent_queries w2) as (r2 & ws2 & -> & _).
    intros [= _ <- _]. now rewrite Hh.
  - intros [= _ <- _]. now rewrite Hh.
  - intros [= _ <- _]. now rewrite Hh.
Qed.

Lemma main_content_history (inp : inputs) (w : world)
    (r : outcome unit) (w' : world) (ws : list widget) :
  main_content process_query_sync inp w = (r, w', ws) ->
  chat_history (session w') =
  if initialized (session w)
  then history_after_submission process_query_sync inp w
  else chat_history (session w).
Proof.
  unfold main_content. rewrite !bind_emit, bind_get_session.
  destruct (initialized (session w)); cbn [negb].
  - unfold bind at 1, within at 1.
    destruct (chat_tab process_query_sync inp w) as [[r1 w1] ws1] eqn:Htab.
    apply chat_tab_history in Htab.
    destruct r1 as [[]|e|].
    + match goal with
      | |- context [bind (within (Tab "📈 Analysis") analysis_dashboard) ?k w1] =>
          assert (Hk : display_only
                         (bind (within (Tab "📈 Analysis") analysis_dashboard) k))
            by display;
          destruct (Hk w1) as (r2 & ws2 & -> & _)
      end.
      intros [= _ <- _]. exact Htab.
    + intros [= _ <- _]. exact Htab.
    + intros [= _ <- _]. exact Htab.
  - match goal with
    | |- context [bind (emit ?x) ?k w] =>
        assert (Hk : display_only (bind (emit x) k)) by display;
        destruct (Hk w) as (r2 & ws2 & -> & _)
    end.
    now intros [= _ <- _].
Qed.

(** ** The whole script *)

Lemma script_history (inp : inputs) (w : world) :
  chat_history (session (snd (fst
    (script backend_new create_assistant process_query_sync inp w)))) =
  expected_history process_query_sync inp w.
Proof.
  unfold script, expected_history. rewrite bind_emit.
  unfold bind at 1, within at 1.
  destruct (st_button inp BtnClear) eqn:Hclear.
  - destruct (sidebar_clear inp w Hclear) as (ws & ->). reflexivity.
  - destruct (sidebar backend_new create_assistant inp w)
      as [[r1 w1] ws1] eqn:Hside.
    pose proof Hside as Hkeep.
    apply (sidebar_keeps_history inp Hclear) in Hkeep.
    destruct (st_button inp BtnAnalyze) eqn:Hbtn.
    + destruct (sidebar_analyze inp w Hbtn) as (ws & E).
      rewrite E in Hside. injection Hside as <- <- <-.
      unfold bind at 1.
      destruct (main_content process_query_sync inp w)
        as [[r2 w2] ws2] eqn:Hmain.
      apply main_content_history in Hmain.
      destruct r2 as [[]|e|]; cbn; exact Hmain.
    + assert (Hidle : forall r2 w2 ws2,
                 main_content process_query_sync inp w1 = (r2, w2, ws2) ->
                 chat_history (session w2) = chat_history (session w)).
      { intros r2 w2 ws2 Hmain. apply main_content_history in Hmain.
        rewrite history_after_submission_idle in Hmain by assumption.
        rewrite Hmain, Hkeep. now destruct (initialized (session w1)). }
      assert (Hgoal : chat_history (session w) =
                      if initialized (session w)
                      then history_after_submission process_query_sync inp w
                      else chat_history (session w)).
      { rewrite history_after_submission_idle by assumption.
        now destruct (initialized (session w)). }
      rewrite <- Hgoal.
      destruct r1 as [[]|e|]; cbn; try exact Hkeep.
      unfold bind at 1.
      destruct (main_content process_query_sync inp w1)
        as [[r2 w2] ws2] eqn:Hmain.
      specialize (Hidle _ _ _ eq_refl).
      destruct r2 as [[]|e|]; cbn; exact Hidle.
Qed.

Lemma interact_history (inp : inputs) (w : world) :
  chat_history (session (snd (fst
    (interact backend_new create_assistant process_query_sync inp w)))) =
  expected_history process_query_sync inp w.
Proof.
  unfold interact. rewrite <- script_history.
  destruct (script backend_new create_assistant process_query_sync inp w)
    as [[[[]|e|] w1] ws1]; try reflexivity.
  rewrite script_history. unfold expected_history, history_after_submission.
  cbn. now destruct (initialized (session w1)).
Qed.

(** ** The history tab *)

Lemma enumerate_length {A} (start : nat) (xs : list A) :
  List.length (enumerate start xs) = List.length xs.
Proof.
  revert start. induction xs as [|x xs IH]; intros start; cbn; auto.
Qed.

(** What the history tab draws for one record. *)
Lemma history_entry_shows (inp : inputs) (ic : nat * chat) (w : world) :
  exists r y,
    history_entry inp ic w = (r, w, [y]) /\
    (exists rest1 rest,
        y = Container
              (Column 1
                 (Markdown [Lit ("**" ++
                                 strftime_Ymd_HMS (timestamp (snd ic)) ++
                                 "**")] ::
                  Write [Lit ("Q: " ++ query (snd ic))] :: rest1) :: rest)) /\
    r <> Rerun.
Proof.
  destruct ic as [i c]. unfold history_entry. cbn [snd].
  match goal with
  | |- context [within Container (bind (within (Column 1) ?body) ?k) w] =>
      assert (Hbody : exists r1 rest1,
                 body w =
                   (r1, w,
                    Markdown [Lit ("**" ++ strftime_Ymd_HMS (timestamp c) ++
                                   "**")] ::
                    Write [Lit ("Q: " ++ query c)] :: rest1) /\
                 r1 <> Rerun);
      [ | assert (Hk : forall u, display_only (k u)) by display ]
  end.
  { rewrite !bind_emit.
    match goal with
    | |- context [(if ?b then ?m1 else ?m2) w] =>
        assert (Hm : display_only (if b then m1 else m2)) by display;
        destruct (Hm w) as (r1 & rest1 & -> & Hr1)
    end.
    now exists r1, rest1. }
  destruct Hbody as (r1 & rest1 & Hbody & Hr1).
  unfold within at 1. unfold bind at 1. unfold within at 1. rewrite Hbody.
  destruct r1 as [[]|e|]; [| |contradiction].
  - destruct (Hk tt w) as (r2 & ws2 & -> & Hr2).
    eexists r2, _. split; [reflexivity|]. split; [|assumption].
    now eexists _, _.
  - eexists (Raise e), _. split; [reflexivity|]. split; [|discriminate].
    now eexists _, _.
Qed.

(** C4: the chat history is an append-only list.  After a run of the
    script the history is what [expected_history] says: empty when the
    run was triggered by "Clear Chat History"; the old list with one new
    record (time of the run, query, response) at its end when the system
    is initialized, a non-empty query was submitted and the backend
    returned a response; and the old list otherwise.  So unless it is
    cleared, the old list is a prefix of the new one, with every record
    as it was.  The rerun that ends an interaction changes nothing more.
    The history tab draws one container per record, walking the list
    from its last record to its first. *)
Theorem chat_history_append_only (inp : inputs) (w : world) :
  let h := chat_history (session w) in
  let after (step : inputs -> world -> outcome unit * world * list widget) :=
    chat_history (session (snd (fst (step inp w)))) in
  let h' := after (script backend_new create_assistant process_query_sync) in
  let shows (ic : nat * chat) (x : widget) :=
    exists rest1 rest,
      x = Container
            (Column 1
               (Markdown [Lit ("**" ++ strftime_Ymd_HMS (timestamp (snd ic)) ++
                               "**")] ::
                Write [Lit ("Q: " ++ query (snd ic))] :: rest1) :: rest) in
  h' = expected_history process_query_sync inp w /\
  after (interact backend_new create_assistant process_query_sync) = h' /\
  (h' = h \/
   (h' = [] /\ st_button inp BtnClear = true) \/
   (exists response,
       h' = (h ++ [mkChat (in_now inp) (in_user_query inp) response])%list /\
       st_button inp BtnAnalyze = true)) /\
  (exists r shown rest,
      history_tab inp w =
        (r, w, Markdown [Lit "### 📚 Query History"] :: shown ++ rest) /\
      Forall2 shows (firstn (List.length shown) (enumerate 0 (rev h))) shown /\
      (r = Ok tt -> List.length shown = List.length h) /\
      (forall x, In x rest -> forall ic, ~ shows ic x)).
Proof.
  cbn beta zeta. rewrite interact_history, script_history.
  split; [reflexivity|]. split; [reflexivity|]. split.
  - unfold expected_history, history_after_submission.
    destruct (st_button inp BtnClear); [now right; left|].
    destruct (initialized (session w)); [|now left].
    destruct (st_button inp BtnAnalyze); [|now left]. cbn [andb].
    destruct (negb _); [|now left].
    destruct (system (session w)) as [sys|]; [|now left].
    destruct (process_query_sync sys (calls w) (in_user_query inp))
      as [response|e]; [|now left].
    right; right. now exists response.
  - unfold history_tab. rewrite bind_emit, bind_get_session.
    destruct (chat_history (session w)) as [|c0 h0] eqn:Hh; cbn [non_empty].
    + exists (Ok tt), [],
        [Info [Lit "📚 No query history yet. Start asking questions!"]].
      split; [reflexivity|]. split; [constructor|]. split; [reflexivity|].
      intros x [<-|[]] ic (rest1 & rest & E). discriminate.
    + destruct (for_each_shows (enumerate 0 (rev (c0 :: h0)))
                  (history_entry inp) _ (history_entry_shows inp) w)
        as (r & ys & Hrun & HF & Hlen & Hr).
      unfold bind at 1. rewrite Hrun.
      destruct r as [[]|e|]; [| |contradiction].
      * destruct (st_button inp BtnExport); cbn [when].
        -- unfold bind, lift.
           destruct (history_json (c0 :: h0)) as [doc|e]; cbn [emit].
           ++ eexists (Ok tt), ys, [_]. split; [reflexivity|].
              split; [exact HF|]. split.
              ** intros _. rewrite Hlen by reflexivity.
                 now rewrite enumerate_length, length_rev.
              ** intros x [<-|[]] ic (rest1 & rest & E). discriminate.
           ++ exists (Raise e), ys, []. split; [reflexivity|].
              split; [exact HF|]. split; [discriminate|]. intros x [].
        -- exists (Ok tt), ys, []. split; [reflexivity|].
           split; [exact HF|]. split.
           ++ intros _. rewrite Hlen by reflexivity.
              now rewrite enumerate_length, length_rev.
           ++ intros x [].
      * exists (Raise e), ys, []. rewrite app_nil_r.
        split; [reflexivity|]. split; [exact HF|]. split; [discriminate|].
        intros x [].
Qed.

(** ** The cached initializer *)

Lemma cache_key_eqb_refl (k : cache_key) : cache_key_eqb k k = true.
Proof.
  destruct k as [[a b] c]. cbn.
  now rewrite !Bool.eqb_reflx, String.eqb_refl.
Qed.

Lemma cache_key_eqb_eq (k k' : cache_key) :
  cache_key_eqb k k' = true -> k = k'.
Proof.
  destruct k as [[a b] c], k' as [[a' b'] c']. cbn.
  intros H. apply andb_prop in H. destruct H as [H Hc].
  apply andb_prop in H. destruct H as [Ha Hb].
  apply Bool.eqb_prop in Ha, Hb. apply String.eqb_eq in Hc. now subst.
Qed.

(** The body never raises: a failure is returned as [(None, str(e))];
    it leaves the store alone. *)
(** The body of [initialize_system], run. *)
Lemma initialize_system_body_effect
    (use_qdrant qdrant_local : bool) (collection_name : string) (w : world) :
  let env :=
    environ_set
      (environ_set (environ w) "USE_QDRANT" (flag_text use_qdrant))
      "QDRANT_LOCAL" (flag_text qdrant_local) in
  initialize_system_body backend_new create_assistant
    use_qdrant qdrant_local collection_name w =
  match backend_new env with
  | Raises e => (Ok (None, Some (exn_str e)), set_environ env w, [])
  | Returns config =>
      let sys :=
        mkSystem (next_id w)
          (dict_set config "qdrant_collection" (PyStr collection_name)) in
      (Ok match create_assistant sys with
          | Returns _ => (Some sys, None)
          | Raises e => (None, Some (exn_str e))
          end,
       set_next_id (S (next_id w)) (set_environ env w), [])
  end.
Proof.
  unfold initialize_system_body, try_except, bind, setenv, new_system,
    lift, ret, flag_text.
  cbn [environ set_environ].
  destruct (backend_new _) as [config|e]; [|reflexivity].
  cbn. now destruct (create_assistant _) as [[]|e].
Qed.

Lemma initialize_system_body_run (a b : bool) (c : string) (w : world) :
  exists res w1,
    initialize_system_body backend_new create_assistant a b c w =
      (Ok res, w1, []) /\
    cache w1 = cache w.
Proof.
  unfold initialize_system_body, try_except, bind, setenv, new_system,
    lift, ret.
  cbn [environ set_environ].
  destruct (backend_new _) as [config|e]; [|now eexists _, _].
  cbn. destruct (create_assistant _); now eexists _, _.
Qed.

Lemma initialize_system_hit (a b : bool) (c : string) (w : world)
    (res : init_result) :
  cache_lookup (a, b, c) (cache w) = Some res ->
  initialize_system backend_new create_assistant a b c w = (Ok res, w, []).
Proof. intros H. unfold initialize_system. now rewrite H. Qed.

Lemma initialize_system_stores (a b : bool) (c : string) (w : world) :
  exists res w1,
    initialize_system backend_new create_assistant a b c w =
      (Ok res, w1, []) /\
    cache_lookup (a, b, c) (cache w1) = Some res /\
    (forall k, cache_key_eqb k (a, b, c) = false ->
               cache_lookup k (cache w1) = cache_lookup k (cache w)) /\
    (forall k r, cache_lookup k (cache w) = Some r ->
                 cache_lookup k (cache w1) = Some r).
Proof.
  unfold initialize_system.
  destruct (cache_lookup (a, b, c) (cache w)) as [res|] eqn:Hlook.
  - exists res, w. auto.
  - destruct (initialize_system_body_run a b c w) as (res & w1 & -> & Hc).
    exists res, (set_cache (((a, b, c), res) :: cache w1) w1).
    split; [reflexivity|]. cbn [cache set_cache cache_lookup].
    rewrite cache_key_eqb_refl, Hc. split; [reflexivity|]. split.
    + intros k Hk. now rewrite Hk.
    + intros k r Hk. destruct (cache_key_eqb k (a, b, c)) eqn:E; [|exact Hk].
      apply cache_key_eqb_eq in E. subst k. congruence.
Qed.

Lemma cache_entry_persists (calls_made : list cache_key) (w : world)
    (k : cache_key) (r : init_result) :
  cache_lookup k (cache w) = Some r ->
  cache_lookup k
    (cache (fold_left
              (fun w0 k0 =>
                 snd (fst (initialize_system backend_new create_assistant
                             (fst (fst k0)) (snd (fst k0)) (snd k0) w0)))
              calls_made w)) = Some r.
Proof.
  revert w. induction calls_made as [|[[a b] c] ks IH]; intros w H;
    cbn [fold_left]; [exact H|].
  apply IH. cbn [fst snd].
  destruct (initialize_system_stores a b c w) as (res & w1 & -> & _ & _ & Hp).
  cbn. now apply Hp.
Qed.

Lemma cache_lookup_absent (k : cache_key)
    (c : list (cache_key * init_result)) :
  (forall r, ~ In (k, r) c) -> cache_lookup k c = None.
Proof.
  induction c as [|[k' r'] c IH]; intros H; cbn [cache_lookup];
    [reflexivity|].
  destruct (cache_key_eqb k k') eqn:E.
  - apply cache_key_eqb_eq in E. subst k'.
    destruct (H r'). now left.
  - apply IH. intros r Hr. apply (H r). now right.
Qed.

Lemma cache_key_eqb_neq (k k' : cache_key) :
  k <> k' -> cache_key_eqb k k' = false.
Proof.
  intros H. destruct (cache_key_eqb k k') eqn:E; [|reflexivity].
  apply cache_key_eqb_eq in E. contradiction.
Qed.

(** The instance that the body constructs. *)
Lemma initialize_system_body_instance (a b : bool) (c : string) (w : world) :
  exists res wb,
    initialize_system_body backend_new create_assistant a b c w =
      (Ok res, wb, []) /\
    cache wb = cache w /\
    (forall sys, fst res = Some sys ->
                 sys_id sys = next_id w /\ next_id wb = S (next_id w)) /\
    (forall config sys,
        backend_new (environ wb) = Returns config ->
        sys = mkSystem (next_id w)
                (dict_set config "qdrant_collection" (PyStr c)) ->
        create_assistant sys = Returns tt ->
        res = (Some sys, None)).
Proof.
  rewrite initialize_system_body_effect. cbn zeta.
  destruct (backend_new _) as [config|e] eqn:Enew.
  - eexists _, _. split; [reflexivity|]. split; [reflexivity|].
    cbn [environ set_environ set_next_id next_id]. split.
    + intros sys. destruct (create_assistant _); cbn [fst];
        [|discriminate]. now intros [= <-].
    + intros config0 sys Hnew -> Hcreate.
      rewrite Enew in Hnew. injection Hnew as <-. now rewrite Hcreate.
  - eexists _, _. split; [reflexivity|]. split; [reflexivity|].
    cbn [environ set_environ fst]. split; [discriminate|].
    intros config sys Hnew. rewrite Enew in Hnew. discriminate.
Qed.

(** C6: the backend instance is a cached singleton keyed by the three
    arguments of [initialize_system].  A first call with three
    arguments the store has no entry for runs the body, and stores what
    the body returns under the three arguments: when the constructor
    and [_create_assistant] return, this is the instance the call has
    constructed.  A second call with the same three arguments returns
    that very result (the same instance, with the same identity) and
    leaves the world as it is: the body does not run, no instance is
    constructed, the environment is not written.  A call with other
    arguments does not get this entry: it runs the body again, and an
    instance it constructs is another one.  Both entries then stay,
    whatever initializations follow. *)
Theorem initialize_system_is_cached
    (use_qdrant qdrant_local : bool) (collection_name : string)
    (use_qdrant' qdrant_local' : bool) (collection_name' : string)
    (between : list cache_key) (w : world) :
  let init (k : cache_key) :=
    initialize_system backend_new create_assistant
      (fst (fst k)) (snd (fst k)) (snd k) in
  let body (k : cache_key) :=
    initialize_system_body backend_new create_assistant
      (fst (fst k)) (snd (fst k)) (snd k) in
  let key := (use_qdrant, qdrant_local, collection_name) in
  let key' := (use_qdrant', qdrant_local', collection_name') in
  (forall r, ~ In (key, r) (cache w)) ->
  (forall r, ~ In (key', r) (cache w)) ->
  key <> key' ->
  exists res wb res' wb',
    body key w = (Ok res, wb, []) /\
    (forall config sys,
        backend_new (environ wb) = Returns config ->
        sys = mkSystem (next_id w)
                (dict_set config "qdrant_collection"
                   (PyStr collection_name)) ->
        create_assistant sys = Returns tt ->
        res = (Some sys, None)) /\
    let w1 := set_cache ((key, res) :: cache w) wb in
    init key w = (Ok res, w1, []) /\
    init key w1 = (Ok res, w1, []) /\
    body key' w1 = (Ok res', wb', []) /\
    let w2 := set_cache ((key', res') :: cache w1) wb' in
    init key' w1 = (Ok res', w2, []) /\
    (forall sys sys',
        fst res = Some sys -> fst res' = Some sys' ->
        sys_id sys <> sys_id sys') /\
    let w3 := fold_left (fun w0 k0 => snd (fst (init k0 w0))) between w2 in
    init key w3 = (Ok res, w3, []) /\
    init key' w3 = (Ok res', w3, []).
Proof.
  cbn zeta. cbn [fst snd]. intros Habs Habs' Hneq.
  destruct (initialize_system_body_instance use_qdrant qdrant_local
              collection_name w)
    as (res & wb & Hbody & Hcache & Hid & Hinst).
  set (key := (use_qdrant, qdrant_local, collection_name)) in *.
  set (key' := (use_qdrant', qdrant_local', collection_name')) in *.
  set (w1 := set_cache ((key, res) :: cache w) wb).
  destruct (initialize_system_body_instance use_qdrant' qdrant_local'
              collection_name' w1)
    as (res' & wb' & Hbody' & Hcache' & Hid' & _).
  set (w2 := set_cache ((key', res') :: cache w1) wb').
  exists res, wb, res', wb'.
  assert (Hfirst : initialize_system backend_new create_assistant
                     use_qdrant qdrant_local collection_name w =
                   (Ok res, w1, [])).
  { unfold initialize_system. fold key.
    rewrite (@cache_lookup_absent key (cache w) Habs), Hbody, Hcache.
    reflexivity. }
  assert (Hother : initialize_system backend_new create_assistant
                     use_qdrant' qdrant_local' collection_name' w1 =
                   (Ok res', w2, [])).
  { unfold initialize_system. fold key'.
    assert (Hmiss : cache_lookup key' (cache w1) = None).
    { apply cache_lookup_absent. intros r [E|Hin].
      - apply Hneq. congruence.
      - exact (Habs' r Hin). }
    rewrite Hmiss, Hbody', Hcache'. reflexivity. }
  assert (Hk : cache_lookup key (cache w2) = Some res).
  { subst w2 w1. cbn [cache set_cache cache_lookup].
    rewrite (@cache_key_eqb_neq key key' Hneq).
    now rewrite cache_key_eqb_refl. }
  assert (Hk' : cache_lookup key' (cache w2) = Some res').
  { subst w2. cbn [cache set_cache cache_lookup].
    now rewrite cache_key_eqb_refl. }
  split; [exact Hbody|]. split; [exact Hinst|]. split; [exact Hfirst|].
  split.
  { apply initialize_system_hit. subst w1. cbn [cache set_cache cache_lookup].
    now rewrite cache_key_eqb_refl. }
  split; [exact Hbody'|]. split; [exact Hother|]. split.
  { intros sys sys' Hs Hs'.
    destruct (Hid sys Hs) as (E1 & E2). destruct (Hid' sys' Hs') as (E3 & _).
    rewrite E1, E3. subst w1. cbn [next_id set_cache]. lia. }
  split.
  - apply (@initialize_system_hit use_qdrant qdrant_local collection_name).
    now apply cache_entry_persists.
  - apply (@initialize_system_hit use_qdrant' qdrant_local' collection_name').
    now apply cache_entry_persists.
Qed.
End BackendFacts.

(* ================================================================= *)
(** * Facts about the float operations *)

Lemma digits2_pos_upper (p : positive) (k : Z) :
  Zpos p < 2 ^ k -> Zpos (digits2_pos p) <= k.
Proof.
  revert k. induction p as [p IH|p IH|]; intros k H; cbn [digits2_pos].
  - assert (0 < k) by (destruct k; cbn in H; lia).
    replace k with (Z.succ (k - 1)) in H by lia.
    rewrite Z.pow_succ_r in H by lia.
    specialize (IH (k - 1)). lia.
  - assert (0 < k) by (destruct k; cbn in H; lia).
    replace k with (Z.succ (k - 1)) in H by lia.
    rewrite Z.pow_succ_r in H by lia.
    specialize (IH (k - 1)). lia.
  - destruct k; cbn in H; lia.
Qed.

Lemma digits2_pos_lower (p : positive) : Zpos p < 2 ^ Zpos (digits2_pos p).
Proof.
  induction p as [p IH|p IH|]; cbn [digits2_pos]; [| |reflexivity].
  - rewrite Pos2Z.inj_succ, Z.pow_succ_r by lia. lia.
  - rewrite Pos2Z.inj_succ, Z.pow_succ_r by lia. lia.
Qed.

Lemma Zdigits2_upper (m k : Z) :
  0 <= m -> 0 <= k -> m < 2 ^ k -> Zdigits2 m <= k.
Proof.
  intros Hm Hk H. destruct m as [|p|p]; cbn [Zdigits2]; [lia| |lia].
  now apply digits2_pos_upper.
Qed.

Lemma Zdigits2_lower (m : Z) : 0 <= m -> m < 2 ^ Zdigits2 m.
Proof.
  intros Hm. destruct m as [|p|p]; cbn [Zdigits2]; [reflexivity| |lia].
  apply digits2_pos_lower.
Qed.

Lemma Zdigits2_nonneg (m : Z) : 0 <= Zdigits2 m.
Proof. destruct m; cbn; lia. Qed.

Lemma shr_1_bounds (r : shr_record) :
  0 <= shr_m r -> 0 <= shr_m (shr_1 r) <= shr_m r.
Proof.
  destruct r as [m rb sb]. cbn [shr_m]. intros H. unfold shr_1.
  destruct m as [|[p|p|]|p]; cbn [shr_m]; lia.
Qed.

Lemma iter_shr_1_bounds (n : positive) (r : shr_record) :
  0 <= shr_m r -> 0 <= shr_m (iter_pos shr_1 n r) <= shr_m r.
Proof.
  revert r. induction n as [n IH|n IH|]; intros r H; cbn [iter_pos].
  - pose proof (@shr_1_bounds r H) as H1.
    pose proof (IH (shr_1 r) (proj1 H1)) as H2.
    pose proof (IH _ (proj1 H2)) as H3. lia.
  - pose proof (IH r H) as H1.
    pose proof (IH _ (proj1 H1)) as H2. lia.
  - now apply shr_1_bounds.
Qed.

Lemma shr_record_of_loc_m (m : Z) (l : location) :
  shr_m (shr_record_of_loc m l) = m.
Proof. destruct l as [|[]]; reflexivity. Qed.

(** One normalisation step: the mantissa does not grow, and the exponent
    becomes the larger of the old one and the canonical one. *)
Lemma shr_fexp_bounds (m e : Z) (l : location) :
  0 <= m ->
  let '(mrs, e') := shr_fexp prec64 emax64 m e l in
  0 <= shr_m mrs <= m /\
  e' = Z.max e (fexp prec64 emax64 (Zdigits2 m + e)) /\
  (e' = e -> shr_m mrs = m).
Proof.
  intros Hm. unfold shr_fexp, shr.
  destruct (fexp prec64 emax64 (Zdigits2 m + e) - e) as [|n|n] eqn:En.
  - rewrite shr_record_of_loc_m. repeat split; lia.
  - pose proof (iter_shr_1_bounds n (shr_record_of_loc m l)) as H.
    rewrite shr_record_of_loc_m in H. specialize (H Hm).
    repeat split; try lia.
  - rewrite shr_record_of_loc_m. repeat split; lia.
Qed.

Lemma round_nearest_even_bounds (m : Z) (l : location) :
  m <= round_nearest_even m l <= m + 1.
Proof.
  unfold round_nearest_even. destruct l as [|[]]; try lia.
  destruct (Z.even m); lia.
Qed.

Lemma fexp64 (x : Z) : fexp prec64 emax64 x = Z.max (x - 53) (-1074).
Proof. reflexivity. Qed.

(** Rounding a value below two cannot overflow. *)
Lemma binary_round_aux_finite (sx : bool) (mx ex : Z) (lx : location) :
  0 <= mx -> ex <= 0 -> Zdigits2 mx + ex <= 1 -> Zdigits2 mx <= 1075 ->
  is_infinity (binary_round_aux prec64 emax64 sx mx ex lx) = false.
Proof.
  intros Hm He Hd Hd'. unfold binary_round_aux.
  pose proof (@shr_fexp_bounds mx ex lx Hm) as H1.
  destruct (shr_fexp prec64 emax64 mx ex lx) as [mrs1 e1].
  destruct H1 as (Hm1 & He1 & Hsame).
  set (m2 := round_nearest_even (shr_m mrs1) (loc_of_shr_record mrs1)).
  pose proof (round_nearest_even_bounds (shr_m mrs1) (loc_of_shr_record mrs1))
    as Hm2. fold m2 in Hm2.
  assert (Hm2' : 0 <= m2) by lia.
  pose proof (@shr_fexp_bounds m2 e1 loc_Exact Hm2') as H2.
  destruct (shr_fexp prec64 emax64 m2 e1 loc_Exact) as [mrs2 e2].
  destruct H2 as (Hm3 & He2 & _).
  destruct (shr_m mrs2) as [|p|p]; [reflexivity| |reflexivity].
  assert (Hfin : e2 <= 971); [|].
  { rewrite fexp64 in He1, He2.
    pose proof (@Zdigits2_lower mx Hm) as Hlow.
    pose proof (Zdigits2_nonneg mx) as Hnn.
    assert (Hdig : Zdigits2 m2 <= Zdigits2 mx + 1).
    { apply Zdigits2_upper; [lia|lia|].
      rewrite Z.pow_add_r, Z.pow_1_r by lia. lia. }
    lia. }
  change (emax64 - prec64) with 971.
  destruct (e2 <=? 971) eqn:E; [reflexivity|]. apply Z.leb_gt in E. lia.
Qed.

Lemma div_core_bounds (a b : Z) :
  0 < a <= b ->
  let '(q, e, _) := SFdiv_core_binary prec64 emax64 a 0 b 0 in
  0 <= q <= 2 ^ (- e) /\ -1074 <= e <= 0.
Proof.
  intros Hab. unfold SFdiv_core_binary.
  set (e := Z.min (fexp prec64 emax64 (Zdigits2 a + 0 - (Zdigits2 b + 0)))
                  (0 - 0)).
  assert (He : -1074 <= e <= 0) by (subst e; rewrite fexp64; lia).
  set (m' := match 0 - 0 - e with
             | 0 => a
             | Z.pos _ => Z.shiftl a (0 - 0 - e)
             | Z.neg _ => 0
             end).
  assert (Hm' : m' = a * 2 ^ (- e)).
  { subst m'. replace (0 - 0 - e) with (- e) by lia.
    destruct (- e) as [|p|p] eqn:E; [cbn; lia| |lia].
    now rewrite Z.shiftl_mul_pow2 by lia. }
  pose proof (Z.div_eucl_eq m' b ltac:(lia)) as Hdiv.
  pose proof (Z.mod_pos_bound m' b ltac:(lia)) as Hmod.
  unfold Z.modulo in Hmod.
  destruct (Z.div_eucl m' b) as [q r]. split; [|exact He].
  assert (Hpow : 0 < 2 ^ (- e)) by (apply Z.pow_pos_nonneg; lia).
  nia.
Qed.

(** The quotient of two integers [0 <= a <= b], [0 < b], is a float:
    the division raises nothing. *)
Lemma int_truediv_returns (a b : Z) :
  0 <= a <= b -> 0 < b ->
  exists q, int_truediv a b = Returns q /\ is_infinity q = false.
Proof.
  intros Hab Hb. unfold int_truediv.
  destruct (b =? 0) eqn:Eb; [apply Z.eqb_eq in Eb; lia|].
  destruct (a =? 0) eqn:Ea; [now eexists|].
  apply Z.eqb_neq in Ea.
  rewrite !Z.abs_eq by lia.
  pose proof (@div_core_bounds a b ltac:(lia)) as H.
  destruct (SFdiv_core_binary prec64 emax64 a 0 b 0) as [[q e] l].
  destruct H as (Hq & He).
  assert (Hfin : is_infinity
                   (binary_round_aux prec64 emax64
                      (xorb (a <? 0) (b <? 0)) q e l) = false).
  { assert (Hpow : 2 ^ (- e) < 2 ^ (1 - e)).
    { apply Z.pow_lt_mono_r; lia. }
    assert (Hd : Zdigits2 q <= 1 - e)
      by (apply Zdigits2_upper; lia).
    apply binary_round_aux_finite; lia. }
  destruct (binary_round_aux prec64 emax64 (xorb (a <? 0) (b <? 0)) q e l)
    eqn:E; try discriminate; now eexists.
Qed.

Lemma shr_1_half (r : shr_record) :
  0 <= shr_m r -> shr_m (shr_1 r) = shr_m r / 2.
Proof.
  destruct r as [m rb sb]. cbn [shr_m]. intros H. unfold shr_1.
  destruct m as [|[p|p|]|p]; cbn [shr_m]; try reflexivity; try lia.
  - rewrite Pos2Z.inj_xI.
    apply Z.div_unique with (r := 1); lia.
  - rewrite Pos2Z.inj_xO.
    apply Z.div_unique with (r := 0); lia.
Qed.

Lemma iter_shr_1_div (n : positive) (r : shr_record) :
  0 <= shr_m r -> shr_m (iter_pos shr_1 n r) = shr_m r / 2 ^ Zpos n.
Proof.
  revert r. induction n as [n IH|n IH|]; intros r H; cbn [iter_pos].
  - assert (Hp : 0 < 2 ^ Zpos n) by (apply Z.pow_pos_nonneg; lia).
    pose proof (@shr_1_bounds r H) as H1.
    pose proof (@iter_shr_1_bounds n (shr_1 r) (proj1 H1)) as H2.
    rewrite IH by lia. rewrite IH by lia. rewrite shr_1_half by lia.
    rewrite !Z.div_div by lia.
    f_equal.
    assert (E : Zpos n~1 = 1 + Zpos n + Zpos n) by lia.
    rewrite E, !Z.pow_add_r by lia. lia.
  - assert (Hp : 0 < 2 ^ Zpos n) by (apply Z.pow_pos_nonneg; lia).
    pose proof (@iter_shr_1_bounds n r H) as H1.
    rewrite IH by lia. rewrite IH by lia.
    rewrite Z.div_div by lia.
    f_equal.
    assert (E : Zpos n~0 = Zpos n + Zpos n) by lia.
    now rewrite E, Z.pow_add_r by lia.
  - now rewrite shr_1_half.
Qed.

Lemma digits2_pos_ge (p : positive) : 2 ^ (Zpos (digits2_pos p) - 1) <= Zpos p.
Proof.
  induction p as [p IH|p IH|]; cbn [digits2_pos]; [| |cbn; lia].
  - rewrite Pos2Z.inj_succ.
    replace (Z.succ (Zpos (digits2_pos p)) - 1)
      with (Z.succ (Zpos (digits2_pos p) - 1)) by lia.
    rewrite Z.pow_succ_r by lia. lia.
  - rewrite Pos2Z.inj_succ.
    replace (Z.succ (Zpos (digits2_pos p)) - 1)
      with (Z.succ (Zpos (digits2_pos p) - 1)) by lia.
    rewrite Z.pow_succ_r by lia. lia.
Qed.

Lemma Zdigits2_ge (m : Z) : 0 < m -> 2 ^ (Zdigits2 m - 1) <= m.
Proof.
  intros H. destruct m as [|p|p]; try lia. apply digits2_pos_ge.
Qed.

Lemma Zdigits2_mono_pow (m k : Z) :
  0 <= k -> 2 ^ k <= m -> k + 1 <= Zdigits2 m.
Proof.
  intros Hk H.
  assert (Hm : 0 < m) by (pose proof (Z.pow_pos_nonneg 2 k); lia).
  pose proof (@Zdigits2_lower m ltac:(lia)) as Hlow.
  destruct (Z_lt_le_dec (Zdigits2 m) (k + 1)) as [Hlt|]; [|assumption].
  assert (2 ^ Zdigits2 m <= 2 ^ k)
    by (apply Z.pow_le_mono_r; [lia|lia]).
  lia.
Qed.

(** One normalisation step keeps a value that is not below the smallest
    subnormal away from zero. *)
Lemma shr_fexp_positive (m e : Z) (l : location) :
  0 < m -> -1073 <= Zdigits2 m + e ->
  let '(mrs, e') := shr_fexp prec64 emax64 m e l in
  0 < shr_m mrs /\ -1073 <= Zdigits2 (shr_m mrs) + e'.
Proof.
  intros Hm Hd. unfold shr_fexp, shr. rewrite fexp64.
  pose proof (@Zdigits2_ge m Hm) as Hge.
  pose proof (Zdigits2_nonneg m) as Hnn.
  assert (Hd1 : 1 <= Zdigits2 m)
    by (destruct m; cbn in *; lia).
  destruct (Z.max (Zdigits2 m + e - 53) (-1074) - e) as [|n|n] eqn:En.
  - rewrite shr_record_of_loc_m. lia.
  - rewrite iter_shr_1_div; rewrite shr_record_of_loc_m; [|lia].
    assert (Hn : Zpos n <= Zdigits2 m - 1) by lia.
    assert (Hq : 2 ^ (Zdigits2 m - 1 - Zpos n) <= m / 2 ^ Zpos n).
    { apply Z.div_le_lower_bound; [apply Z.pow_pos_nonneg; lia|].
      rewrite <- Z.pow_add_r by lia.
      now replace (Zpos n + (Zdigits2 m - 1 - Zpos n))
        with (Zdigits2 m - 1) by lia. }
    assert (Hpos : 0 < 2 ^ (Zdigits2 m - 1 - Zpos n))
      by (apply Z.pow_pos_nonneg; lia).
    split; [lia|].
    pose proof (@Zdigits2_mono_pow (m / 2 ^ Zpos n)
                  (Zdigits2 m - 1 - Zpos n) ltac:(lia) Hq).
    lia.
  - rewrite shr_record_of_loc_m. lia.
Qed.

Lemma Zdigits2_le (m m' : Z) : 0 < m -> m <= m' -> Zdigits2 m <= Zdigits2 m'.
Proof.
  intros Hm Hle.
  pose proof (@Zdigits2_ge m Hm).
  pose proof (Zdigits2_nonneg m).
  assert (1 <= Zdigits2 m) by (destruct m; cbn in *; lia).
  pose proof (@Zdigits2_mono_pow m' (Zdigits2 m - 1) ltac:(lia) ltac:(lia)).
  lia.
Qed.

(** Rounding a value that is not below the smallest subnormal does not
    give zero. *)
Lemma binary_round_aux_nonzero (sx : bool) (mx ex : Z) (lx : location) :
  0 < mx -> -1073 <= Zdigits2 mx + ex ->
  float_is_zero (binary_round_aux prec64 emax64 sx mx ex lx) = false.
Proof.
  intros Hm Hd. unfold binary_round_aux.
  pose proof (@shr_fexp_positive mx ex lx Hm Hd) as H1.
  destruct (shr_fexp prec64 emax64 mx ex lx) as [mrs1 e1].
  destruct H1 as (Hm1 & Hd1).
  set (m2 := round_nearest_even (shr_m mrs1) (loc_of_shr_record mrs1)).
  pose proof (round_nearest_even_bounds (shr_m mrs1) (loc_of_shr_record mrs1))
    as Hm2. fold m2 in Hm2.
  pose proof (@Zdigits2_le (shr_m mrs1) m2 Hm1 ltac:(lia)) as Hdig.
  pose proof (@shr_fexp_positive m2 e1 loc_Exact ltac:(lia) ltac:(lia)) as H2.
  destruct (shr_fexp prec64 emax64 m2 e1 loc_Exact) as [mrs2 e2].
  destruct H2 as (Hm3 & _).
  destruct (shr_m mrs2) as [|p|p]; [lia| |reflexivity].
  now destruct (e2 <=? emax64 - prec64).
Qed.

Lemma shl_align_digits (mx : positive) (ex ex' : Z) :
  -1074 <= ex' -> -1073 <= Zpos (digits2_pos mx) + ex ->
  let '(mz, ez) := shl_align mx ex ex' in
  -1073 <= Zdigits2 (Zpos mz) + ez.
Proof.
  intros He Hd. unfold shl_align.
  destruct (ex' - ex) as [|d|d]; cbn [Zdigits2]; lia.
Qed.

(** [float(n)] of a positive integer is not zero. *)
Lemma int_to_float_nonzero (n : Z) (f : spec_float) :
  0 < n -> int_to_float n = Returns f -> float_is_zero f = false.
Proof.
  intros Hn. unfold int_to_float, binary_normalize.
  destruct n as [|p|p]; try lia. unfold binary_round.
  pose proof (@shl_align_digits p 0
                (fexp prec64 emax64 (Zpos (digits2_pos p) + 0))
                ltac:(rewrite fexp64; lia) ltac:(lia)) as H.
  destruct (shl_align p 0 _) as [mz ez].
  pose proof (@binary_round_aux_nonzero false (Zpos mz) ez loc_Exact
                ltac:(lia) H) as Hnz.
  destruct (binary_round_aux prec64 emax64 false (Zpos mz) ez loc_Exact);
    try discriminate; intros [= <-]; try reflexivity.
Qed.

(** ** Rounding to one decimal *)

Lemma div_half_even_nearest (n d : Z) :
  0 <= n -> 0 < d ->
  let t := div_half_even n d in
  2 * Z.abs (n - t * d) <= d /\
  (2 * Z.abs (n - t * d) = d -> Z.even t = true).
Proof.
  intros Hn Hd. unfold div_half_even.
  pose proof (Z.div_mod n d ltac:(lia)) as Hdiv.
  pose proof (Z.mod_pos_bound n d Hd) as Hmod.
  set (q := n / d) in *. set (r := n mod d) in *.
  destruct (2 * r ?= d) eqn:C.
  - apply Z.compare_eq in C. destruct (Z.even q) eqn:E.
    + split; [nia|]. intros _. exact E.
    + split; [nia|]. intros _.
      rewrite Z.even_add, E. reflexivity.
  - rewrite Z.compare_lt_iff in C. split; [nia|]. intros H. nia.
  - rewrite Z.compare_gt_iff in C. split; [nia|]. intros H. nia.
Qed.

(** The tenths [format_1f] prints are the nearest ones to the value of
    the float, the even one on a tie. *)
Lemma tenths_nearest (m : positive) (e : Z) :
  let t := tenths m e in
  match e with
  | Zneg p =>
      2 * Z.abs (Zpos m * 10 - t * 2 ^ Zpos p) <= 2 ^ Zpos p /\
      (2 * Z.abs (Zpos m * 10 - t * 2 ^ Zpos p) = 2 ^ Zpos p ->
       Z.even t = true)
  | _ => t = Zpos m * 10 * 2 ^ e
  end.
Proof.
  cbn zeta. unfold tenths. destruct e as [|p|p]; try reflexivity.
  apply div_half_even_nearest; [lia|]. apply Z.pow_pos_nonneg; lia.
Qed.

(** ** Exceptions of the dashboard arithmetic *)

Lemma dict_getitem_error (d : pydict) (k : string) (e : exn) :
  dict_getitem d k = Raises e -> exn_cls e = KeyError.
Proof.
  unfold dict_getitem. destruct (dict_lookup k d); [discriminate|].
  now intros [= <-].
Qed.

Lemma int_to_float_error (z : Z) (e : exn) :
  int_to_float z = Raises e -> exn_cls e = OverflowError.
Proof.
  unfold int_to_float.
  destruct (binary_normalize prec64 emax64 z 0 false); try discriminate.
  now intros [= <-].
Qed.

Lemma number_to_float_error (n : number) (e : exn) :
  number_to_float n = Raises e -> exn_cls e = OverflowError.
Proof.
  destruct n; cbn; [apply int_to_float_error | discriminate].
Qed.

Lemma int_truediv_error (a b : Z) (e : exn) :
  b <> 0 -> int_truediv a b = Raises e -> exn_cls e = OverflowError.
Proof.
  intros Hb. unfold int_truediv.
  destruct (b =? 0) eqn:Eb; [apply Z.eqb_eq in Eb; contradiction|].
  destruct (a =? 0); [discriminate|].
  destruct (SFdiv_core_binary prec64 emax64 (Z.abs a) 0 (Z.abs b) 0)
    as [[mz ez] lz].
  destruct (binary_round_aux prec64 emax64 _ mz ez lz); try discriminate.
  now intros [= <-].
Qed.

Lemma py_add_error (a b : pyval) (e : exn) :
  py_add a b = Raises e -> exn_cls e <> ZeroDivisionError.
Proof.
  unfold py_add.
  destruct (as_number a) as [[x|fx]|] eqn:Ea;
    destruct (as_number b) as [[y|fy]|] eqn:Eb; cbn [rbind number_to_float];
    try discriminate.
  - destruct (int_to_float x) eqn:E; cbn [rbind]; [discriminate|].
    intros [= <-]. apply int_to_float_error in E. congruence.
  - destruct a; try discriminate; destruct b; try discriminate;
      intros [= <-]; discriminate.
  - destruct (int_to_float y) eqn:E; cbn [rbind]; [discriminate|].
    intros [= <-]. apply int_to_float_error in E. congruence.
  - destruct a; try discriminate; destruct b; try discriminate;
      intros [= <-]; discriminate.
  - destruct a; try discriminate; destruct b; try discriminate;
      intros [= <-]; discriminate.
  - destruct a; try discriminate; destruct b; try discriminate;
      intros [= <-]; discriminate.
  - destruct a; try discriminate; destruct b; try discriminate;
      intros [= <-]; discriminate.
Qed.

Lemma sum_confidence_error (cs : list chat) (acc : pyval) (e : exn) :
  sum_confidence acc cs = Raises e -> exn_cls e <> ZeroDivisionError.
Proof.
  revert acc. induction cs as [|c cs IH]; intros acc; cbn [sum_confidence].
  - discriminate.
  - destruct (dict_getitem (response c) "confidence") as [x|e0] eqn:E1;
      cbn [rbind].
    + destruct (py_add acc x) as [acc'|e1] eqn:E2; cbn [rbind].
      * apply IH.
      * intros [= <-]. now apply py_add_error in E2.
    + intros [= <-]. apply dict_getitem_error in E1. congruence.
Qed.

(** Dividing by a positive count never raises [ZeroDivisionError]. *)
Lemma py_truediv_error (a : pyval) (n : Z) (e : exn) :
  0 < n ->
  py_truediv a (PyInt n) = Raises e -> exn_cls e <> ZeroDivisionError.
Proof.
  intros Hn. unfold py_truediv. cbn [as_number].
  destruct (as_number a) as [[x|fx]|].
  - destruct (int_truediv x n) eqn:E; cbn [rbind]; [discriminate|].
    intros [= <-]. apply int_truediv_error in E; [congruence|lia].
  - cbn [rbind number_to_float].
    destruct (int_to_float n) as [fy|e0] eqn:E; cbn [rbind].
    + rewrite (int_to_float_nonzero Hn E). discriminate.
    + intros [= <-]. apply int_to_float_error in E. congruence.
  - intros [= <-]. discriminate.
Qed.

Lemma py_format_1f_error (v : pyval) (e : exn) :
  py_format_1f v = Raises e -> exn_cls e <> ZeroDivisionError.
Proof.
  unfold py_format_1f. destruct (as_number v) as [n|].
  - destruct (number_to_float n) eqn:E; cbn [rbind]; [discriminate|].
    intros [= <-]. apply number_to_float_error in E. congruence.
  - destruct v; intros [= <-]; discriminate.
Qed.

Lemma count_recommendation_error (lit : string) (cs : list chat)
    (acc : Z) (e : exn) :
  count_recommendation lit acc cs = Raises e -> exn_cls e = KeyError.
Proof.
  revert acc. induction cs as [|c cs IH]; intros acc;
    cbn [count_recommendation]; [discriminate|].
  destruct (dict_getitem (response c) "recommendation") as [x|e0] eqn:E1;
    cbn [rbind]; [apply IH|].
  intros [= <-]. now apply dict_getitem_error in E1.
Qed.

Lemma avg_confidence_error (cs : list chat) (e : exn) :
  cs <> [] ->
  avg_confidence cs = Raises e -> exn_cls e <> ZeroDivisionError.
Proof.
  intros Hcs. unfold avg_confidence.
  destruct (sum_confidence (PyInt 0) cs) as [total|e0] eqn:E; cbn [rbind].
  - apply py_truediv_error. destruct cs; [contradiction|]. cbn. lia.
  - intros [= <-]. now apply sum_confidence_error in E.
Qed.

Lemma not_zero_division {A} (e : exn) :
  exn_cls e <> ZeroDivisionError -> is_zero_division (@Raise A e) = false.
Proof. destruct e as [[] msg]; cbn; congruence. Qed.

(** ** The success rate *)

Lemma is_successful_field (c : chat) :
  is_successful c = truthy_field "success" (response c).
Proof. unfold is_successful. apply success_get_none. Qed.

Lemma successful_queries_filter (h : list chat) :
  successful_queries h =
  filter (fun c => truthy_field "success" (response c)) h.
Proof.
  unfold successful_queries. apply filter_ext. intros c.
  apply is_successful_field.
Qed.

Lemma success_rate_returns (h : list chat) :
  h <> [] ->
  exists q hundred,
    int_truediv (Z.of_nat (List.length (successful_queries h)))
                (Z.of_nat (List.length h)) = Returns q /\
    int_to_float 100 = Returns hundred /\
    success_rate h = Returns (PyFloat (float_mul q hundred)).
Proof.
  intros Hh. unfold success_rate.
  destruct h as [|c0 h0]; [contradiction|]. cbn [non_empty].
  set (h := c0 :: h0).
  assert (Hlen : (List.length (successful_queries h) <= List.length h)%nat)
    by apply filter_length_le.
  destruct (@int_truediv_returns
              (Z.of_nat (List.length (successful_queries h)))
              (Z.of_nat (List.length h)) ltac:(lia) ltac:(cbn; lia))
    as (q & Hq & _).
  exists q. eexists. split; [exact Hq|]. split; [reflexivity|].
  unfold py_truediv, py_len, int_of_nat. cbn [as_number]. rewrite Hq.
  reflexivity.
Qed.

(** The first row of the dashboard on a history with a record. *)
Lemma analysis_dashboard_run (w : world) :
  chat_history (session w) <> [] ->
  let h := chat_history (session w) in
  let successful := successful_queries h in
  exists q hundred,
    int_truediv (Z.of_nat (List.length successful))
                (Z.of_nat (List.length h)) = Returns q /\
    int_to_float 100 = Returns hundred /\
    analysis_dashboard w =
      let '(r, w', ws) :=
        when (non_empty successful)
          (recommendation_distribution successful) w in
      (r, w',
       Markdown [Lit "### 📈 Analysis Dashboard"] ::
       Column 1 [Metric "Total Queries"
                   [Val (PyInt (Z.of_nat (List.length h)))]] ::
       Column 2 [Metric "Successful"
                   [Val (PyInt (Z.of_nat (List.length successful)))]] ::
       Column 3 [Metric "Success Rate"
                   [Lit (format_1f (float_mul q hundred) ++ "%")]] ::
       ws).
Proof.
  intros Hh. cbn zeta.
  destruct (success_rate_returns Hh) as (q & hundred & Hq & Hhundred & Hrate).
  exists q, hundred. split; [exact Hq|]. split; [exact Hhundred|].
  unfold analysis_dashboard. rewrite bind_emit, bind_get_session.
  destruct (chat_history (session w)) as [|c0 h0] eqn:E; [contradiction|].
  cbn [non_empty]. unfold bind at 1, within at 1.
  cbn [st_metric py_len int_of_nat emit].
  unfold bind at 1, within at 1. cbn [st_metric py_len int_of_nat emit].
  unfold bind at 1, within at 1. rewrite Hrate.
  cbn [bind lift py_format_1f as_number number_to_float rbind emit].
  unfold bind, lift, emit. cbn [py_format_1f as_number number_to_float rbind].
  destruct (when _ _ w) as [[r w'] ws]. reflexivity.
Qed.

(** C2, as amended: on a history with at least one record the dashboard
    shows the metric "Success Rate", and its value is the text of
    [successes / total * 100] in Python's float arithmetic, printed with
    one decimal and followed by a percent sign, where [successes] counts
    the records whose response has a truthy [success] field; the digits
    printed are the tenths nearest to the float (the even ones on a
    tie).  On the empty history the guarded expression of line 315
    evaluates to the integer [0], but the dashboard shows the "no
    analysis data" message and no metric. *)
Theorem success_rate_metric (w : world) :
  let h := chat_history (session w) in
  let successes :=
    Z.of_nat (List.length
                (filter (fun c => truthy_field "success" (response c)) h)) in
  let total := Z.of_nat (List.length h) in
  match h with
  | [] =>
      success_rate h = Returns (PyInt 0) /\
      analysis_dashboard w =
        (Ok tt, w,
         [Markdown [Lit "### 📈 Analysis Dashboard"];
          Info [Lit "📊 No analysis data yet. Start by asking some trading questions!"]])
  | _ :: _ =>
      exists q hundred r rest,
        int_truediv successes total = Returns q /\
        int_to_float 100 = Returns hundred /\
        success_rate h = Returns (PyFloat (float_mul q hundred)) /\
        analysis_dashboard w =
          (r, w,
           Markdown [Lit "### 📈 Analysis Dashboard"] ::
           Column 1 [Metric "Total Queries" [Val (PyInt total)]] ::
           Column 2 [Metric "Successful" [Val (PyInt successes)]] ::
           Column 3 [Metric "Success Rate"
                       [Lit (format_1f (float_mul q hundred) ++ "%")]] ::
           rest)
  end /\
  (forall s m e,
      format_1f (S754_finite s m e) =
      sign_text s ++ decimal (tenths m e / 10) ++ "." ++
      decimal (tenths m e mod 10)) /\
  (forall m e,
      match e with
      | Zneg p =>
          2 * Z.abs (Zpos m * 10 - tenths m e * 2 ^ Zpos p) <= 2 ^ Zpos p /\
          (2 * Z.abs (Zpos m * 10 - tenths m e * 2 ^ Zpos p) = 2 ^ Zpos p ->
           Z.even (tenths m e) = true)
      | _ => tenths m e = Zpos m * 10 * 2 ^ e
      end).
Proof.
  cbn zeta. split; [|split; [reflexivity | exact tenths_nearest]].
  destruct (chat_history (session w)) as [|c0 h0] eqn:Hh.
  - split; [reflexivity|].
    unfold analysis_dashboard. rewrite bind_emit, bind_get_session, Hh.
    reflexivity.
  - assert (Hne : chat_history (session w) <> []) by (rewrite Hh; discriminate).
    destruct (analysis_dashboard_run w Hne) as (q & hundred & Hq & H100 & Hrun).
    destruct (success_rate_returns Hne) as (q' & hundred' & Hq' & H100' & Hrate).
    rewrite Hq in Hq'. injection Hq' as <-.
    rewrite H100 in H100'. injection H100' as <-.
    rewrite Hh in *. rewrite successful_queries_filter in *.
    match type of Hrun with
    | context [when ?b ?m w] =>
        assert (Hd : display_only (when b m)) by display;
        destruct (Hd w) as (r & rest & Hrest & _); rewrite Hrest in Hrun
    end.
    exists q, hundred, r, rest. auto.
Qed.

(** The claim of C2 about the empty history does not hold of the page:
    a session without records gets a dashboard without any metric, so
    no "Success Rate" of [0] is shown. *)
Lemma empty_history_shows_no_success_rate :
  chat_history (session (new_world [])) = [] /\
  ~ (exists value,
        In ("Success Rate", value)
           (page_metrics (snd (analysis_dashboard (new_world []))))).
Proof.
  split; [reflexivity|]. cbn. intros (value & []).
Qed.

(** ** The average confidence *)

Lemma recommendation_distribution_run (cs : list chat) (w : world) :
  cs <> [] ->
  is_zero_division (fst (fst (recommendation_distribution cs w))) = false /\
  (forall value,
      In ("Average Confidence", value)
         (page_metrics (snd (recommendation_distribution cs w))) ->
      exists avg shown,
        avg_confidence cs = Returns avg /\
        py_format_1f avg = Returns shown /\
        value = [Lit (shown ++ "%")]) /\
  (fst (fst (recommendation_distribution cs w)) = Ok tt ->
   In "Average Confidence"
      (metric_labels (snd (recommendation_distribution cs w)))).
Proof.
  intros Hcs. unfold recommendation_distribution.
  rewrite bind_emit. unfold bind, lift.
  destruct (count_recommendation "BUY" 0 cs) as [b|e] eqn:Eb.
  2:{ apply count_recommendation_error in Eb. cbn [fst snd].
      split; [apply (@not_zero_division unit); congruence|]. cbn.
      split; [intros value [] | discriminate]. }
  destruct (count_recommendation "SELL" 0 cs) as [s|e] eqn:Es.
  2:{ apply count_recommendation_error in Es. cbn [fst snd].
      split; [apply (@not_zero_division unit); congruence|]. cbn.
      split; [intros value [] | discriminate]. }
  destruct (count_recommendation "HOLD" 0 cs) as [o|e] eqn:Eo.
  2:{ apply count_recommendation_error in Eo. cbn [fst snd].
      split; [apply (@not_zero_division unit); congruence|]. cbn.
      split; [intros value [] | discriminate]. }
  cbn [within st_metric emit app].
  destruct (avg_confidence cs) as [avg|e] eqn:Ea.
  2:{ apply avg_confidence_error in Ea; [|assumption]. cbn [fst snd].
      split; [now apply (@not_zero_division unit)|]. cbn.
      split; [|discriminate].
      intros value [H|[H|[H|[]]]]; discriminate. }
  destruct (py_format_1f avg) as [shown|e] eqn:Ef.
  2:{ apply py_format_1f_error in Ef. cbn [fst snd].
      split; [now apply (@not_zero_division unit)|]. cbn.
      split; [|discriminate].
      intros value [H|[H|[H|[]]]]; discriminate. }
  cbn. split; [reflexivity|]. split.
  - intros value [H|[H|[H|[H|[]]]]]; try discriminate.
    injection H as <-. now exists avg, shown.
  - intros _. auto.
Qed.

(** C10: the "Average Confidence" metric is computed from the records
    with a truthy [success] field only, and only when there is one: the
    dashboard never ends by a [ZeroDivisionError]; a history without a
    successful record gets no "Average Confidence" metric; and when the
    metric is shown, its value is the sum of the confidences of the
    successful records divided by their number, a number that is not
    zero, printed with one decimal. *)
Theorem average_confidence_guarded (w : world) :
  let h := chat_history (session w) in
  let successful :=
    filter (fun c => truthy_field "success" (response c)) h in
  let r := fst (fst (analysis_dashboard w)) in
  let ws := snd (analysis_dashboard w) in
  is_zero_division r = false /\
  (successful = [] -> ~ In "Average Confidence" (metric_labels ws)) /\
  (forall value,
      In ("Average Confidence", value) (page_metrics ws) ->
      successful <> [] /\
      exists avg shown,
        avg_confidence successful = Returns avg /\
        py_format_1f avg = Returns shown /\
        value = [Lit (shown ++ "%")]) /\
  (r = Ok tt -> successful <> [] ->
   In "Average Confidence" (metric_labels ws)).
Proof.
  cbn zeta. rewrite <- successful_queries_filter.
  destruct (chat_history (session w)) as [|c0 h0] eqn:Hh.
  - unfold analysis_dashboard. rewrite bind_emit, bind_get_session, Hh.
    cbn. split; [reflexivity|]. split; [intros _ []|].
    split; [intros value []|]. intros _ H. now contradiction H.
  - assert (Hne : chat_history (session w) <> []) by (rewrite Hh; discriminate).
    destruct (analysis_dashboard_run w Hne) as (q & hundred & _ & _ & Hrun).
    rewrite Hh in Hrun. rewrite Hrun. clear Hrun.
    set (successful := successful_queries (c0 :: h0)).
    destruct successful as [|s0 ss] eqn:Es; cbn [non_empty when].
    + cbn. split; [reflexivity|].
      split; [intros _ [H|[H|[H|[]]]]; discriminate|].
      split; [intros value [H|[H|[H|[]]]]; discriminate|].
      intros _ H. now contradiction H.
    + assert (Hcs : s0 :: ss <> []) by discriminate.
      destruct (recommendation_distribution_run w Hcs) as (Hz & Hval & Hok).
      destruct (recommendation_distribution (s0 :: ss) w) as [[r w'] ws].
      cbn [fst snd] in *. split; [exact Hz|].
      split; [intros H; discriminate|]. split.
      * intros value Hin. split; [discriminate|]. apply Hval.
        cbn in Hin. destruct Hin as [H|[H|[H|H]]]; try discriminate.
        exact H.
      * intros Hr _. specialize (Hok Hr).
        unfold metric_labels, page_metrics in *. cbn.
        right; right; right. exact Hok.
Qed.

(* ================================================================= *)
(** * The JSON export *)

(** Induction on values, with the hypothesis for every element of a
    list and every value of a dictionary. *)
Lemma pyval_induction (P : pyval -> Prop) :
  P PyNone ->
  (forall b, P (PyBool b)) ->
  (forall z, P (PyInt z)) ->
  (forall f, P (PyFloat f)) ->
  (forall s, P (PyStr s)) ->
  (forall l, Forall P l -> P (PyList l)) ->
  (forall d, Forall (fun kv => P (snd kv)) d -> P (PyDict d)) ->
  forall v, P v.
Proof.
  intros Hnone Hbool Hint Hfloat Hstr Hlist Hdict.
  fix IH 1. intros [| b | z | f | s | l | d].
  - exact Hnone.
  - apply Hbool.
  - apply Hint.
  - apply Hfloat.
  - apply Hstr.
  - apply Hlist. induction l as [|x l IHl]; constructor.
    + apply IH.
    + exact IHl.
  - apply Hdict. induction d as [|[k x] d IHd]; constructor.
    + apply IH.
    + exact IHd.
Qed.

Lemma dumps_items_cons (dump : pyval -> list token) (x : pyval)
    (l : list pyval) :
  dumps_items dump (x :: l) =
  (dump x ++ match l with
             | [] => [TRBracket]
             | _ => TComma :: dumps_items dump l
             end)%list.
Proof. reflexivity. Qed.

Lemma dumps_members_cons (dump : pyval -> list token) (k : string)
    (x : pyval) (d : list (string * pyval)) :
  dumps_members dump ((k, x) :: d) =
  (TString k :: TColon :: dump x ++
   match d with
   | [] => [TRBrace]
   | _ => TComma :: dumps_members dump d
   end)%list.
Proof. reflexivity. Qed.

Lemma json_encode_starts (v : pyval) : starts_value (json_encode v).
Proof. destruct v as [| [] | | | | |]; exact I. Qed.

Lemma json_encode_length (v : pyval) : (1 <= List.length (json_encode v))%nat.
Proof. destruct v as [| [] | | | | |]; cbn; lia. Qed.

Lemma parse_elements_S (fuel : nat) (ts : list token) (acc : list pyval) :
  parse_elements (S fuel) ts acc =
  match parse_value fuel ts with
  | Some (v, TComma :: r) => parse_elements fuel r (acc ++ [v])
  | Some (v, TRBracket :: r) => Some (PyList (acc ++ [v]), r)
  | _ => None
  end.
Proof. reflexivity. Qed.

Lemma parse_members_S (fuel : nat) (k : string) (r : list token)
    (acc : pydict) :
  parse_members (S fuel) (TString k :: TColon :: r) acc =
  match parse_value fuel r with
  | Some (v, TComma :: r') => parse_members fuel r' (dict_set acc k v)
  | Some (v, TRBrace :: r') => Some (PyDict (dict_set acc k v), r')
  | _ => None
  end.
Proof. reflexivity. Qed.

Lemma parse_value_array (fuel : nat) (ts : list token) :
  starts_value ts ->
  parse_value (S fuel) (TLBracket :: ts) = parse_elements fuel ts [].
Proof. destruct ts as [|[] ts]; cbn; intros H; try contradiction; reflexivity. Qed.

Lemma parse_value_object (fuel : nat) (k : string) (ts : list token) :
  parse_value (S fuel) (TLBrace :: TString k :: ts) =
  parse_members fuel (TString k :: ts) [].
Proof. reflexivity. Qed.

Lemma starts_value_app (ts rest : list token) :
  starts_value ts -> starts_value (ts ++ rest).
Proof. destruct ts as [|[] ts]; cbn; intros H; (contradiction || exact H). Qed.

Lemma parse_elements_dumps (l : list pyval) :
  l <> [] ->
  Forall reads_back l ->
  forall fuel acc rest,
    (List.length (dumps_items json_encode l) <= fuel)%nat ->
    parse_elements fuel (dumps_items json_encode l ++ rest) acc =
    Some (PyList (acc ++ l), rest).
Proof.
  intros Hl HF. induction HF as [|x l Hx HF IH]; [contradiction|].
  intros fuel acc rest Hfuel. rewrite dumps_items_cons in *.
  rewrite length_app in Hfuel. pose proof (json_encode_length x) as Hlen.
  destruct fuel as [|fuel]; [lia|]. rewrite parse_elements_S.
  rewrite <- app_assoc.
  destruct l as [|y l'].
  - cbn [app] in *. rewrite Hx by (cbn in Hfuel; lia). reflexivity.
  - cbn [app List.length] in *. rewrite Hx by lia.
    rewrite IH by (discriminate || lia).
    now rewrite <- app_assoc.
Qed.

Lemma parse_members_dumps (d : list (string * pyval)) :
  d <> [] ->
  Forall (fun kv => reads_back (snd kv)) d ->
  forall fuel acc rest,
    (List.length (dumps_members json_encode d) <= fuel)%nat ->
    parse_members fuel (dumps_members json_encode d ++ rest) acc =
    Some (PyDict (fold_left (fun a kv => dict_set a (fst kv) (snd kv)) d acc),
          rest).
Proof.
  intros Hd HF. induction HF as [|[k x] d Hx HF IH]; [contradiction|].
  intros fuel acc rest Hfuel. rewrite dumps_members_cons in *.
  cbn [List.length app] in Hfuel. rewrite length_app in Hfuel.
  pose proof (json_encode_length x) as Hlen.
  destruct fuel as [|fuel]; [lia|].
  cbn [app]. rewrite parse_members_S. rewrite <- app_assoc.
  cbn [snd] in Hx.
  destruct d as [|[k' y] d'].
  - cbn [app] in *. rewrite Hx by (cbn in Hfuel; lia). reflexivity.
  - cbn [app List.length] in *. rewrite Hx by lia.
    rewrite IH by (discriminate || lia). reflexivity.
Qed.

(** ** Dictionaries with distinct keys *)

Lemma dict_set_fresh (d : pydict) (k : string) (v : pyval) :
  dict_lookup k d = None -> dict_set d k v = (d ++ [(k, v)])%list.
Proof.
  induction d as [|[k' v'] d IH]; cbn; [reflexivity|].
  destruct (k =? k')%string; [discriminate|].
  intros H. now rewrite IH.
Qed.

Lemma dict_lookup_app (d d' : pydict) (k : string) :
  dict_lookup k (d ++ d')%list =
  match dict_lookup k d with
  | Some v => Some v
  | None => dict_lookup k d'
  end.
Proof.
  induction d as [|[k' v'] d IH]; cbn; [reflexivity|].
  now destruct (k =? k')%string.
Qed.

Lemma dict_lookup_in (d : pydict) (k : string) (v : pyval) :
  In (k, v) d -> dict_lookup k d <> None.
Proof.
  induction d as [|[k' v'] d IH]; cbn; [contradiction|].
  intros [[= -> ->]|H].
  - now rewrite String.eqb_refl.
  - destruct (k =? k')%string; [discriminate | auto].
Qed.

Lemma fold_dict_set_distinct (d acc : pydict) :
  distinct_keys d = true ->
  (forall k v, In (k, v) d -> dict_lookup k acc = None) ->
  fold_left (fun a kv => dict_set a (fst kv) (snd kv)) d acc =
  (acc ++ d)%list.
Proof.
  revert acc. induction d as [|[k v] d IH]; intros acc Hd Hacc;
    cbn [fold_left fst snd].
  - now rewrite app_nil_r.
  - cbn [distinct_keys] in Hd.
    destruct (dict_lookup k d) eqn:Hk; [discriminate|].
    rewrite dict_set_fresh by (apply (Hacc k v); now left).
    rewrite IH; [now rewrite <- app_assoc | assumption |].
    intros k' v' Hin. rewrite dict_lookup_app.
    rewrite (Hacc k' v') by (now right). cbn.
    destruct (k' =? k)%string eqn:E; [|reflexivity].
    apply String.eqb_eq in E. subst k'.
    apply dict_lookup_in in Hin. contradiction.
Qed.

(** ** Round trip *)

Lemma well_formed_reads_back (v : pyval) :
  well_formed v = true -> reads_back v.
Proof.
  induction v as [| b | z | f | s | l IH | d IH] using pyval_induction;
    intros Hwf fuel rest Hfuel;
    try (destruct fuel as [|fuel]; [cbn in Hfuel; lia | reflexivity]).
  - destruct b; (destruct fuel as [|fuel]; [cbn in Hfuel; lia | reflexivity]).
  - cbn [json_encode List.length app] in *.
    destruct fuel as [|fuel]; [lia|].
    destruct l as [|x l]; [reflexivity|].
    rewrite parse_value_array.
    + rewrite parse_elements_dumps; [reflexivity | discriminate | | lia].
      cbn [well_formed] in Hwf. rewrite forallb_forall in Hwf.
      rewrite Forall_forall in *. intros y Hy. apply IH; auto.
    + rewrite dumps_items_cons, <- app_assoc.
      apply starts_value_app, json_encode_starts.
  - cbn [json_encode List.length app] in *.
    destruct fuel as [|fuel]; [lia|].
    cbn [well_formed] in Hwf. apply andb_prop in Hwf.
    destruct Hwf as [Hkeys Hvals].
    destruct d as [|[k x] d]; [reflexivity|].
    assert (E : (dumps_members json_encode ((k, x) :: d) ++ rest)%list =
                TString k :: List.tl
                  (dumps_members json_encode ((k, x) :: d) ++ rest)%list)
      by reflexivity.
    rewrite E, parse_value_object, <- E.
    rewrite parse_members_dumps; [ | discriminate | | lia].
    + rewrite fold_dict_set_distinct; [reflexivity | assumption | reflexivity].
    + rewrite forallb_forall in Hvals. rewrite Forall_forall in *.
      intros kv Hkv. apply IH; auto.
Qed.

Lemma json_loads_encode (v : pyval) :
  well_formed v = true -> json_loads (json_encode v) = Some v.
Proof.
  intros Hwf. unfold json_loads.
  pose proof (@well_formed_reads_back v Hwf (S (List.length (json_encode v))) [])
    as H.
  rewrite app_nil_r in H. rewrite H by lia. reflexivity.
Qed.

Lemma json_dumps_printable (v : pyval) :
  printable v = true -> json_dumps v = Returns (json_encode v).
Proof. intros H. unfold json_dumps. now rewrite H. Qed.

Lemma exportable_fields (c : chat) :
  exportable c = true ->
  valid_datetime (timestamp c) = true /\
  well_formed (PyDict (response c)) = true /\
  printable (PyDict (response c)) = true.
Proof.
  unfold exportable. intros H.
  apply andb_prop in H. destruct H as (H & _).
  apply andb_prop in H. destruct H as (H & Hp).
  apply andb_prop in H. now destruct H as (Ht & Hw).
Qed.

Lemma export_entries_well_formed (h : list chat) :
  forallb exportable h = true ->
  well_formed (PyList (map export_entry h)) = true.
Proof.
  intros HF. cbn [well_formed]. rewrite forallb_forall. intros v Hv.
  apply in_map_iff in Hv. destruct Hv as (c & <- & Hc).
  rewrite forallb_forall in HF.
  destruct (@exportable_fields c (HF c Hc)) as (_ & Hw & _).
  unfold export_entry. cbn [well_formed] in *. cbn. now rewrite Hw.
Qed.

Lemma export_entries_printable (h : list chat) :
  forallb exportable h = true ->
  printable (PyList (map export_entry h)) = true.
Proof.
  intros HF. cbn [printable]. rewrite forallb_forall. intros v Hv.
  apply in_map_iff in Hv. destruct Hv as (c & <- & Hc).
  rewrite forallb_forall in HF.
  destruct (@exportable_fields c (HF c Hc)) as (_ & _ & Hp).
  unfold export_entry. cbn [printable forallb snd] in *. now rewrite Hp.
Qed.

(** The export button, once the loop over the records has ended
    normally and [json.dumps] has returned, draws the download button
    that holds the document. *)
Lemma history_tab_export (inp : inputs) (w : world) (ws : list widget)
    (doc : list token) :
  chat_history (session w) <> [] ->
  st_button inp BtnExport = true ->
  history_json (chat_history (session w)) = Returns doc ->
  history_tab inp w = (Ok tt, w, ws) ->
  exists before,
    ws = (before ++
          [DownloadButton "Download JSON" doc
             ("trading_history_" ++ strftime_compact (in_now inp) ++ ".json")
             "application/json"])%list.
Proof.
  intros Hh Hexport Hdoc. unfold history_tab.
  rewrite bind_emit, bind_get_session.
  destruct (chat_history (session w)) as [|c0 h0]; [contradiction|].
  cbn [non_empty]. rewrite Hexport. cbn [when]. unfold bind.
  destruct (for_each _ _ w) as [[[[]|e|] w1] ws1]; try discriminate.
  rewrite Hdoc. cbn [lift emit]. intros [= _ <-].
  eexists (_ :: ws1). reflexivity.
Qed.

(** ** The text of a timestamp *)

Lemma append_assoc (a b c : string) : (a ++ b) ++ c = a ++ (b ++ c).
Proof. induction a as [|x a IH]; cbn; [reflexivity|]. now rewrite IH. Qed.

Lemma append_nil_r (a : string) : a ++ "" = a.
Proof. induction a as [|x a IH]; cbn; [reflexivity|]. now rewrite IH. Qed.

Lemma units_cases (z : Z) :
  let r := z mod 10 in
  r = 0 \/ r = 1 \/ r = 2 \/ r = 3 \/ r = 4 \/
  r = 5 \/ r = 6 \/ r = 7 \/ r = 8 \/ r = 9.
Proof. cbn zeta. pose proof (Z.mod_pos_bound z 10 ltac:(lia)). lia. Qed.

Lemma of_lu_little_digits (width : nat) (z : Z) :
  0 <= z < 10 ^ Z.of_nat width ->
  DecimalPos.Unsigned.of_lu (little_digits width z) = Z.to_N z.
Proof.
  revert z. induction width as [|k IH]; intros z Hz.
  - cbn in *. assert (z = 0) by lia. now subst.
  - cbn [little_digits].
    rewrite Nat2Z.inj_succ, Z.pow_succ_r in Hz by lia.
    assert (Hq : 0 <= z / 10 < 10 ^ Z.of_nat k).
    { split; [apply Z.div_pos; lia|].
      apply Z.div_lt_upper_bound; lia. }
    specialize (IH _ Hq).
    pose proof (Z.div_mod z 10 ltac:(lia)) as Hdm.
    assert (E : Z.to_N z = (Z.to_N (z mod 10) + 10 * Z.to_N (z / 10))%N).
    { pose proof (Z.mod_pos_bound z 10 ltac:(lia)). lia. }
    rewrite E. pose proof (units_cases z) as H; cbn zeta in H;
      repeat destruct H as [H|H];
      rewrite H; cbn [cons_digit DecimalPos.Unsigned.of_lu]; rewrite IH;
      reflexivity.
Qed.

Lemma nb_digits_little_digits (width : nat) (z : Z) :
  Decimal.nb_digits (little_digits width z) = width.
Proof.
  revert z. induction width as [|k IH]; intros z; [reflexivity|].
  cbn [little_digits].
  pose proof (units_cases z) as H; cbn zeta in H;
    repeat destruct H as [H|H];
    rewrite H; cbn [cons_digit Decimal.nb_digits]; now rewrite IH.
Qed.

Lemma string_of_revapp (width : nat) (z : Z) (acc : Decimal.uint) :
  NilEmpty.string_of_uint (Decimal.revapp (little_digits width z) acc) =
  fixed_width width z ++ NilEmpty.string_of_uint acc.
Proof.
  revert z acc. induction width as [|k IH]; intros z acc; [reflexivity|].
  cbn [little_digits fixed_width]. unfold digit.
  pose proof (units_cases z) as H; cbn zeta in H;
    repeat destruct H as [H|H];
    rewrite H; cbn [cons_digit Decimal.revapp]; rewrite IH;
    rewrite append_assoc; f_equal; reflexivity.
Qed.

Lemma length_string_of_uint (d : Decimal.uint) :
  String.length (NilEmpty.string_of_uint d) = Decimal.nb_digits d.
Proof. induction d; cbn; congruence. Qed.

Lemma string_of_iter_D0 (n : nat) (d : Decimal.uint) :
  NilEmpty.string_of_uint (Nat.iter n Decimal.D0 d) =
  zeros n ++ NilEmpty.string_of_uint d.
Proof.
  induction n as [|n IH]; [reflexivity|].
  change (Nat.iter (S n) Decimal.D0 d)
    with (Decimal.D0 (Nat.iter n Decimal.D0 d)).
  cbn [NilEmpty.string_of_uint zeros]. now rewrite IH.
Qed.

Lemma string_of_unorm (d : Decimal.uint) :
  NilZero.string_of_uint (Decimal.unorm d) =
  NilEmpty.string_of_uint (Decimal.unorm d).
Proof. unfold Decimal.unorm. now destruct (Decimal.nzhead d). Qed.

(** Zero padding to a width that the number fits writes exactly that
    many digits. *)
Lemma zpad_fixed_width (width : nat) (z : Z) :
  (0 < width)%nat -> 0 <= z < 10 ^ Z.of_nat width ->
  zpad width z = fixed_width width z.
Proof.
  intros Hw Hz. unfold zpad, decimal.
  set (d := Decimal.rev (little_digits width z)).
  assert (Hd : N.of_uint d = Z.to_N z).
  { subst d. unfold N.of_uint. rewrite DecimalPos.Unsigned.of_lu_rev.
    now apply of_lu_little_digits. }
  assert (Hn : Decimal.nb_digits d = width).
  { subst d. rewrite DecimalFacts.nb_digits_rev.
    apply nb_digits_little_digits. }
  assert (Hnil : d <> Decimal.Nil).
  { intros E. rewrite E in Hn. cbn in Hn. lia. }
  rewrite <- Hd, DecimalN.Unsigned.to_of, string_of_unorm,
    length_string_of_uint.
  rewrite <- Hn at 1.
  rewrite <- string_of_iter_D0, DecimalFacts.iter_D0_unorm by exact Hnil.
  subst d. unfold Decimal.rev. rewrite string_of_revapp. cbn.
  now rewrite append_nil_r.
Qed.

(** [isoformat] writes the ISO 8601 text of a [datetime]. *)
Lemma isoformat_iso8601 (t : datetime) :
  valid_datetime t = true -> isoformat t = iso8601_extended t.
Proof.
  unfold valid_datetime. intros H.
  repeat (apply andb_prop in H; destruct H as [H ?]).
  repeat match goal with
         | H : (_ <=? _) = true |- _ => apply Z.leb_le in H
         end.
  unfold isoformat, iso8601_extended, strftime_HMS.
  rewrite !zpad_fixed_width by (cbn; lia).
  rewrite !append_assoc. reflexivity.
Qed.



(* ================================================================= *)
(** * The properties on the sample session *)



Lemma recommendation_color_mapping_witness :
  truthy_field "success" Sample.advice = true /\
  dict_lookup "recommendation" Sample.advice = Some (PyStr "BUY") /\
  In "BUY" ["BUY"; "SELL"; "HOLD"] /\
  exists r rest,
    display_response Sample.advice Sample.the_world =
      (r, Sample.the_world,
       MarkdownHtml [Lit (div "success-box" "✅ Analysis Complete")] ::
       Column 1 [Metric "Recommendation"
                   [Lit "🟢"; Lit " "; Val (PyStr "BUY")]] :: rest).
Proof.
  split; [reflexivity|]. split; [reflexivity|]. split; [now left|].
  destruct (@recommendation_color_mapping Sample.advice "BUY" Sample.the_world
              eq_refl eq_refl (or_introl eq_refl))
    as (color & r & rest & Hrun & Hbuy & _).
  exists r, rest. rewrite <- (Hbuy eq_refl). exact Hrun.
Defined.


Lemma exception_is_caught_and_shown_witness :
  st_button (Sample.submit "boom") BtnAnalyze = true /\
  in_user_query (Sample.submit "boom") <> "" /\
  submission Sample.process (Sample.submit "boom") Sample.the_world =
    (Ok tt, set_calls ["boom"] Sample.the_world,
     [Error [Lit ("❌ Error: " ++ "backend down")];
      Expander "Error Details"
        [Code [FormatExc (mkExn (OtherException "RuntimeError")
                            "backend down")]]]).
Proof.
  assert (Hq : in_user_query (Sample.submit "boom") <> "") by discriminate.
  split; [reflexivity|]. split; [exact Hq|].
  destruct (@exception_is_caught_and_shown Sample.process
              (Sample.submit "boom") Sample.the_world eq_refl Hq)
    as (_ & Hraise & _).
  exact (Hraise Sample.the_system _ eq_refl eq_refl).
Defined.

(* ================================================================= *)
(** * The sample session, run *)

Example sample_isoformat : isoformat Sample.now = "2024-03-05T09:07:00.000123".
Proof. reflexivity. Qed.

Example sample_isoformat_whole_second :
  isoformat (mkDatetime 2024 12 31 23 59 59 0) = "2024-12-31T23:59:59".
Proof. reflexivity. Qed.

(** One third of the queries succeeded: 33.3%. *)
Example sample_rate_one_third :
  rbind (py_truediv (PyInt 1) (PyInt 3)) (fun q =>
  rbind (py_mul q (PyInt 100)) py_format_1f) = Returns "33.3".
Proof. vm_compute. reflexivity. Qed.

(** Ties are those of the float, not of the fraction: [1 / 2000 * 100] is
    a float just above 0.05, and [1 / 400 * 100] is the float 0.25. *)
Example sample_rate_one_in_2000 :
  rbind (py_truediv (PyInt 1) (PyInt 2000)) (fun q =>
  rbind (py_mul q (PyInt 100)) py_format_1f) = Returns "0.1".
Proof. vm_compute. reflexivity. Qed.

Example sample_rate_one_in_400 :
  rbind (py_truediv (PyInt 1) (PyInt 400)) (fun q =>
  rbind (py_mul q (PyInt 100)) py_format_1f) = Returns "0.2".
Proof. vm_compute. reflexivity. Qed.

Example sample_dashboard :
  page_metrics (snd (analysis_dashboard Sample.the_world)) =
  [ ("Total Queries", [Val (PyInt 2)]);
    ("Successful", [Val (PyInt 1)]);
    ("Success Rate", [Lit "50.0%"]);
    ("🟢 BUY", [Val (PyInt 1)]);
    ("🔴 SELL", [Val (PyInt 0)]);
    ("🟡 HOLD", [Val (PyInt 0)]);
    ("Average Confidence", [Lit "80.0%"]) ].
Proof. vm_compute. reflexivity. Qed.

Example sample_export :
  exists doc,
    history_json Sample.history = Returns doc /\
    json_loads doc =
    Some (PyList
            [ PyDict [ ("timestamp", PyStr "2024-03-05T09:07:00.000123");
                       ("query", PyStr "bad");
                       ("response", PyDict Sample.failed) ];
              PyDict [ ("timestamp", PyStr "2024-03-05T09:07:00.000123");
                       ("query", PyStr "good");
                       ("response", PyDict Sample.advice) ] ]).
Proof.
  eexists. split.
  - unfold history_json. apply json_dumps_printable.
    vm_compute. reflexivity.
  - vm_compute. reflexivity.
Qed.

(** A document with a repeated key is read with the last value. *)
Example sample_repeated_key :
  json_loads (json_encode (PyDict [("a", PyInt 1); ("a", PyInt 2)])) =
  Some (PyDict [("a", PyInt 2)]).
Proof. reflexivity. Qed.

Example sample_submission_appends :
  Sample.history_after (Sample.submit "again") Sample.the_world =
  (Sample.history ++ [mkChat Sample.now "again" Sample.advice])%list.
Proof. vm_compute. reflexivity. Qed.

Example sample_backend_failure_keeps_history :
  Sample.history_after (Sample.submit "boom") Sample.the_world =
  Sample.history.
Proof. vm_compute. reflexivity. Qed.

Example sample_empty_query_keeps_history :
  Sample.history_after (Sample.submit "") Sample.the_world = Sample.history.
Proof. vm_compute. reflexivity. Qed.

Example sample_clear :
  Sample.history_after (Sample.press BtnClear) Sample.the_world = [].
Proof. vm_compute. reflexivity. Qed.

Example sample_recent_queries :
  snd (recent_queries Sample.the_world) =
  [ Markdown [Lit "---"];
    Markdown [Lit "### 💬 Recent Queries"];
    Expander "🕐 09:07:00 - good..."
      [ Write [Lit "**Query:** good"];
        Write [Lit "**Recommendation:** "; Val (PyStr "BUY")];
        Write [Lit "**Confidence:** "; Val (PyInt 80); Lit "%"];
        Write [Lit "**Explanation:** "; Val (PyStr "because")] ];
    Expander "🕐 09:07:00 - bad..."
      [ Write [Lit "**Query:** bad"];
        Write [Lit "**Status:** "; Val (PyStr "no data")] ] ].
Proof. vm_compute. reflexivity. Qed.

(* ================================================================= *)
(** * The initializer *)

Lemma dict_lookup_set_same (d : pydict) (k : string) (v : pyval) :
  dict_lookup k (dict_set d k v) = Some v.
Proof.
  induction d as [|[k' v'] d IH]; cbn.
  - now rewrite String.eqb_refl.
  - destruct (k =? k')%string eqn:E; cbn; rewrite E; [reflexivity | exact IH].
Qed.

Lemma dict_lookup_set_other (d : pydict) (k k' : string) (v : pyval) :
  k' <> k -> dict_lookup k' (dict_set d k v) = dict_lookup k' d.
Proof.
  intros Hk. induction d as [|[k0 v0] d IH]; cbn.
  - destruct (k' =? k)%string eqn:E; [|reflexivity].
    apply String.eqb_eq in E. contradiction.
  - destruct (k =? k0)%string eqn:E; cbn.
    + apply String.eqb_eq in E. subst k0.
      destruct (k' =? k)%string eqn:E'; [|reflexivity].
      apply String.eqb_eq in E'. contradiction.
    + destruct (k' =? k0)%string; [reflexivity | exact IH].
Qed.

Lemma environ_get_set_same (env : list (string * string)) (k v : string) :
  environ_get (environ_set env k v) k = Some v.
Proof.
  induction env as [|[k' v'] env IH]; cbn.
  - now rewrite String.eqb_refl.
  - destruct (k =? k')%string eqn:E; cbn; rewrite E; [reflexivity | exact IH].
Qed.

Lemma environ_get_set_other (env : list (string * string)) (k k' v : string) :
  k' <> k -> environ_get (environ_set env k v) k' = environ_get env k'.
Proof.
  intros Hk. induction env as [|[k0 v0] env IH]; cbn.
  - destruct (k' =? k)%string eqn:E; [|reflexivity].
    apply String.eqb_eq in E. contradiction.
  - destruct (k =? k0)%string eqn:E; cbn.
    + apply String.eqb_eq in E. subst k0.
      destruct (k' =? k)%string eqn:E'; [|reflexivity].
      apply String.eqb_eq in E'. contradiction.
    + destruct (k' =? k0)%string; [reflexivity | exact IH].
Qed.

Section InitializerFacts.

Variable backend_new : list (string * string) -> result pydict.
Variable create_assistant : system_t -> result unit.

(** X1: the body of [initialize_system] never raises.  It writes the two
    flags to the environment, then either returns [(system, None)],
    where the system is a new instance whose [config] maps
    [qdrant_collection] to the collection name and is the constructor's
    on every other key, or returns [(None, str(e))] for the exception
    [e] that the constructor or [_create_assistant] raised.  It draws
    nothing and touches neither the session, the store nor the list of
    backend calls. *)
Theorem initialize_system_body_outcome
    (use_qdrant qdrant_local : bool) (collection_name : string) (w : world) :
  exists res w',
    initialize_system_body backend_new create_assistant
      use_qdrant qdrant_local collection_name w = (Ok res, w', []) /\
    environ_get (environ w') "USE_QDRANT" = Some (flag_text use_qdrant) /\
    environ_get (environ w') "QDRANT_LOCAL" = Some (flag_text qdrant_local) /\
    (forall k, k <> "USE_QDRANT" -> k <> "QDRANT_LOCAL" ->
               environ_get (environ w') k = environ_get (environ w) k) /\
    session w' = session w /\ cache w' = cache w /\ calls w' = calls w /\
    match backend_new (environ w') with
    | Raises e => res = (None, Some (exn_str e)) /\ next_id w' = next_id w
    | Returns config =>
        let sys :=
          mkSystem (next_id w)
            (dict_set config "qdrant_collection" (PyStr collection_name)) in
        next_id w' = S (next_id w) /\
        dict_lookup "qdrant_collection" (sys_config sys) =
          Some (PyStr collection_name) /\
        (forall k, k <> "qdrant_collection" ->
                   dict_lookup k (sys_config sys) = dict_lookup k config) /\
        match create_assistant sys with
        | Returns _ => res = (Some sys, None)
        | Raises e => res = (None, Some (exn_str e))
        end
    end.
Proof.
  rewrite initialize_system_body_effect.
  set (env := environ_set (environ_set (environ w) "USE_QDRANT" _)
                "QDRANT_LOCAL" _).
  assert (Hu : environ_get env "USE_QDRANT" = Some (flag_text use_qdrant)).
  { subst env. rewrite environ_get_set_other by discriminate.
    apply environ_get_set_same. }
  assert (Hl : environ_get env "QDRANT_LOCAL" = Some (flag_text qdrant_local))
    by apply environ_get_set_same.
  assert (Ho : forall k, k <> "USE_QDRANT" -> k <> "QDRANT_LOCAL" ->
                         environ_get env k = environ_get (environ w) k).
  { intros k H1 H2. subst env.
    now rewrite !environ_get_set_other by assumption. }
  destruct (backend_new env) as [config|e] eqn:Enew.
  - eexists _, _. split; [reflexivity|].
    cbn [environ set_environ set_next_id session cache calls next_id].
    rewrite Enew. cbn zeta.
    destruct (create_assistant _) as [[]|e];
      repeat split; auto;
      try apply dict_lookup_set_same;
      intros k Hk; now apply dict_lookup_set_other.
  - eexists _, _. split; [reflexivity|].
    cbn [environ set_environ session cache calls next_id].
    rewrite Enew. repeat split; auto.
Qed.

End InitializerFacts.

(* ================================================================= *)
(** * The "Initialize System" button *)

Lemma bind_stops {A B} (m : ui A) (k : A -> ui B)
    (w w' : world) (r : outcome A) (ws : list widget) :
  m w = (r, w', ws) ->
  (forall a, r <> Ok a) ->
  bind m k w =
  (match r with
   | Ok _ => Rerun
   | Raise e => Raise e
   | Rerun => Rerun
   end, w', ws).
Proof.
  intros H Hr. unfold bind. rewrite H.
  destruct r as [a|e|]; [now contradiction (Hr a) | reflexivity | reflexivity].
Qed.

Section InitializeButtonFacts.

Variable backend_new : list (string * string) -> result pydict.
Variable create_assistant : system_t -> result unit.

(** The handler of "Initialize System", once the initializer has
    returned. *)
Lemma sidebar_initialize_run (inp : inputs) (w w1 : world)
    (sys : option system_t) (err : option string) :
  in_pressed inp = Some BtnInitialize ->
  initialize_system backend_new create_assistant
    (in_use_qdrant inp) (in_qdrant_local inp) (in_collection_name inp) w =
    (Ok (sys, err), w1, []) ->
  exists ws,
    if error_truthy err then
      sidebar backend_new create_assistant inp w = (Ok tt, w1, ws) /\
      In (Error [Lit ("❌ Initialization failed: " ++ error_text err)]) ws
    else
      sidebar backend_new create_assistant inp w =
        (Rerun,
         set_session (with_initialized true (with_system sys (session w))) w1,
         ws) /\
      In (Success [Lit "✅ System initialized successfully!"]) ws.
Proof.
  intros Hp Hinit.
  pose proof (initialize_system_session backend_new create_assistant
                (in_use_qdrant inp) (in_qdrant_local inp)
                (in_collection_name inp) w) as Hsess.
  rewrite Hinit in Hsess. cbn [fst snd] in Hsess.
  unfold sidebar. rewrite !(st_button_pressed inp Hp).
  cbn [button_eqb when]. rewrite !bind_emit.
  match goal with
  | |- context [bind ?H ?K w] =>
      assert (Hh : H w =
                   if error_truthy err
                   then (Ok tt, w1,
                         [Error [Lit ("❌ Initialization failed: " ++
                                      error_text err)]])
                   else (Rerun,
                         set_session
                           (with_initialized true
                              (with_system sys (session w))) w1,
                         [Success [Lit "✅ System initialized successfully!"]]));
      [ unfold bind at 1; rewrite Hinit;
        destruct (error_truthy err);
        [ reflexivity | rewrite bind_get_session; cbn; now rewrite Hsess ]
      | destruct (error_truthy err) eqn:Herr;
        [ rewrite (@bind_ok _ _ H K _ _ _ _ Hh)
        | rewrite (@bind_stops _ _ H K _ _ _ _ Hh) by discriminate ] ]
  end.
  - rewrite bind_emit.
    destruct (system_status_renders w1) as ([] & ws & Hst).
    rewrite (@bind_ok _ _ system_status _ _ _ _ _ Hst).
    rewrite !bind_emit, !bind_ret, !bind_emit.
    unfold example_queries. cbn [for_each].
    rewrite !(st_button_pressed inp Hp). cbn [button_eqb when].
    rewrite !bind_ret. unfold ret.
    eexists. split; [reflexivity|]. cbn. auto.
  - eexists. split; [reflexivity|]. cbn. auto.
Qed.

(** X2: a run triggered by "Initialize System" calls the cached
    initializer with the three values of the sidebar.  When it returns
    a non-empty error text, the sidebar shows "Initialization failed"
    with that text, leaves the session as it was and the run goes on;
    otherwise the session gets the returned system and is marked
    initialized, the success message is drawn and the run ends in a
    rerun. *)
Theorem sidebar_initialize (inp : inputs) (w : world) :
  in_pressed inp = Some BtnInitialize ->
  exists sys err w1 ws,
    initialize_system backend_new create_assistant
      (in_use_qdrant inp) (in_qdrant_local inp) (in_collection_name inp) w =
      (Ok (sys, err), w1, []) /\
    session w1 = session w /\
    if error_truthy err then
      sidebar backend_new create_assistant inp w = (Ok tt, w1, ws) /\
      In (Error [Lit ("❌ Initialization failed: " ++ error_text err)]) ws
    else
      sidebar backend_new create_assistant inp w =
        (Rerun,
         set_session (with_initialized true (with_system sys (session w))) w1,
         ws) /\
      In (Success [Lit "✅ System initialized successfully!"]) ws.
Proof.
  intros Hp.
  destruct (initialize_system_stores backend_new create_assistant
              (in_use_qdrant inp) (in_qdrant_local inp)
              (in_collection_name inp) w)
    as ([sys err] & w1 & Hinit & _).
  pose proof (initialize_system_session backend_new create_assistant
                (in_use_qdrant inp) (in_qdrant_local inp)
                (in_collection_name inp) w) as Hsess.
  rewrite Hinit in Hsess. cbn [fst snd] in Hsess.
  destruct (@sidebar_initialize_run inp w w1 sys err Hp Hinit)
    as (ws & Hside).
  exists sys, err, w1, ws. auto.
Qed.

(** X3: an initialization that fails with an exception whose text is
    empty (an [assert] without a message, say) is taken for a success:
    on a store without an entry for the arguments, the session is marked
    initialized although it holds no system, and the run ends in a
    rerun. *)
Theorem silent_failure_marks_initialized (inp : inputs) (w : world) (e : exn) :
  in_pressed inp = Some BtnInitialize ->
  cache_lookup (in_use_qdrant inp, in_qdrant_local inp, in_collection_name inp)
    (cache w) = None ->
  (forall env, backend_new env = Raises e) ->
  exn_str e = "" ->
  exists w' ws,
    sidebar backend_new create_assistant inp w = (Rerun, w', ws) /\
    initialized (session w') = true /\
    system (session w') = None /\
    chat_history (session w') = chat_history (session w).
Proof.
  intros Hp Hmiss Hnew Hstr.
  assert (Hinit : exists w1,
             initialize_system backend_new create_assistant
               (in_use_qdrant inp) (in_qdrant_local inp)
               (in_collection_name inp) w = (Ok (None, Some ""), w1, []) /\
             session w1 = session w).
  { unfold initialize_system. rewrite Hmiss.
    rewrite initialize_system_body_effect. cbn zeta.
    rewrite Hnew, Hstr. eexists. split; reflexivity. }
  destruct Hinit as (w1 & Hinit & Hsess).
  destruct (@sidebar_initialize_run inp w w1 _ _ Hp Hinit)
    as (ws & Hside).
  cbn [error_truthy String.eqb negb] in Hside.
  destruct Hside as [Hside _].
  eexists _, ws. split; [exact Hside|]. cbn. auto.
Qed.

End InitializeButtonFacts.

(* ================================================================= *)
(** * What a run changes *)

Lemma preserves_display_only (I : world -> Prop) {A} (m : ui A) :
  display_only m -> preserves I m.
Proof.
  intros Hm w r w' ws HI Hrun. destruct (Hm w) as (r0 & ws0 & E & _).
  rewrite E in Hrun. now injection Hrun as _ <- _.
Qed.

Lemma preserves_bind (I : world -> Prop) {A B} (m : ui A) (k : A -> ui B) :
  preserves I m -> (forall a, preserves I (k a)) -> preserves I (bind m k).
Proof.
  intros Hm Hk w r w' ws HI. unfold bind.
  destruct (m w) as [[[a|e|] w1] ws1] eqn:E1.
  - destruct (k a w1) as [[r2 w2] ws2] eqn:E2. intros [= _ <- _].
    exact (Hk a _ _ _ _ (Hm _ _ _ _ HI E1) E2).
  - intros [= _ <- _]. exact (Hm _ _ _ _ HI E1).
  - intros [= _ <- _]. exact (Hm _ _ _ _ HI E1).
Qed.

Lemma preserves_when (I : world -> Prop) (b : bool) (m : ui unit) :
  preserves I m -> preserves I (when b m).
Proof.
  intros Hm. destruct b; [exact Hm|].
  apply preserves_display_only, display_only_ret.
Qed.

Lemma preserves_update (I : world -> Prop) {B}
    (f : session_state -> session_state) (k : unit -> ui B) :
  (forall w, I w -> I (set_session (f (session w)) w)) ->
  (forall u, preserves I (k u)) ->
  preserves I (bind get_session (fun s => bind (put_session (f s)) k)).
Proof.
  intros Hf Hk w r w' ws HI. rewrite bind_get_session.
  unfold bind, put_session.
  destruct (k tt (set_session (f (session w)) w)) as [[r2 w2] ws2] eqn:E2.
  intros [= _ <- _]. exact (Hk tt _ _ _ _ (Hf w HI) E2).
Qed.

Lemma preserves_set (I : world -> Prop) (f : session_state -> session_state) :
  (forall w, I w -> I (set_session (f (session w)) w)) ->
  preserves I (bind get_session (fun s => put_session (f s))).
Proof.
  intros Hf w r w' ws HI. rewrite bind_get_session. intros [= _ <- _]. auto.
Qed.

Lemma preserves_st_rerun (I : world -> Prop) : preserves I st_rerun.
Proof. intros w r w' ws HI [= _ <- _]. exact HI. Qed.

Section RunFacts.

Variable backend_new : list (string * string) -> result pydict.
Variable create_assistant : system_t -> result unit.
Variable process_query_sync :
  system_t -> list string -> string -> result pydict.

Lemma initialize_system_calls (a b : bool) (c : string) (w : world) :
  calls (snd (fst (initialize_system backend_new create_assistant a b c w)))
  = calls w.
Proof.
  unfold initialize_system.
  destruct (cache_lookup (a, b, c) (cache w)); [reflexivity|].
  rewrite initialize_system_body_effect. cbn zeta.
  destruct (backend_new _); reflexivity.
Qed.

(** The sidebar never calls [process_query_sync]. *)
Lemma sidebar_calls (inp : inputs) (c0 : list string) :
  preserves (fun w => calls w = c0)
    (sidebar backend_new create_assistant inp).
Proof.
  unfold sidebar.
  repeat first
    [ apply preserves_bind; [|intros ?]
    | apply preserves_display_only; solve [display] ].
  - apply preserves_when. apply preserves_bind.
    + intros w r w' ws HI E.
      pose proof (initialize_system_calls (in_use_qdrant inp)
                    (in_qdrant_local inp) (in_collection_name inp) w) as H.
      rewrite E in H. cbn in H. congruence.
    + intros [sys error]. destruct (error_truthy error).
      * apply preserves_display_only. display.
      * apply (@preserves_update _ _
                 (fun s => with_initialized true (with_system sys s)));
          [auto|].
        intros _. apply preserves_bind;
          [apply preserves_display_only; display
          | intros _; apply preserves_st_rerun].
  - apply preserves_when.
    apply (@preserves_update _ _ (with_chat_history [])); [auto|].
    intros _. apply preserves_st_rerun.
  - apply preserves_when.
    apply (@preserves_set _ (with_current_query (Some _))). auto.
  - apply preserves_when.
    apply (@preserves_set _ (with_current_query (Some _))). auto.
  - apply preserves_when.
    apply (@preserves_set _ (with_current_query (Some _))). auto.
  - apply preserves_when.
    apply (@preserves_set _ (with_current_query (Some _))). auto.
  - apply preserves_when.
    apply (@preserves_set _ (with_current_query (Some _))). auto.
Qed.


Lemma world_eta (w : world) :
  set_session (with_chat_history (chat_history (session w)) (session w))
    (set_calls (calls w) w) = w.
Proof. destruct w as [[? ? ? ?] ? ? ? ?]. reflexivity. Qed.

Lemma world_after_submission_idle (inp : inputs) (w : world) :
  st_button inp BtnAnalyze = false ->
  world_after_submission process_query_sync inp w = w.
Proof.
  intros H. unfold world_after_submission, history_after_submission,
    calls_after_submission. rewrite H. apply world_eta.
Qed.

(** The submission block always ends normally, and changes the history
    and the list of sent queries only. *)
Lemma submission_world (inp : inputs) (w : world)
    (r : outcome unit) (w' : world) (ws : list widget) :
  submission process_query_sync inp w = (r, w', ws) ->
  r = Ok tt /\ w' = world_after_submission process_query_sync inp w.
Proof.
  unfold submission, world_after_submission, history_after_submission,
    calls_after_submission.
  destruct (st_button inp BtnAnalyze && negb (in_user_query inp =? "")%string);
    cbn [when].
  - unfold try_except.
    pose proof (submit_query_run process_query_sync inp (in_user_query inp) w)
      as H.
    destruct (system (session w)) as [sys|] eqn:Hsys.
    + destruct (process_query_sync sys (calls w) (in_user_query inp))
        as [response|e].
      * destruct H as (r0 & ws0 & -> & Hr0).
        destruct r0 as [[]|e|]; [| |contradiction].
        -- intros [= <- <- _]. split; reflexivity.
        -- rewrite display_exception_run. intros [= <- <- _].
           split; reflexivity.
      * rewrite H, display_exception_run. intros [= <- <- _].
        split; [reflexivity|].
        destruct w as [[? ? ? ?] ? ? ? ?]. reflexivity.
    + rewrite H, display_exception_run. intros [= <- <- _].
      split; [reflexivity|]. symmetry. apply world_eta.
  - intros [= <- <- _]. split; [reflexivity|]. symmetry. apply world_eta.
Qed.

Lemma chat_tab_world (inp : inputs) (w : world)
    (r : outcome unit) (w' : world) (ws : list widget) :
  chat_tab process_query_sync inp w = (r, w', ws) ->
  r <> Rerun /\
  w' = world_after_submission process_query_sync inp
         (set_session (consume_query (session w)) w).
Proof.
  unfold chat_tab. rewrite bind_emit, bind_get_session.
  set (w1 := set_session (consume_query (session w)) w).
  assert (Hstep : forall B (k : unit -> ui B),
             bind (when (negb (match current_query (session w) with
                               | Some q => q
                               | None => ""
                               end =? "")%string)
                     (put_session (with_current_query None (session w)))) k w
             = k tt w1).
  { intros B k. subst w1. unfold consume_query.
    destruct (current_query (session w)) as [q|]; cbn [String.eqb negb when].
    - destruct (q =? "")%string; cbn [negb when].
      + rewrite bind_ret. now destruct w.
      + unfold bind, put_session. now destruct (k tt _) as [[? ?] ?].
    - rewrite bind_ret. now destruct w. }
  rewrite Hstep. unfold bind.
  destruct (submission process_query_sync inp w1) as [[r1 w2] ws1] eqn:Hsub.
  apply submission_world in Hsub. destruct Hsub as (-> & ->).
  match goal with
  | |- context [recent_queries ?w2] =>
      destruct (display_only_recent_queries w2) as (r2 & ws2 & -> & Hr2)
  end.
  intros [= <- <- _]. split; [exact Hr2|reflexivity].
Qed.

Lemma main_content_world (inp : inputs) (w : world)
    (r : outcome unit) (w' : world) (ws : list widget) :
  main_content process_query_sync inp w = (r, w', ws) ->
  r <> Rerun /\
  w' = if initialized (session w)
       then world_after_submission process_query_sync inp
              (set_session (consume_query (session w)) w)
       else w.
Proof.
  unfold main_content. rewrite !bind_emit, bind_get_session.
  destruct (initialized (session w)); cbn [negb].
  - unfold bind at 1, within at 1.
    destruct (chat_tab process_query_sync inp w) as [[r1 w1] ws1] eqn:Htab.
    apply chat_tab_world in Htab. destruct Htab as (Hr1 & ->).
    destruct r1 as [[]|e|]; [| |contradiction].
    + match goal with
      | |- context [bind (within (Tab "📈 Analysis") analysis_dashboard) ?k ?w1] =>
          assert (Hk : display_only
                         (bind (within (Tab "📈 Analysis") analysis_dashboard) k))
            by display;
          destruct (Hk w1) as (r2 & ws2 & -> & Hr2)
      end.
      intros [= <- <- _]. split; [exact Hr2|reflexivity].
    + intros [= <- <- _]. split; [discriminate|reflexivity].
  - match goal with
    | |- context [bind (emit ?x) ?k w] =>
        assert (Hk : display_only (bind (emit x) k)) by display;
        destruct (Hk w) as (r2 & ws2 & -> & Hr2)
    end.
    intros [= <- <- _]. split; [exact Hr2|reflexivity].
Qed.

(** How the script goes on behind the sidebar. *)
Lemma script_steps (inp : inputs) (w w1 w2 : world) (r2 : outcome unit)
    (ws1 ws2 : list widget) :
  sidebar backend_new create_assistant inp w = (Ok tt, w1, ws1) ->
  main_content process_query_sync inp w1 = (r2, w2, ws2) ->
  exists ws,
    script backend_new create_assistant process_query_sync inp w =
      (r2, w2, ws).
Proof.
  intros Hside Hmain. unfold script. rewrite bind_emit.
  unfold bind at 1, within at 1. rewrite Hside.
  unfold bind at 1. rewrite Hmain.
  destruct r2 as [[]|e|]; cbn; eauto.
Qed.

Lemma script_stops (inp : inputs) (w w1 : world) (r : outcome unit)
    (ws1 : list widget) :
  sidebar backend_new create_assistant inp w = (r, w1, ws1) ->
  r <> Ok tt ->
  script backend_new create_assistant process_query_sync inp w =
    (r, w1, [MarkdownHtml [Lit custom_css]; Sidebar ws1]).
Proof.
  intros Hside Hr. unfold script. rewrite bind_emit.
  unfold bind at 1, within at 1. rewrite Hside.
  destruct r as [[]|e|]; [contradiction| |]; reflexivity.
Qed.

End RunFacts.

(* ================================================================= *)
(** * Runs of the whole script *)

Lemma never_reruns_display_only {A} (m : ui A) :
  display_only m -> never_reruns m.
Proof.
  intros Hm w r w' ws Hrun. destruct (Hm w) as (r0 & ws0 & E & Hr).
  rewrite E in Hrun. now injection Hrun as <- _ _.
Qed.

Lemma never_reruns_bind {A B} (m : ui A) (k : A -> ui B) :
  never_reruns m -> (forall a, never_reruns (k a)) -> never_reruns (bind m k).
Proof.
  intros Hm Hk w r w' ws. unfold bind.
  destruct (m w) as [[[a|e|] w1] ws1] eqn:E1.
  - destruct (k a w1) as [[r2 w2] ws2] eqn:E2. intros [= <- _ _].
    exact (Hk a _ _ _ _ E2).
  - intros [= <- _ _]. discriminate.
  - now apply Hm in E1.
Qed.

Lemma never_reruns_for_each {A} (xs : list A) (body : A -> ui unit) :
  (forall x, never_reruns (body x)) -> never_reruns (for_each xs body).
Proof.
  intros Hbody. induction xs as [|x xs IH]; cbn [for_each].
  - apply never_reruns_display_only, display_only_ret.
  - apply never_reruns_bind; auto.
Qed.

Lemma never_reruns_set (f : session_state -> session_state) :
  never_reruns (bind get_session (fun s => put_session (f s))).
Proof. intros w r w' ws. rewrite bind_get_session. now intros [= <- _ _]. Qed.

Lemma consume_query_system (s : session_state) :
  system (consume_query s) = system s.
Proof.
  unfold consume_query. destruct (current_query s) as [q|]; [|reflexivity].
  now destruct (q =? "")%string.
Qed.

Section ScriptFacts.

Variable backend_new : list (string * string) -> result pydict.
Variable create_assistant : system_t -> result unit.
Variable process_query_sync :
  system_t -> list string -> string -> result pydict.

(** Only "Initialize System" and "Clear Chat History" can end the
    sidebar in a rerun. *)
Lemma sidebar_never_reruns (inp : inputs) :
  st_button inp BtnInitialize = false ->
  st_button inp BtnClear = false ->
  never_reruns (sidebar backend_new create_assistant inp).
Proof.
  intros Hinit Hclear. unfold sidebar. rewrite Hinit, Hclear. cbn [when].
  assert (Hview : never_reruns
            (when (st_button inp BtnViewConfig)
               (s <- get_session ;;
                match system s with
                | Some sys => emit (Json (PyDict (sys_config sys)))
                | None => ret tt
                end))).
  { apply never_reruns_display_only. apply display_only_when.
    apply display_only_bind; [display|]. intros s.
    destruct (system s); display. }
  assert (Hex : never_reruns
            (for_each example_queries (fun query =>
               when (st_button inp (BtnExample query))
                 (s <- get_session ;;
                  put_session (with_current_query (Some query) s))))).
  { apply never_reruns_for_each. intros q.
    destruct (st_button inp (BtnExample q)); cbn [when].
    - apply (never_reruns_set (with_current_query (Some q))).
    - apply never_reruns_display_only. display. }
  repeat first
    [ exact Hview | exact Hex
    | apply never_reruns_display_only; solve [display]
    | apply never_reruns_bind; [|intros ?] ].
Qed.

Lemma sidebar_example (inp : inputs) (q : string) (w : world) :
  in_pressed inp = Some (BtnExample q) ->
  In q example_queries ->
  exists ws,
    sidebar backend_new create_assistant inp w =
      (Ok tt, set_session (with_current_query (Some q) (session w)) w, ws).
Proof.
  intros Hbtn Hq.
  unfold sidebar. rewrite !(st_button_pressed inp Hbtn). cbn [button_eqb when].
  rewrite !bind_emit, bind_ret, bind_emit.
  destruct (system_status_renders w) as ([] & ws & Hst).
  rewrite (@bind_ok _ _ system_status _ _ _ _ _ Hst).
  rewrite !bind_emit, !bind_ret, !bind_emit.
  unfold example_queries in *. cbn [for_each].
  rewrite !(st_button_pressed inp Hbtn).
  cbn [In] in Hq.
  destruct Hq as [<-|[<-|[<-|[<-|[<-|[]]]]]]; cbn; eauto.
Qed.

(** X4: the backend is sent a query only by the submission block: after
    a run, the list of queries sent to [process_query_sync] is the old
    one, with the submitted query added exactly when the session is
    initialized, the run was triggered by the form, the query is not
    empty and the session holds a system.  No other button, and no
    rerun, reaches the backend's [process_query_sync]. *)
Theorem backend_called_on_submission_only (inp : inputs) (w : world) :
  calls (snd (fst
    (script backend_new create_assistant process_query_sync inp w))) =
  expected_calls inp w.
Proof.
  destruct (sidebar backend_new create_assistant inp w)
    as [[r1 w1] ws1] eqn:Hside.
  destruct (st_button inp BtnAnalyze) eqn:Hbtn.
  - destruct (sidebar_analyze backend_new create_assistant inp w Hbtn)
      as (ws & E).
    destruct (main_content process_query_sync inp w) as [[r2 w2] ws2] eqn:Hmain.
    destruct (script_steps backend_new create_assistant process_query_sync
                inp w E Hmain) as (ws' & ->).
    apply main_content_world in Hmain. destruct Hmain as (_ & ->).
    unfold expected_calls. cbn [fst snd].
    destruct (initialized (session w)); [|reflexivity].
    unfold world_after_submission, calls_after_submission.
    cbn [calls set_session set_calls session].
    now rewrite consume_query_system.
  - assert (Hcalls : calls w1 = calls w).
    { exact (@sidebar_calls backend_new create_assistant inp (calls w)
               w r1 w1 ws1 eq_refl Hside). }
    assert (Hgoal : expected_calls inp w = calls w).
    { unfold expected_calls, calls_after_submission. rewrite Hbtn.
      now destruct (initialized (session w)). }
    rewrite Hgoal.
    destruct r1 as [[]|e|].
    + destruct (main_content process_query_sync inp w1)
        as [[r2 w2] ws2] eqn:Hmain.
      destruct (script_steps backend_new create_assistant process_query_sync
                  inp w Hside Hmain) as (ws' & ->).
      apply main_content_world in Hmain. destruct Hmain as (_ & ->).
      cbn [fst snd]. rewrite world_after_submission_idle by assumption.
      now destruct (initialized (session w1)).
    + rewrite (script_stops backend_new create_assistant process_query_sync inp w
               Hside) by discriminate.
      exact Hcalls.
    + rewrite (script_stops backend_new create_assistant process_query_sync inp w
               Hside) by discriminate.
      exact Hcalls.
Qed.

Lemma script_never_reruns (inp : inputs) :
  st_button inp BtnInitialize = false ->
  st_button inp BtnClear = false ->
  never_reruns (script backend_new create_assistant process_query_sync inp).
Proof.
  intros Hinit Hclear w r w' ws Hrun.
  destruct (sidebar backend_new create_assistant inp w)
    as [[r1 w1] ws1] eqn:Hside.
  pose proof (@sidebar_never_reruns inp Hinit Hclear _ _ _ _ Hside) as Hr1.
  destruct r1 as [[]|e|]; [| |contradiction].
  - destruct (main_content process_query_sync inp w1)
      as [[r2 w2] ws2] eqn:Hmain.
    destruct (script_steps backend_new create_assistant process_query_sync
                inp w Hside Hmain) as (ws' & E).
    rewrite E in Hrun. injection Hrun as <- _ _.
    now apply main_content_world in Hmain.
  - rewrite (script_stops backend_new create_assistant process_query_sync inp w
               Hside) in Hrun
      by discriminate.
    injection Hrun as <- _ _. discriminate.
Qed.

(** X5: a run of the script ends in [st.rerun()] only when it was
    triggered by "Initialize System" or by "Clear Chat History"; and the
    run that follows a rerun never ends in another one, so that one user
    interaction takes at most two runs. *)
Theorem rerun_only_after_initialize_or_clear (inp : inputs) (w : world) :
  (fst (fst (script backend_new create_assistant process_query_sync inp w))
     = Rerun ->
   in_pressed inp = Some BtnInitialize \/ in_pressed inp = Some BtnClear) /\
  fst (fst (interact backend_new create_assistant process_query_sync inp w))
    <> Rerun.
Proof.
  split.
  - intros Hrerun.
    destruct (st_button inp BtnInitialize) eqn:Hinit;
      [left; now apply st_button_true|].
    destruct (st_button inp BtnClear) eqn:Hclear;
      [right; now apply st_button_true|].
    destruct (script backend_new create_assistant process_query_sync inp w)
      as [[r w'] ws] eqn:Hrun.
    now apply (@script_never_reruns inp Hinit Hclear) in Hrun.
  - unfold interact.
    destruct (script backend_new create_assistant process_query_sync inp w)
      as [[r w'] ws] eqn:Hrun.
    destruct r as [[]|e|]; [discriminate|discriminate|].
    match goal with
    | |- fst (fst (script _ _ _ ?inp' w')) <> Rerun =>
        destruct (script backend_new create_assistant process_query_sync
                    inp' w') as [[r2 w2] ws2] eqn:Hrun2;
        exact (@script_never_reruns inp' eq_refl eq_refl _ _ _ _ Hrun2)
    end.
Qed.

(** X6: a run triggered by one of the five example buttons stores the
    example in [current_query]; on an initialized session the chat tab
    of the same run takes it out again, so that the run leaves no
    [current_query] behind, and on a session that is not initialized it
    stays.  Nothing else of the session, the cache or the environment
    changes, and the backend is not called. *)
Theorem example_query_consumed (inp : inputs) (w : world) (q : string) :
  in_pressed inp = Some (BtnExample q) ->
  In q example_queries ->
  snd (fst (script backend_new create_assistant process_query_sync inp w)) =
  set_session
    (with_current_query
       (if initialized (session w) then None else Some q) (session w)) w.
Proof.
  intros Hbtn Hq.
  destruct (sidebar_example inp w Hbtn Hq) as (ws1 & Hside).
  assert (Hidle : st_button inp BtnAnalyze = false).
  { now rewrite (st_button_pressed inp Hbtn). }
  match type of Hside with
  | _ = (_, ?w1, _) =>
      destruct (main_content process_query_sync inp w1)
        as [[r2 w2] ws2] eqn:Hmain
  end.
  destruct (script_steps backend_new create_assistant process_query_sync
              inp w Hside Hmain) as (ws' & ->).
  apply main_content_world in Hmain. destruct Hmain as (_ & ->).
  cbn [fst snd]. rewrite world_after_submission_idle by assumption.
  cbn [session set_session initialized with_current_query].
  destruct (initialized (session w)) eqn:Hi; [|reflexivity].
  unfold consume_query. cbn.
  assert (Hne : (q =? "")%string = false).
  { unfold example_queries in Hq. cbn [In] in Hq.
    destruct Hq as [<-|[<-|[<-|[<-|[<-|[]]]]]]; reflexivity. }
  rewrite Hne. reflexivity.
Qed.

End ScriptFacts.

(* ================================================================= *)
(** * Records that lack a key *)

Lemma for_each_outcome {A} (f : A -> chat) (ks : list string)
    (xs : list A) (body : A -> ui unit) :
  (forall x w, exists ws,
      body x w = (ends_with (record_error ks (f x)), w, ws)) ->
  forall w, exists ws,
    for_each xs body w = (ends_with (first_error ks (map f xs)), w, ws).
Proof.
  intros Hbody. induction xs as [|x xs IH]; intros w; cbn [for_each map].
  - now exists [].
  - destruct (Hbody x w) as (ws1 & H1). unfold bind. rewrite H1.
    cbn [first_error]. destruct (record_error ks (f x)) as [e|]; cbn [ends_with].
    + now eexists.
    + destruct (IH w) as (ws2 & ->). now eexists.
Qed.

Lemma map_snd_enumerate {A} (xs : list A) (n : nat) :
  map snd (enumerate n xs) = xs.
Proof.
  revert n. induction xs as [|x xs IH]; intros n; cbn; [reflexivity|].
  now rewrite IH.
Qed.

Lemma recent_entry_outcome (c : chat) (w : world) :
  exists ws,
    recent_entry c w = (ends_with (record_error recent_keys c), w, ws).
Proof.
  unfold recent_entry, within, record_error, is_successful, recent_keys.
  rewrite bind_emit.
  destruct (truthy (dict_get (response c) "success" PyNone)).
  - unfold first_missing, has_key, dict_getitem, bind, lift.
    destruct (dict_lookup "recommendation" (response c)); [|now eexists].
    cbn [emit app].
    destruct (dict_lookup "confidence" (response c)); [|now eexists].
    cbn [emit app].
    destruct (dict_lookup "explanation" (response c)); now eexists.
  - now eexists.
Qed.

Lemma history_entry_outcome (inp : inputs) (ic : nat * chat) (w : world) :
  exists ws,
    history_entry inp ic w =
      (ends_with (record_error history_keys (snd ic)), w, ws).
Proof.
  destruct ic as [i c].
  unfold history_entry, record_error, is_successful, history_keys.
  cbn [snd]. unfold within at 1.
  unfold bind at 1. unfold within at 1. rewrite !bind_emit.
  destruct (truthy (dict_get (response c) "success" PyNone)).
  - unfold first_missing, has_key, dict_getitem, bind, lift.
    destruct (dict_lookup "recommendation" (response c)); [|now eexists].
    cbn [emit app].
    destruct (dict_lookup "confidence" (response c)); [|now eexists].
    cbn [emit app within option_map ends_with].
    destruct (st_button inp (BtnDetail i)); now eexists.
  - cbn [emit app within option_map ends_with].
    unfold bind. cbn [emit within].
    destruct (st_button inp (BtnDetail i)); now eexists.
Qed.

(** How the loop of the "Recent Queries" panel ends. *)
Lemma recent_records_outcome (cs : list chat) (w : world) :
  exists ws,
    for_each cs recent_entry w =
      (ends_with (first_error recent_keys cs), w, ws).
Proof.
  destruct (@for_each_outcome _ (fun c => c) recent_keys cs recent_entry
              recent_entry_outcome w) as (ws & H).
  rewrite map_id in H. eauto.
Qed.


(** The loop of the history tab draws containers only, and ends as its
    records end. *)
Lemma history_loop_outcome (inp : inputs) (cs : list chat) (w : world) :
  exists ws,
    for_each (enumerate 0 cs) (history_entry inp) w =
      (ends_with (first_error history_keys cs), w, ws) /\
    forall label data file mime,
      ~ In (DownloadButton label data file mime) ws.
Proof.
  destruct (@for_each_outcome _ snd history_keys
              (enumerate 0 cs) (history_entry inp)
              (history_entry_outcome inp) w) as (ws & Hloop).
  rewrite map_snd_enumerate in Hloop.
  destruct (@for_each_shows _ (enumerate 0 cs)
              (history_entry inp) _ (history_entry_shows inp) w)
    as (r & ys & Hshow & Hall & _ & _).
  rewrite Hloop in Hshow. injection Hshow as _ <-.
  exists ws. split; [exact Hloop|].
  intros label data file mime. clear Hloop. revert Hall.
  generalize (firstn (List.length ws) (enumerate 0 cs)).
  intros xs Hall. induction Hall as [|x y xs ys Hxy _ IH]; cbn [In].
  - tauto.
  - intros [Hy|Hin]; [|exact (IH Hin)].
    destruct Hxy as (rest1 & rest & E). congruence.
Qed.

(* ================================================================= *)
(** * A page that stops at the chat tab *)

Lemma ends_normally_renders {A} (m : ui A) : renders m -> ends_normally m.
Proof. intros Hm w. destruct (Hm w) as (a & ws & E). eauto. Qed.

Lemma ends_normally_emit (x : widget) : ends_normally (emit x).
Proof. intros w. unfold emit. eauto. Qed.

Lemma ends_normally_ret {A} (a : A) : ends_normally (ret a).
Proof. intros w. unfold ret. eauto. Qed.

Lemma ends_normally_bind {A B} (m : ui A) (k : A -> ui B) :
  ends_normally m -> (forall a, ends_normally (k a)) ->
  ends_normally (bind m k).
Proof.
  intros Hm Hk w. destruct (Hm w) as (a & w1 & ws1 & E1).
  destruct (Hk a w1) as (b & w2 & ws2 & E2).
  unfold bind. rewrite E1, E2. eauto.
Qed.

Lemma ends_normally_when (b : bool) (m : ui unit) :
  ends_normally m -> ends_normally (when b m).
Proof. intros Hm. destruct b; [exact Hm|apply ends_normally_ret]. Qed.

Lemma ends_normally_for_each {A} (xs : list A) (body : A -> ui unit) :
  (forall x, ends_normally (body x)) -> ends_normally (for_each xs body).
Proof.
  intros Hbody. induction xs as [|x xs IH]; cbn [for_each].
  - apply ends_normally_ret.
  - apply ends_normally_bind; auto.
Qed.

Lemma ends_normally_set (f : session_state -> session_state) :
  ends_normally (bind get_session (fun s => put_session (f s))).
Proof. intros w. rewrite bind_get_session. unfold put_session. eauto. Qed.

Lemma preserves_for_each (I : world -> Prop) {A} (xs : list A)
    (body : A -> ui unit) :
  (forall x, preserves I (body x)) -> preserves I (for_each xs body).
Proof.
  intros Hbody. induction xs as [|x xs IH]; cbn [for_each].
  - apply preserves_display_only, display_only_ret.
  - apply preserves_bind; auto.
Qed.

Lemma consume_query_history (s : session_state) :
  chat_history (consume_query s) = chat_history s.
Proof.
  unfold consume_query. destruct (current_query s) as [q|]; [|reflexivity].
  now destruct (q =? "")%string.
Qed.

Lemma consume_query_initialized (s : session_state) :
  initialized (consume_query s) = initialized s.
Proof.
  unfold consume_query. destruct (current_query s) as [q|]; [|reflexivity].
  now destruct (q =? "")%string.
Qed.

Section StoppedPageFacts.

Variable backend_new : list (string * string) -> result pydict.
Variable create_assistant : system_t -> result unit.
Variable process_query_sync :
  system_t -> list string -> string -> result pydict.

(** Without "Initialize System" and "Clear Chat History" the sidebar
    runs to its end. *)
Lemma sidebar_ends_normally (inp : inputs) :
  st_button inp BtnInitialize = false ->
  st_button inp BtnClear = false ->
  ends_normally (sidebar backend_new create_assistant inp).
Proof.
  intros Hinit Hclear. unfold sidebar. rewrite Hinit, Hclear. cbn [when].
  assert (Hview : ends_normally
            (when (st_button inp BtnViewConfig)
               (s <- get_session ;;
                match system s with
                | Some sys => emit (Json (PyDict (sys_config sys)))
                | None => ret tt
                end))).
  { apply ends_normally_when. intros w. rewrite bind_get_session.
    destruct (system (session w)); [apply ends_normally_emit
                                   |apply ends_normally_ret]. }
  assert (Hex : ends_normally
            (for_each example_queries (fun query =>
               when (st_button inp (BtnExample query))
                 (s <- get_session ;;
                  put_session (with_current_query (Some query) s))))).
  { apply ends_normally_for_each. intros q. apply ends_normally_when.
    apply (ends_normally_set (with_current_query (Some q))). }
  repeat first
    [ exact Hview | exact Hex
    | apply ends_normally_emit
    | apply ends_normally_ret
    | apply (ends_normally_renders system_status_renders)
    | apply ends_normally_bind; [|intros ?] ].
Qed.

(** It can then change [current_query] only. *)
Lemma sidebar_preserves (I : world -> Prop) (inp : inputs) :
  st_button inp BtnInitialize = false ->
  st_button inp BtnClear = false ->
  (forall w q, I w -> I (set_session (with_current_query q (session w)) w)) ->
  preserves I (sidebar backend_new create_assistant inp).
Proof.
  intros Hinit Hclear HI. unfold sidebar. rewrite Hinit, Hclear. cbn [when].
  assert (Hview : preserves I
            (when (st_button inp BtnViewConfig)
               (s <- get_session ;;
                match system s with
                | Some sys => emit (Json (PyDict (sys_config sys)))
                | None => ret tt
                end))).
  { apply preserves_display_only. apply display_only_when.
    apply display_only_bind; [display|]. intros s.
    destruct (system s); display. }
  assert (Hex : preserves I
            (for_each example_queries (fun query =>
               when (st_button inp (BtnExample query))
                 (s <- get_session ;;
                  put_session (with_current_query (Some query) s))))).
  { apply preserves_for_each. intros q. apply preserves_when.
    apply (@preserves_set _ (with_current_query (Some q))). auto. }
  repeat first
    [ exact Hview | exact Hex
    | apply preserves_display_only; solve [display]
    | apply preserves_bind; [|intros ?] ].
Qed.

Lemma history_after_submission_ext (inp : inputs) (w1 w : world) :
  system (session w1) = system (session w) ->
  chat_history (session w1) = chat_history (session w) ->
  calls w1 = calls w ->
  history_after_submission process_query_sync inp w1 =
  history_after_submission process_query_sync inp w.
Proof.
  intros Hs Hh Hc. unfold history_after_submission. now rewrite Hs, Hh, Hc.
Qed.

(** The chat tab ends as its "Recent Queries" panel ends, on the history
    that the submission block has left. *)
Lemma chat_tab_run (inp : inputs) (w : world) :
  exists ws,
    chat_tab process_query_sync inp w =
      (ends_with
         (first_error recent_keys
            (rev (last_n 5
                    (history_after_submission process_query_sync inp w)))),
       world_after_submission process_query_sync inp
         (set_session (consume_query (session w)) w),
       ws).
Proof.
  unfold chat_tab. rewrite bind_emit, bind_get_session.
  set (w1 := set_session (consume_query (session w)) w).
  assert (Hstep : forall B (k : unit -> ui B),
             bind (when (negb (match current_query (session w) with
                               | Some q => q
                               | None => ""
                               end =? "")%string)
                     (put_session (with_current_query None (session w)))) k w
             = k tt w1).
  { intros B k. subst w1. unfold consume_query.
    destruct (current_query (session w)) as [q|]; cbn [String.eqb negb when].
    - destruct (q =? "")%string; cbn [negb when].
      + rewrite bind_ret. now destruct w.
      + unfold bind, put_session. now destruct (k tt _) as [[? ?] ?].
    - rewrite bind_ret. now destruct w. }
  rewrite Hstep. unfold bind.
  destruct (submission process_query_sync inp w1) as [[r1 w2] ws1] eqn:Hsub.
  apply submission_world in Hsub. destruct Hsub as (-> & ->).
  assert (Hh : chat_history
                 (session (world_after_submission process_query_sync inp w1))
               = history_after_submission process_query_sync inp w).
  { unfold world_after_submission. cbn [session set_session chat_history
                                        with_chat_history].
    subst w1. apply history_after_submission_ext; cbn;
      auto using consume_query_system, consume_query_history. }
  unfold recent_queries. rewrite bind_get_session, Hh.
  destruct (history_after_submission process_query_sync inp w) as [|c h];
    cbn [non_empty when].
  - now eexists.
  - rewrite !bind_emit.
    destruct (recent_records_outcome (rev (last_n 5 (c :: h)))
                (world_after_submission process_query_sync inp w1))
      as (ws2 & ->).
    now eexists.
Qed.


End StoppedPageFacts.

(* ================================================================= *)
(** * The average of percentages *)

(** Rounding a value with a short mantissa and no positive exponent
    cannot overflow. *)
Lemma binary_round_aux_short (sx : bool) (mx ex : Z) (lx : location) :
  0 <= mx -> ex <= 0 -> Zdigits2 mx <= 500 ->
  is_infinity (binary_round_aux prec64 emax64 sx mx ex lx) = false.
Proof.
  intros Hm He Hd. unfold binary_round_aux.
  pose proof (@shr_fexp_bounds mx ex lx Hm) as H1.
  destruct (shr_fexp prec64 emax64 mx ex lx) as [mrs1 e1].
  destruct H1 as (Hm1 & He1 & Hsame).
  set (m2 := round_nearest_even (shr_m mrs1) (loc_of_shr_record mrs1)).
  pose proof (round_nearest_even_bounds (shr_m mrs1) (loc_of_shr_record mrs1))
    as Hm2. fold m2 in Hm2.
  assert (Hm2' : 0 <= m2) by lia.
  pose proof (@shr_fexp_bounds m2 e1 loc_Exact Hm2') as H2.
  destruct (shr_fexp prec64 emax64 m2 e1 loc_Exact) as [mrs2 e2].
  destruct H2 as (Hm3 & He2 & _).
  destruct (shr_m mrs2) as [|p|p]; [reflexivity| |reflexivity].
  assert (Hfin : e2 <= 971); [|].
  { rewrite fexp64 in He1, He2.
    pose proof (@Zdigits2_lower mx Hm) as Hlow.
    pose proof (Zdigits2_nonneg mx) as Hnn.
    assert (Hdig : Zdigits2 m2 <= Zdigits2 mx + 1).
    { apply Zdigits2_upper; [lia|lia|].
      rewrite Z.pow_add_r, Z.pow_1_r by lia. lia. }
    lia. }
  change (emax64 - prec64) with 971.
  destruct (e2 <=? 971) eqn:E; [reflexivity|]. apply Z.leb_gt in E. lia.
Qed.

(** The integer quotient that the division rounds has at most 54
    digits when the quotient is at most one hundred. *)
Lemma div_core_digits (a b : Z) :
  0 < a -> 0 < b -> a <= 100 * b ->
  let '(q, e, _) := SFdiv_core_binary prec64 emax64 a 0 b 0 in
  0 <= q /\ Zdigits2 q <= 54 /\ e <= 0.
Proof.
  intros Ha Hb Hab. unfold SFdiv_core_binary.
  set (da := Zdigits2 a). set (db := Zdigits2 b).
  set (e := Z.min (fexp prec64 emax64 (da + 0 - (db + 0))) (0 - 0)).
  assert (Hda : 1 <= da) by (subst da; destruct a; cbn in *; lia).
  assert (Hdb : 1 <= db) by (subst db; destruct b; cbn in *; lia).
  assert (Hdab : da <= db + 7).
  { subst da db. apply Zdigits2_upper; [lia|lia|].
    pose proof (@Zdigits2_lower b ltac:(lia)) as Hlow.
    rewrite Z.pow_add_r by lia. change (2 ^ 7) with 128. lia. }
  assert (He : e <= 0 /\ da - db - e <= 53).
  { subst e. rewrite fexp64. lia. }
  set (m' := match 0 - 0 - e with
             | 0 => a
             | Z.pos _ => Z.shiftl a (0 - 0 - e)
             | Z.neg _ => 0
             end).
  assert (Hm' : m' = a * 2 ^ (- e)).
  { subst m'. replace (0 - 0 - e) with (- e) by lia.
    destruct (- e) as [|p|p] eqn:E; [cbn; lia| |lia].
    now rewrite Z.shiftl_mul_pow2 by lia. }
  pose proof (Z.div_eucl_eq m' b ltac:(lia)) as Hdiv.
  pose proof (Z.mod_pos_bound m' b ltac:(lia)) as Hmod.
  unfold Z.modulo in Hmod.
  destruct (Z.div_eucl m' b) as [q r].
  assert (Hpow : 0 < 2 ^ (- e)) by (apply Z.pow_pos_nonneg; lia).
  assert (Hq0 : 0 <= q) by nia.
  split; [exact Hq0|]. split; [|lia].
  apply Zdigits2_upper; [exact Hq0|lia|].
  pose proof (@Zdigits2_lower a ltac:(lia)) as Hla. fold da in Hla.
  pose proof (@Zdigits2_ge b Hb) as Hgb. fold db in Hgb.
  assert (Hpb : 0 < 2 ^ (db - 1)) by (apply Z.pow_pos_nonneg; lia).
  assert (Hlt : q * 2 ^ (db - 1) < 2 ^ (da - e)).
  { replace (da - e) with (da + - e) by lia.
    rewrite Z.pow_add_r by lia. nia. }
  destruct (Z_lt_le_dec (da - e) (db - 1)) as [Hsmall|Hbig].
  - assert (2 ^ (da - e) <= 2 ^ (db - 1))
      by (apply Z.pow_le_mono_r; lia).
    assert (q < 1) by nia.
    assert (0 < 2 ^ 54) by (apply Z.pow_pos_nonneg; lia). lia.
  - replace (da - e) with ((da - e - (db - 1)) + (db - 1)) in Hlt by lia.
    rewrite Z.pow_add_r in Hlt by lia.
    assert (Hq : q < 2 ^ (da - e - (db - 1))) by nia.
    assert (2 ^ (da - e - (db - 1)) <= 2 ^ 54)
      by (apply Z.pow_le_mono_r; lia).
    lia.
Qed.

(** The quotient of [0 <= a <= 100 * b] by [0 < b] is a float. *)
Lemma int_truediv_percent (a b : Z) :
  0 <= a <= 100 * b -> 0 < b ->
  exists q, int_truediv a b = Returns q /\ is_infinity q = false.
Proof.
  intros Hab Hb. unfold int_truediv.
  destruct (b =? 0) eqn:Eb; [apply Z.eqb_eq in Eb; lia|].
  destruct (a =? 0) eqn:Ea; [now eexists|].
  apply Z.eqb_neq in Ea.
  rewrite !Z.abs_eq by lia.
  pose proof (@div_core_digits a b ltac:(lia) Hb ltac:(lia)) as H.
  destruct (SFdiv_core_binary prec64 emax64 a 0 b 0) as [[q e] l].
  destruct H as (Hq & Hd & He).
  assert (Hfin : is_infinity
                   (binary_round_aux prec64 emax64
                      (xorb (a <? 0) (b <? 0)) q e l) = false)
    by (apply binary_round_aux_short; lia).
  destruct (binary_round_aux prec64 emax64 (xorb (a <? 0) (b <? 0)) q e l)
    eqn:E; try discriminate; now eexists.
Qed.

(* ================================================================= *)
(** * The recommendation counts and the average confidence *)

Lemma count_recommendation_run (lit : string) (cs : list chat) (acc : Z) :
  count_recommendation lit acc cs =
  if forallb (fun c => has_key "recommendation" (response c)) cs
  then Returns (acc + Z.of_nat (List.length (filter (recommends lit) cs)))
  else Raises (key_error "recommendation").
Proof.
  revert acc. induction cs as [|c cs IH]; intros acc;
    cbn [count_recommendation forallb filter].
  - cbn. f_equal. lia.
  - unfold dict_getitem, has_key, recommends at 1.
    destruct (dict_lookup "recommendation" (response c)) as [v|];
      cbn [rbind andb]; [|reflexivity].
    rewrite IH.
    destruct (forallb _ cs); [|reflexivity].
    destruct (py_eq_str v lit); cbn [List.length]; f_equal; lia.
Qed.

Lemma recommends_exclusive (c : chat) (a b : string) :
  a <> b -> recommends a c = true -> recommends b c = false.
Proof.
  unfold recommends, py_eq_str.
  destruct (dict_lookup "recommendation" (response c)) as [[]|];
    try discriminate; try reflexivity.
  intros Hab Ha. apply String.eqb_eq in Ha. subst.
  now apply String.eqb_neq.
Qed.

Lemma three_counts_bound (cs : list chat) :
  (List.length (filter (recommends "BUY") cs) +
   List.length (filter (recommends "SELL") cs) +
   List.length (filter (recommends "HOLD") cs) <= List.length cs)%nat.
Proof.
  induction cs as [|c cs IH]; cbn [filter List.length]; [lia|].
  destruct (recommends "BUY" c) eqn:Eb.
  - rewrite (@recommends_exclusive c "BUY" "SELL" ltac:(discriminate) Eb).
    rewrite (@recommends_exclusive c "BUY" "HOLD" ltac:(discriminate) Eb).
    cbn [List.length]. lia.
  - destruct (recommends "SELL" c) eqn:Es.
    + rewrite (@recommends_exclusive c "SELL" "HOLD" ltac:(discriminate) Es).
      cbn [List.length]. lia.
    + destruct (recommends "HOLD" c); cbn [List.length]; lia.
Qed.

(** X10: the counting loop of the dashboard returns the number of
    records whose recommendation is exactly the given string when every
    record has a ["recommendation"], and raises [KeyError] otherwise.
    The three counts the dashboard shows, for "BUY", "SELL" and "HOLD",
    never add up to more than the number of records counted: a record
    with any other recommendation (another string, or a value that is
    no string) is counted by none of the three. *)
Theorem recommendation_counts (lit : string) (cs : list chat) :
  count_recommendation lit 0 cs =
    (if forallb (fun c => has_key "recommendation" (response c)) cs
     then Returns (Z.of_nat (List.length (filter (recommends lit) cs)))
     else Raises (key_error "recommendation")) /\
  (List.length (filter (recommends "BUY") cs) +
   List.length (filter (recommends "SELL") cs) +
   List.length (filter (recommends "HOLD") cs) <= List.length cs)%nat.
Proof.
  split; [|apply three_counts_bound].
  now rewrite count_recommendation_run.
Qed.

Lemma percent_record_fields (c : chat) :
  percent_record c = true ->
  has_key "recommendation" (response c) = true /\
  exists z, dict_lookup "confidence" (response c) = Some (PyInt z) /\
            int_confidence c = Some z /\ 0 <= z <= 100.
Proof.
  unfold percent_record, int_confidence. intros H.
  apply andb_prop in H. destruct H as (Hk & Hc). split; [exact Hk|].
  destruct (dict_lookup "confidence" (response c)) as [[]|];
    try discriminate.
  apply andb_prop in Hc. destruct Hc as (H0 & H1).
  apply Z.leb_le in H0, H1. eauto.
Qed.

Lemma sum_confidence_percent (cs : list chat) (acc : Z) :
  (forall c, In c cs -> percent_record c = true) ->
  sum_confidence (PyInt acc) cs = Returns (PyInt (acc + confidence_total cs)) /\
  0 <= confidence_total cs <= 100 * Z.of_nat (List.length cs).
Proof.
  revert acc. induction cs as [|c cs IH]; intros acc Hall;
    cbn [sum_confidence confidence_total List.length].
  - split; [f_equal; f_equal; lia|lia].
  - destruct (@percent_record_fields c (Hall c (or_introl eq_refl)))
      as (_ & z & Hz & Hi & Hb).
    unfold dict_getitem. rewrite Hz, Hi. cbn [rbind py_add as_number].
    destruct (IH (acc + z) (fun c0 H => Hall c0 (or_intror H))) as (-> & Hb').
    split; [f_equal; f_equal; lia|lia].
Qed.

Lemma forallb_recommendation (cs : list chat) :
  (forall c, In c cs -> percent_record c = true) ->
  forallb (fun c => has_key "recommendation" (response c)) cs = true.
Proof.
  intros Hall. apply forallb_forall. intros c Hc.
  now apply percent_record_fields, Hall.
Qed.

(** X11: on a history with a record, when every successful record has a
    recommendation and a whole percentage (an [int] from 0 to 100) as
    its confidence, the dashboard changes nothing, ends normally and
    shows its metrics in order: the three of the first row and, when
    there is a successful record, the three counts and the average
    confidence.  The average is the float quotient of the exact sum of
    the confidences by their number, which is finite, printed with one
    decimal. *)
Theorem dashboard_of_percentages (w : world) :
  chat_history (session w) <> [] ->
  (forall c, In c (successful_queries (chat_history (session w))) ->
             percent_record c = true) ->
  let successful := successful_queries (chat_history (session w)) in
  exists ws,
    analysis_dashboard w = (Ok tt, w, ws) /\
    metric_labels ws =
      (["Total Queries"; "Successful"; "Success Rate"] ++
       if non_empty successful
       then ["🟢 BUY"; "🔴 SELL"; "🟡 HOLD"; "Average Confidence"]
       else [])%list /\
    (successful <> [] ->
     exists avg,
       int_truediv (confidence_total successful)
         (Z.of_nat (List.length successful)) = Returns avg /\
       is_infinity avg = false /\
       In ("Average Confidence", [Lit (format_1f avg ++ "%")])
          (page_metrics ws)).
Proof.
  intros Hne Hall. cbn zeta.
  destruct (analysis_dashboard_run w Hne) as (q & hundred & _ & _ & Hrun).
  rewrite Hrun. clear Hrun.
  destruct (successful_queries (chat_history (session w))) as [|s0 ss] eqn:Es;
    cbn [non_empty when].
  - eexists. split; [reflexivity|]. split; [reflexivity|].
    intros H. now contradiction H.
  - set (cs := s0 :: ss) in *.
    unfold recommendation_distribution. rewrite bind_emit.
    unfold bind, lift.
    rewrite !count_recommendation_run, (forallb_recommendation cs Hall).
    cbn [within st_metric emit app].
    unfold avg_confidence.
    destruct (@sum_confidence_percent cs 0 Hall) as (-> & Hb).
    cbn [rbind]. unfold py_truediv, py_len, int_of_nat. cbn [as_number].
    destruct (@int_truediv_percent (0 + confidence_total cs)
                (Z.of_nat (List.length cs)) ltac:(lia) ltac:(cbn; lia))
      as (avg & Havg & Hfin).
    rewrite Havg. cbn [rbind py_format_1f as_number number_to_float].
    eexists. split; [reflexivity|]. split; [reflexivity|].
    intros _. exists avg. split; [exact Havg|]. split; [exact Hfin|].
    cbn. tauto.
Qed.

(* ================================================================= *)
(** * The history tab behind the dashboard *)

Lemma sum_confidence_keys (cs : list chat) (acc total : pyval) :
  sum_confidence acc cs = Returns total ->
  forall c, In c cs -> has_key "confidence" (response c) = true.
Proof.
  revert acc. induction cs as [|c0 cs IH]; intros acc Hsum c; [intros []|].
  cbn [sum_confidence] in Hsum. unfold dict_getitem in Hsum.
  intros [<-|Hc].
  - unfold has_key.
    now destruct (dict_lookup "confidence" (response c0)).
  - destruct (dict_lookup "confidence" (response c0)) as [x|];
      [|discriminate].
    cbn [rbind] in Hsum.
    destruct (py_add acc x) as [acc'|e]; [|discriminate].
    cbn [rbind] in Hsum. exact (IH acc' Hsum c Hc).
Qed.

(** A dashboard that has ended normally has read the recommendation
    and the confidence of every successful record. *)
Lemma dashboard_keys (w : world) :
  fst (fst (analysis_dashboard w)) = Ok tt ->
  forall c, In c (chat_history (session w)) -> is_successful c = true ->
    has_key "recommendation" (response c) = true /\
    has_key "confidence" (response c) = true.
Proof.
  intros Hok c Hc Hs.
  assert (Hne : chat_history (session w) <> [])
    by (intros E; rewrite E in Hc; contradiction).
  destruct (analysis_dashboard_run w Hne) as (q & hundred & _ & _ & Hrun).
  rewrite Hrun in Hok. clear Hrun.
  assert (Hin : In c (successful_queries (chat_history (session w))))
    by (apply filter_In; auto).
  set (cs := successful_queries (chat_history (session w))) in *.
  destruct cs as [|s0 ss] eqn:Ecs; [contradiction|].
  rewrite <- Ecs in *. cbn [non_empty when] in Hok.
  replace (non_empty cs) with true in Hok by (now rewrite Ecs).
  cbn [when] in Hok. revert Hok.
  unfold recommendation_distribution. rewrite bind_emit.
  unfold bind, lift. rewrite !count_recommendation_run.
  destruct (forallb (fun c0 => has_key "recommendation" (response c0)) cs)
    eqn:Hrec; [|discriminate].
  cbn [within st_metric emit app]. unfold avg_confidence.
  destruct (sum_confidence (PyInt 0) cs) as [total|e] eqn:Hsum;
    [|discriminate].
  intros _. split.
  - rewrite forallb_forall in Hrec. now apply Hrec.
  - exact (sum_confidence_keys _ _ Hsum c Hin).
Qed.

Lemma first_error_none (ks : list string) (cs : list chat) :
  (forall c, In c cs -> is_successful c = true ->
             first_missing ks (response c) = None) ->
  first_error ks cs = None.
Proof.
  induction cs as [|c cs IH]; intros H; [reflexivity|].
  cbn [first_error]. unfold record_error.
  destruct (is_successful c) eqn:Hs.
  - rewrite (H c (or_introl eq_refl) Hs). cbn [option_map].
    apply IH. intros c0 Hc0. apply H. now right.
  - apply IH. intros c0 Hc0. apply H. now right.
Qed.

Lemma printable_export (h : list chat) :
  printable (PyList (map export_entry h)) =
  forallb (fun c => printable (PyDict (response c))) h.
Proof.
  cbn [printable]. induction h as [|c h IH]; [reflexivity|].
  cbn [map forallb]. rewrite IH. f_equal.
  unfold export_entry. cbn [printable forallb snd].
  now rewrite Bool.andb_true_r.
Qed.


(* ================================================================= *)
(** * The status after an initialization *)

Section StatusFacts.

Variable backend_new : list (string * string) -> result pydict.
Variable create_assistant : system_t -> result unit.
Variable process_query_sync :
  system_t -> list string -> string -> result pydict.

(** A run that no button triggers draws the status in the sidebar and
    leaves the world to the main content as it was. *)
Lemma sidebar_idle (inp : inputs) (w : world) :
  in_pressed inp = None ->
  exists ws,
    sidebar backend_new create_assistant inp w = (Ok tt, w, ws) /\
    forall x, In x (snd (system_status w)) -> In x ws.
Proof.
  intros Hp.
  assert (Hb : forall b, st_button inp b = false)
    by (intros b; unfold st_button; now rewrite Hp).
  unfold sidebar. rewrite !Hb. cbn [when].
  rewrite !bind_emit, bind_ret, bind_emit.
  destruct (system_status_renders w) as ([] & ws & Hst).
  rewrite (@bind_ok _ _ system_status _ _ _ _ _ Hst).
  rewrite !bind_emit, !bind_ret, !bind_emit.
  unfold example_queries. cbn [for_each].
  rewrite !Hb. cbn [when].
  rewrite !bind_ret. unfold ret. eexists. split; [reflexivity|].
  rewrite Hst. cbn [snd]. intros x Hx.
  do 3 right. apply in_or_app. now left.
Qed.

(** The page of a run whose sidebar runs to its end starts with the
    style sheet and the sidebar. *)
Lemma script_page (inp : inputs) (w w1 w2 : world) (r2 : outcome unit)
    (ws1 ws2 : list widget) :
  sidebar backend_new create_assistant inp w = (Ok tt, w1, ws1) ->
  main_content process_query_sync inp w1 = (r2, w2, ws2) ->
  exists rest,
    script backend_new create_assistant process_query_sync inp w =
      (r2, w2, MarkdownHtml [Lit custom_css] :: Sidebar ws1 :: rest).
Proof.
  intros Hside Hmain. unfold script. rewrite bind_emit.
  unfold bind at 1, within at 1. rewrite Hside.
  unfold bind at 1. rewrite Hmain.
  destruct r2 as [[]|e|]; cbn; eauto.
Qed.

(** X12: "Initialize System" on arguments the store has no entry for,
    with a backend whose constructor and [_create_assistant] return:
    the interaction (the run and the one that follows its rerun) leaves
    the session initialized with the new system, whose [config] holds
    the collection name of the sidebar, and the sidebar of the page
    shows the status "Active" with that collection name, whatever the
    constructor's own configuration says. *)
Theorem status_after_initialization
    (inp : inputs) (w : world) (config : pydict) :
  in_pressed inp = Some BtnInitialize ->
  cache_lookup (in_use_qdrant inp, in_qdrant_local inp, in_collection_name inp)
    (cache w) = None ->
  (forall env, backend_new env = Returns config) ->
  (forall sys, create_assistant sys = Returns tt) ->
  exists r w' side rest,
    interact backend_new create_assistant process_query_sync inp w =
      (r, w', MarkdownHtml [Lit custom_css] :: Sidebar side :: rest) /\
    initialized (session w') = true /\
    system (session w') =
      Some (mkSystem (next_id w)
              (dict_set config "qdrant_collection"
                 (PyStr (in_collection_name inp)))) /\
    In (Success [Lit "🟢 Active"]) side /\
    In (Info [Lit "**Collection:** "; Val (PyStr (in_collection_name inp))])
       side.
Proof.
  intros Hp Hmiss Hnew Hcreate.
  set (sysv := mkSystem (next_id w)
                 (dict_set config "qdrant_collection"
                    (PyStr (in_collection_name inp)))).
  assert (Hlook : dict_lookup "qdrant_collection" (sys_config sysv) =
                  Some (PyStr (in_collection_name inp)))
    by apply dict_lookup_set_same.
  assert (Hinit : exists w1,
             initialize_system backend_new create_assistant
               (in_use_qdrant inp) (in_qdrant_local inp)
               (in_collection_name inp) w = (Ok (Some sysv, None), w1, [])).
  { unfold initialize_system. rewrite Hmiss.
    rewrite initialize_system_body_effect. cbn zeta.
    rewrite Hnew, Hcreate. eexists. reflexivity. }
  destruct Hinit as (w1 & Hinit).
  destruct (@sidebar_initialize_run backend_new create_assistant inp w w1
              _ _ Hp Hinit) as (ws & Hside).
  cbn [error_truthy] in Hside. destruct Hside as [Hside _].
  set (w2 := set_session
               (with_initialized true (with_system (Some sysv) (session w)))
               w1) in *.
  unfold interact.
  rewrite (script_stops backend_new create_assistant process_query_sync
             inp w Hside) by discriminate.
  set (inp' := mkInputs _ _ _ _ None _).
  destruct (@sidebar_idle inp' w2 eq_refl) as (side & Hside2 & Hstatus).
  destruct (main_content process_query_sync inp' w2)
    as [[r2 w3] ws2] eqn:Hmain.
  destruct (script_page inp' w2 Hside2 Hmain) as (rest & ->).
  apply main_content_world in Hmain. destruct Hmain as (_ & ->).
  exists r2. eexists. exists side, rest. split; [reflexivity|].
  assert (Hidle : st_button inp' BtnAnalyze = false) by reflexivity.
  rewrite (world_after_submission_idle process_query_sync inp' _ Hidle).
  cbn [session set_session initialized with_initialized w2].
  rewrite consume_query_initialized, consume_query_system.
  cbn [initialized system with_initialized with_system].
  split; [reflexivity|]. split; [reflexivity|].
  assert (Hst : snd (system_status w2) =
                [ Markdown [Lit "### 📊 System Status"];
                  Success [Lit "🟢 Active"];
                  Info [Lit ("**RAG:** " ++
                             if truthy (dict_get (sys_config sysv)
                                          "use_qdrant" PyNone)
                             then "Enabled" else "Disabled")];
                  Info [Lit ("**Mode:** " ++
                             if truthy (dict_get (sys_config sysv)
                                          "qdrant_local" PyNone)
                             then "Local" else "Cloud")];
                  Info [Lit "**Collection:** ";
                        Val (PyStr (in_collection_name inp))] ]).
  { unfold system_status. rewrite bind_emit, bind_get_session.
    cbn [session set_session initialized system with_initialized
         with_system w2].
    rewrite !bind_emit. unfold emit. cbn [snd].
    rewrite (dict_get_lookup (sys_config sysv) "qdrant_collection"), Hlook.
    reflexivity. }
  split; apply Hstatus; rewrite Hst; cbn; tauto.
Qed.

End StatusFacts.

(* ================================================================= *)
(** * The "View Details" buttons *)

Lemma history_entry_jsons (inp : inputs) (i : nat) (c : chat) (w : world) :
  record_error history_keys c = None ->
  exists ws,
    history_entry inp (i, c) w = (Ok tt, w, ws) /\
    page_jsons ws =
      if st_button inp (BtnDetail i) then [PyDict (response c)] else [].
Proof.
  unfold history_entry, record_error, is_successful, history_keys.
  unfold within at 1.
  unfold bind at 1. unfold within at 1. rewrite !bind_emit.
  destruct (truthy (dict_get (response c) "success" PyNone)).
  - unfold first_missing, has_key, dict_getitem, bind, lift.
    destruct (dict_lookup "recommendation" (response c)); [|discriminate].
    cbn [emit app].
    destruct (dict_lookup "confidence" (response c)); [|discriminate].
    cbn [emit app within option_map ends_with]. intros _.
    destruct (st_button inp (BtnDetail i)); eexists; split; reflexivity.
  - cbn [emit app within option_map ends_with]. intros _.
    unfold bind. cbn [emit within].
    destruct (st_button inp (BtnDetail i)); eexists; split; reflexivity.
Qed.

Lemma for_each_jsons (inp : inputs) (i : nat) (xs : list chat) :
  in_pressed inp = Some (BtnDetail i) ->
  first_error history_keys xs = None ->
  forall (n : nat) (w : world), exists ws,
    for_each (enumerate n xs) (history_entry inp) w = (Ok tt, w, ws) /\
    page_jsons ws =
      if (n <=? i)%nat then
        match nth_error xs (i - n) with
        | Some c => [PyDict (response c)]
        | None => []
        end
      else [].
Proof.
  intros Hp. induction xs as [|c xs IH]; intros Herr n w;
    cbn [enumerate for_each].
  - exists []. split; [reflexivity|].
    destruct (n <=? i)%nat; [|reflexivity]. now destruct (i - n)%nat.
  - cbn [first_error] in Herr.
    destruct (record_error history_keys c) eqn:Ec; [discriminate|].
    destruct (@history_entry_jsons inp n c w Ec) as (ws1 & H1 & J1).
    destruct (IH Herr (S n) w) as (ws2 & H2 & J2).
    unfold bind. rewrite H1, H2. eexists. split; [reflexivity|].
    unfold page_jsons in *. rewrite flat_map_app, J1, J2.
    rewrite (st_button_pressed inp Hp). cbn [button_eqb].
    destruct (Nat.eqb n i) eqn:En.
    + apply Nat.eqb_eq in En. subst n.
      rewrite Nat.leb_refl, Nat.sub_diag.
      destruct (S i <=? i)%nat eqn:E; [apply Nat.leb_le in E; lia|].
      reflexivity.
    + apply Nat.eqb_neq in En. cbn [app].
      destruct (n <=? i)%nat eqn:E1.
      * apply Nat.leb_le in E1.
        destruct (S n <=? i)%nat eqn:E2; [|apply Nat.leb_gt in E2; lia].
        replace (i - n)%nat with (S (i - S n)) by lia. reflexivity.
      * apply Nat.leb_gt in E1.
        destruct (S n <=? i)%nat eqn:E2; [apply Nat.leb_le in E2; lia|].
        reflexivity.
Qed.


(* ================================================================= *)
(** * The row of metrics and the configuration view *)


Section ConfigurationFacts.

Variable backend_new : list (string * string) -> result pydict.
Variable create_assistant : system_t -> result unit.

(** X15: a run triggered by "View Configuration" changes nothing; its
    sidebar draws one JSON view, of the [config] of the session's
    system, and none when the session has no system. *)
Theorem view_configuration (inp : inputs) (w : world) :
  in_pressed inp = Some BtnViewConfig ->
  exists ws,
    sidebar backend_new create_assistant inp w = (Ok tt, w, ws) /\
    page_jsons ws =
      match system (session w) with
      | Some sys => [PyDict (sys_config sys)]
      | None => []
      end.
Proof.
  intros Hp. unfold sidebar, system_status, example_queries.
  cbn [for_each]. rewrite !(st_button_pressed inp Hp).
  cbn [button_eqb when]. unfold bind, emit, ret, get_session.
  destruct (system (session w)) as [sys|] eqn:Hs;
    destruct (initialized (session w)); cbn; rewrite ?Hs;
    eexists; split; reflexivity.
Qed.

End ConfigurationFacts.

(* ================================================================= *)
(** * The further properties on the sample session *)

Lemma sidebar_initialize_witness :
  in_pressed (Sample.press BtnInitialize) = Some BtnInitialize /\
  exists w' ws,
    sidebar Sample.new_config Sample.create (Sample.press BtnInitialize)
      Sample.the_world = (Rerun, w', ws) /\
    In (Success [Lit "✅ System initialized successfully!"]) ws.
Proof.
  split; [reflexivity|].
  destruct (@sidebar_initialize Sample.new_config Sample.create
              (Sample.press BtnInitialize) Sample.the_world eq_refl)
    as (sys & err & w1 & ws & Hinit & _ & Hside).
  injection Hinit as <- <- <-.
  destruct Hside as (Hside & Hin).
  eexists _, ws. split; [exact Hside|exact Hin].
Defined.

Lemma silent_failure_marks_initialized_witness :
  in_pressed (Sample.press BtnInitialize) = Some BtnInitialize /\
  cache_lookup (true, true, "trading_knowledge") (cache Sample.the_world)
    = None /\
  exn_str (mkExn (OtherException "RuntimeError") "") = "" /\
  exists w' ws,
    sidebar Sample.silent_new Sample.create (Sample.press BtnInitialize)
      Sample.the_world = (Rerun, w', ws) /\
    initialized (session w') = true /\
    system (session w') = None.
Proof.
  split; [reflexivity|]. split; [reflexivity|]. split; [reflexivity|].
  destruct (@silent_failure_marks_initialized Sample.silent_new Sample.create
              (Sample.press BtnInitialize) Sample.the_world
              (mkExn (OtherException "RuntimeError") "")
              eq_refl eq_refl (fun _ => eq_refl) eq_refl)
    as (w' & ws & Hside & Hi & Hs & _).
  now exists w', ws.
Defined.

Lemma example_query_consumed_witness :
  in_pressed (Sample.press (BtnExample "Analyze Tesla stock")) =
    Some (BtnExample "Analyze Tesla stock") /\
  In "Analyze Tesla stock" example_queries /\
  snd (fst (script Sample.new_config Sample.create Sample.process
              (Sample.press (BtnExample "Analyze Tesla stock"))
              Sample.the_world)) = Sample.the_world.
Proof.
  assert (Hin : In "Analyze Tesla stock" example_queries)
    by (cbn; tauto).
  split; [reflexivity|]. split; [exact Hin|].
  exact (@example_query_consumed Sample.new_config Sample.create
           Sample.process (Sample.press (BtnExample "Analyze Tesla stock"))
           Sample.the_world "Analyze Tesla stock" eq_refl Hin).
Defined.


Lemma dashboard_of_percentages_witness :
  chat_history (session Sample.the_world) <> [] /\
  (forall c,
      In c (successful_queries (chat_history (session Sample.the_world))) ->
      percent_record c = true) /\
  exists ws,
    analysis_dashboard Sample.the_world = (Ok tt, Sample.the_world, ws) /\
    metric_labels ws =
      ["Total Queries"; "Successful"; "Success Rate";
       "🟢 BUY"; "🔴 SELL"; "🟡 HOLD"; "Average Confidence"].
Proof.
  assert (Hne : chat_history (session Sample.the_world) <> [])
    by discriminate.
  assert (Hall : forall c,
             In c (successful_queries
                     (chat_history (session Sample.the_world))) ->
             percent_record c = true).
  { intros c [<-|[]]. reflexivity. }
  split; [exact Hne|]. split; [exact Hall|].
  destruct (@dashboard_of_percentages Sample.the_world Hne Hall)
    as (ws & Hrun & Hlabels & _).
  exists ws. split; [exact Hrun|exact Hlabels].
Defined.

Lemma status_after_initialization_witness :
  in_pressed (Sample.press BtnInitialize) = Some BtnInitialize /\
  cache_lookup (true, true, "trading_knowledge") (cache Sample.the_world)
    = None /\
  exists r w' side rest,
    interact Sample.new_config Sample.create Sample.process
      (Sample.press BtnInitialize) Sample.the_world =
      (r, w', MarkdownHtml [Lit custom_css] :: Sidebar side :: rest) /\
    initialized (session w') = true /\
    In (Info [Lit "**Collection:** "; Val (PyStr "trading_knowledge")]) side.
Proof.
  split; [reflexivity|]. split; [reflexivity|].
  destruct (@status_after_initialization Sample.new_config Sample.create
              Sample.process (Sample.press BtnInitialize) Sample.the_world
              [("use_qdrant", PyBool true); ("qdrant_local", PyBool true)]
              eq_refl eq_refl (fun _ => eq_refl) (fun _ => eq_refl))
    as (r & w' & side & rest & Hrun & Hi & _ & _ & Hc).
  exists r, w', side, rest. auto.
Defined.



Lemma view_configuration_witness :
  in_pressed (Sample.press BtnViewConfig) = Some BtnViewConfig /\
  exists ws,
    sidebar Sample.new_config Sample.create (Sample.press BtnViewConfig)
      Sample.the_world = (Ok tt, Sample.the_world, ws) /\
    page_jsons ws = [PyDict (sys_config Sample.the_system)].
Proof.
  split; [reflexivity|].
  exact (@view_configuration Sample.new_config Sample.create
           (Sample.press BtnViewConfig) Sample.the_world eq_refl).
Defined.

Lemma initialize_system_is_cached_witness :
  (forall r, ~ In ((true, true, "stocks"), r) (cache Sample.the_world)) /\
  (forall r, ~ In ((true, false, "stocks"), r) (cache Sample.the_world)) /\
  (true, true, "stocks") <> (true, false, "stocks") /\
  exists sys sys' w1 w2,
    initialize_system Sample.new_config Sample.create true true "stocks"
      Sample.the_world = (Ok (Some sys, None), w1, []) /\
    initialize_system Sample.new_config Sample.create true true "stocks" w1
      = (Ok (Some sys, None), w1, []) /\
    initialize_system Sample.new_config Sample.create true false "stocks" w1
      = (Ok (Some sys', None), w2, []) /\
    sys_id sys <> sys_id sys' /\
    initialize_system Sample.new_config Sample.create true true "stocks" w2
      = (Ok (Some sys, None), w2, []).
Proof.
  assert (Ha : forall r,
             ~ In ((true, true, "stocks"), r) (cache Sample.the_world))
    by (intros r []).
  assert (Hb : forall r,
             ~ In ((true, false, "stocks"), r) (cache Sample.the_world))
    by (intros r []).
  assert (Hn : (true, true, "stocks") <> (true, false, "stocks"))
    by discriminate.
  split; [exact Ha|]. split; [exact Hb|]. split; [exact Hn|].
  destruct (@initialize_system_is_cached Sample.new_config Sample.create
              true true "stocks" true false "stocks" [] Sample.the_world
              Ha Hb Hn)
    as (res & wb & res' & wb' & Hbody & _ & Hfirst & Hagain & Hbody' &
        Hother & Hids & Hlater & _).
  cbn [fst snd] in *.
  injection Hbody as <- <-. injection Hbody' as <- <-.
  eexists _, _, _, _. split; [exact Hfirst|]. split; [exact Hagain|].
  split; [exact Hother|]. split; [|exact Hlater].
  exact (Hids _ _ eq_refl eq_refl).
Defined.

